(** * MetaTags: template/document frontmatter synchronisation

    A shallow embedding of the MetaTags Obsidian plugin.  Three revisions of
    the plugin are in the repository; each is embedded in a module of its own:

    - [Main]     : [src/main.ts] (templates live in the folder named after the
                   tag base; frontmatter comes from the host's metadata cache;
                   writes go through [replaceFrontMatter]);
    - [Legacy]   : the first program of the second source file (frontmatter is
                   re-parsed from the file text with [extractFrontmatter];
                   merges go through [mergeFrontmatter]; template changes
                   through [syncNotesWithTemplate], which asks for a
                   confirmation);
    - [Folder]   : the second program of the second source file ([Main] plus a
                   configurable template folder and reference-removed pruning).

    JavaScript values are an inductive type, objects are association lists in
    property-enumeration order, strings are [string]s of code units below 256,
    the YAML libraries are a parameter ([YamlLib]), the host (vault, metadata
    cache, confirmation dialog) and the plugin's fields are an explicit state
    threaded through a small state-and-exception monad. *)

From Stdlib Require Import String Ascii List ZArith Lia Bool DecimalString.
From stdpp Require Import gmap strings.
Import ListNotations.

(** ** JavaScript strings *)

Module JsString.

Definition LF : string := String "010"%char EmptyString.
Definition DQUOTE : string := String "034"%char EmptyString.
Definition BACKSLASH : string := String "092"%char EmptyString.

(** [s.indexOf(needle, from)] for a non-empty [needle]; [None] is [-1]. *)
Definition indexOf (s needle : string) (from : nat) : option nat :=
  String.index from needle s.

(** [s.substring(start)] *)
Fixpoint substring (s : string) (start : nat) : string :=
  match start, s with
  | O, _ => s
  | S _, EmptyString => EmptyString
  | S n, String _ s' => substring s' n
  end.

(** [s.substring(start, end)] for [start <= end] *)
Definition slice (s : string) (start stop : nat) : string :=
  String.substring start (stop - start) s.

Definition startsWith (s p : string) : bool := String.prefix p s.

(** [s.includes(needle)] *)
Definition includes (s needle : string) : bool :=
  match String.index 0 needle s with Some _ => true | None => false end.

(** White space in the sense of [String.prototype.trim], for code units
    below 256: TAB, LF, VT, FF, CR, SPACE and NBSP. *)
Definition isWhiteSpace (c : ascii) : bool :=
  let n := nat_of_ascii c in
  (Nat.leb 9 n && Nat.leb n 13) || Nat.eqb n 32 || Nat.eqb n 160.

Fixpoint trimStart (s : string) : string :=
  match s with
  | EmptyString => EmptyString
  | String c s' => if isWhiteSpace c then trimStart s' else s
  end.

Definition reverse (s : string) : string :=
  string_of_list_ascii (List.rev (list_ascii_of_string s)).

Definition trimEnd (s : string) : string := reverse (trimStart (reverse s)).

Definition trim (s : string) : string := trimEnd (trimStart s).

(** [s.replace(pat, by)] with a string pattern: the first occurrence only. *)
Definition replace (s pat by_ : string) : string :=
  match String.index 0 pat s with
  | Some i => String.substring 0 i s +:+ by_ +:+ substring s (i + String.length pat)
  | None => s
  end.

(** [l.join(sep)] *)
Definition join (sep : string) (l : list string) : string := String.concat sep l.

(** [needle] occurs in [s] at position [p]. *)
Definition occursAt (needle s : string) (p : nat) : Prop :=
  String.substring p (String.length needle) s = needle.

End JsString.

(** ** JavaScript values, as YAML and the metadata cache produce them

    Numbers are the integers (no fractions, no NaN or infinities); an
    object is the list of its own enumerable properties. *)

#[local] Set Warnings "-register-all".

Inductive value : Type :=
| VUndefined
| VNull
| VBool (b : bool)
| VNum (n : Z)
| VStr (s : string)
| VArr (l : list value)
| VObj (o : list (string * value)).

(** An object: its own enumerable string-keyed properties in enumeration
    order (array-index keys ascending, then the others in creation order). *)
Abbreviation obj := (list (string * value)).

Module Js.
Import JsString.

Definition decimal (n : N) : string := NilZero.string_of_uint (N.to_uint n).

(** The array index a property name denotes, if it is the canonical decimal
    form of an integer below 2^32 - 1. *)
Definition arrayIndex (k : string) : option N :=
  match NilZero.uint_of_string k with
  | Some u =>
      let n := N.of_uint u in
      if String.eqb (decimal n) k && (n <? 4294967295)%N then Some n else None
  | None => None
  end.

(** *** Own properties *)

Fixpoint getProp (k : string) (o : obj) : option value :=
  match o with
  | [] => None
  | (k', v) :: o' => if String.eqb k' k then Some v else getProp k o'
  end.

Definition hasOwn (k : string) (o : obj) : bool :=
  match getProp k o with Some _ => true | None => false end.

Fixpoint updateProp (k : string) (v : value) (o : obj) : obj :=
  match o with
  | [] => []
  | (k', v') :: o' =>
      if String.eqb k' k then (k', v) :: o' else (k', v') :: updateProp k v o'
  end.

Fixpoint insertIndex (n : N) (k : string) (v : value) (o : obj) : obj :=
  match o with
  | [] => [(k, v)]
  | (k', v') :: o' =>
      match arrayIndex k' with
      | Some n' => if (n' <? n)%N then (k', v') :: insertIndex n k v o'
                   else (k, v) :: o
      | None => (k, v) :: o
      end
  end.

(** [o[k] = v] on a plain object: an existing property keeps its place, a
    new array-index key is enumerated among the indices, any other new key
    last. *)
Definition setProp (k : string) (v : value) (o : obj) : obj :=
  if hasOwn k o then updateProp k v o
  else match arrayIndex k with
       | Some n => insertIndex n k v o
       | None => o ++ [(k, v)]
       end.

(** [delete o[k]] *)
Definition deleteProp (k : string) (o : obj) : obj :=
  List.filter (fun kv => negb (String.eqb (fst kv) k)) o.

(** [Object.keys(o)] *)
Definition keys (o : obj) : list string := List.map fst o.

(** [Object.assign(tgt, src)] *)
Definition assign (tgt src : obj) : obj :=
  fold_left (fun acc kv => setProp (fst kv) (snd kv) acc) src tgt.

(** The own enumerable properties an arbitrary value contributes to a
    spread: those of an object, the elements of an array, the characters
    of a string, nothing for the other primitives. *)
Fixpoint indexed {A} (f : A -> value) (i : N) (l : list A) : obj :=
  match l with
  | [] => []
  | x :: l' => (decimal i, f x) :: indexed f (N.succ i) l'
  end.

Definition ownEntries (v : value) : obj :=
  match v with
  | VObj o => o
  | VArr l => indexed (fun x => x) 0%N l
  | VStr s => indexed (fun c => VStr (String c EmptyString)) 0%N (list_ascii_of_string s)
  | _ => []
  end.

(** [{ ...a, ...b }] *)
Definition spread (a b : obj) : obj := assign (assign [] a) b.

(** Property names every plain object inherits from [Object.prototype]:
    the [in] operator sees them, [hasOwnProperty] does not. *)
Definition Object_prototype : list string :=
  [ "constructor"; "__defineGetter__"; "__defineSetter__"; "hasOwnProperty";
    "__lookupGetter__"; "__lookupSetter__"; "isPrototypeOf";
    "propertyIsEnumerable"; "toString"; "valueOf"; "__proto__";
    "toLocaleString" ].

Definition inherited (k : string) : bool :=
  List.existsb (String.eqb k) Object_prototype.

(** [k in o] *)
Definition inOp (k : string) (o : obj) : bool := hasOwn k o || inherited k.

(** [Object.prototype.hasOwnProperty.call(v, k)] for a [v] that is not
    nullish: a sequence and a string have, besides their elements, the own
    property [length], which is not enumerable. *)
Definition hasOwnProperty (v : value) (k : string) : bool :=
  match v with
  | VArr _ | VStr _ => String.eqb k "length" || hasOwn k (ownEntries v)
  | _ => hasOwn k (ownEntries v)
  end.

(** *** Tests on values *)

Definition truthy (v : value) : bool :=
  match v with
  | VUndefined | VNull => false
  | VBool b => b
  | VNum n => negb (n =? 0)%Z
  | VStr s => negb (String.eqb s EmptyString)
  | VArr _ | VObj _ => true
  end.

(** [v] is the empty string *)
Definition isEmptyString (v : value) : bool :=
  match v with VStr s => String.eqb s EmptyString | _ => false end.

(** [v === null] *)
Definition isNull (v : value) : bool :=
  match v with VNull => true | _ => false end.

(** [v == null] *)
Definition isNullish (v : value) : bool :=
  match v with VNull | VUndefined => true | _ => false end.

(** [v === VStr s] *)
Definition isString (s : string) (v : value) : bool :=
  match v with VStr s' => String.eqb s' s | _ => false end.

(** [v === VBool b] *)
Definition isBool (b : bool) (v : value) : bool :=
  match v with VBool b' => Bool.eqb b' b | _ => false end.

(** *** [JSON.stringify] *)

Definition hexDigit (n : nat) : string :=
  String.substring n 1 "0123456789abcdef".

Definition quoteChar (c : ascii) : string :=
  let n := nat_of_ascii c in
  if Nat.eqb n 34 then BACKSLASH +:+ DQUOTE
  else if Nat.eqb n 92 then BACKSLASH +:+ BACKSLASH
  else if Nat.eqb n 8 then BACKSLASH +:+ "b"
  else if Nat.eqb n 9 then BACKSLASH +:+ "t"
  else if Nat.eqb n 10 then BACKSLASH +:+ "n"
  else if Nat.eqb n 12 then BACKSLASH +:+ "f"
  else if Nat.eqb n 13 then BACKSLASH +:+ "r"
  else if Nat.ltb n 32 then BACKSLASH +:+ "u00" +:+ hexDigit (n / 16) +:+ hexDigit (n mod 16)
  else String c EmptyString.

Definition quote (s : string) : string :=
  DQUOTE +:+ String.concat EmptyString (List.map quoteChar (list_ascii_of_string s)) +:+ DQUOTE.

Definition numberToString (n : Z) : string :=
  NilZero.string_of_int (Z.to_int n).

(** [None] is [undefined]: [JSON.stringify(undefined)]. *)
Fixpoint JSON_stringify (v : value) : option string :=
  match v with
  | VUndefined => None
  | VNull => Some "null"
  | VBool b => Some (if b then "true" else "false")
  | VNum n => Some (numberToString n)
  | VStr s => Some (quote s)
  | VArr l =>
      Some ("[" +:+ join ","
              (List.map (fun x => match JSON_stringify x with
                                  | Some s => s
                                  | None => "null"
                                  end) l) +:+ "]")
  | VObj o =>
      Some ("{" +:+ join ","
              (List.flat_map
                 (fun kv : string * value => let (k, x) := kv in
                            match JSON_stringify x with
                            | Some s => [quote k +:+ ":" +:+ s]
                            | None => []
                            end) o) +:+ "}")
  end.

End Js.

(** ** The YAML libraries

    [js-yaml] ([dump]) and [yaml] ([parse], [stringify]) are not part of the
    repository: the plugin is embedded over an arbitrary implementation.
    [YAML_parse] throws on a syntax error. *)

Inductive outcome (A : Type) : Type :=
| Returned (a : A)
| Thrown (e : string).
Arguments Returned {A} a.
Arguments Thrown {A} e.

Record YamlLib : Type := {
  YAML_parse : string -> outcome value;
  YAML_stringify : value -> string;
  JSYAML_dump : value -> string
}.

(** ** The host, and asynchronous functions over it *)

Module Host.

(** A markdown file of the vault. *)
Record TFile : Type := { path : string; basename : string }.

(** [metadataCache.getFileCache(file)]: the indexed frontmatter and the
    inline tags ([tc.tag] of every entry of [tags]). *)
Record CachedMetadata : Type := {
  frontmatter : option obj;
  tags : list string
}.

Inductive Event : Type :=
| Confirm (message : string) (answer : bool)
| Modify (path data : string)
| ModifyRejected (path data : string).

Record World : Type := {
  markdownFiles : list TFile;                 (* vault.getMarkdownFiles() *)
  vaultText : gmap string string;             (* the text of every file *)
  metadataCache : gmap string CachedMetadata; (* by path; lags behind writes *)
  readOnly : gset string;                     (* paths whose writes the host rejects *)
  confirmAnswer : string -> bool;             (* window.confirm *)
  events : list Event                         (* what was done, oldest first *)
}.

Definition withText (t : gmap string string) (w : World) : World :=
  {| markdownFiles := markdownFiles w; vaultText := t;
     metadataCache := metadataCache w; readOnly := readOnly w;
     confirmAnswer := confirmAnswer w; events := events w |}.

Definition withEvent (e : Event) (w : World) : World :=
  {| markdownFiles := markdownFiles w; vaultText := vaultText w;
     metadataCache := metadataCache w; readOnly := readOnly w;
     confirmAnswer := confirmAnswer w; events := events w ++ [e] |}.

(** An [async] function of a plugin whose fields are [P]: it returns or
    throws (its promise is fulfilled or rejected), and leaves the plugin and
    the world as they are at that point. *)
Definition Async (P A : Type) : Type := P * World -> outcome A * (P * World).

Definition ret {P A} (a : A) : Async P A := fun s => (Returned a, s).

Definition bind {P A B} (m : Async P A) (f : A -> Async P B) : Async P B :=
  fun s => match m s with
           | (Returned a, s') => f a s'
           | (Thrown e, s') => (Thrown e, s')
           end.

(** [try { m } finally { h }] *)
Definition finally {P A} (m : Async P A) (h : P -> P) : Async P A :=
  fun s => match m s with (r, (p, w)) => (r, (h p, w)) end.

Definition getPlugin {P} : Async P P := fun s => (Returned (fst s), s).
Definition getWorld {P} : Async P World := fun s => (Returned (snd s), s).
Definition setPlugin {P} (f : P -> P) : Async P unit :=
  fun s => (Returned tt, (f (fst s), snd s)).
Definition lift {P A} (r : outcome A) : Async P A := fun s => (r, s).

Declare Scope async_scope.
Delimit Scope async_scope with async.
Notation "x <- m ;; k" := (bind m (fun x => k))
  (at level 100, m at next level, right associativity) : async_scope.
Notation "m ;;; k" := (bind m (fun _ => k))
  (at level 100, right associativity) : async_scope.

(** [for (const x of l) await body(x)] *)
Fixpoint forEach {P A} (l : list A) (body : A -> Async P unit) : Async P unit :=
  match l with
  | [] => ret tt
  | x :: l' => bind (body x) (fun _ => forEach l' body)
  end.

(** [vault.getAbstractFileByPath(p)], for markdown files. *)
Definition getAbstractFileByPath (w : World) (p : string) : option TFile :=
  List.find (fun f => String.eqb (path f) p) (markdownFiles w).

(** [metadataCache.getFileCache(file)?.frontmatter] *)
Definition cachedFrontmatter (w : World) (f : TFile) : option obj :=
  match metadataCache w !! path f with
  | Some c => frontmatter c
  | None => None
  end.

(** [await vault.read(file)] *)
Definition read {P} (f : TFile) : Async P string :=
  fun s => match vaultText (snd s) !! path f with
           | Some t => (Returned t, s)
           | None => (Thrown "ENOENT", s)
           end.

(** [await vault.modify(file, data)] *)
Definition modify {P} (f : TFile) (data : string) : Async P unit :=
  fun s =>
    let w := snd s in
    if bool_decide (path f ∈ readOnly w)
    then (Thrown "EACCES", (fst s, withEvent (ModifyRejected (path f) data) w))
    else (Returned tt,
          (fst s, withEvent (Modify (path f) data)
                    (withText (<[path f := data]> (vaultText w)) w))).

(** [window.confirm(message)] *)
Definition confirm {P} (message : string) : Async P bool :=
  fun s =>
    let w := snd s in
    let a := confirmAnswer w message in
    (Returned a, (fst s, withEvent (Confirm message a) w)).

(** [m] does not change the field [field] of the plugin. *)
Definition keeps {P F A} (field : P -> F) (m : Async P A) : Prop :=
  forall s, field (fst (snd (m s))) = field (fst s).

(** [m] only appends to the log, and what it appends satisfies [Q]. *)
Definition emits {P A} (Q : list Event -> Prop) (m : Async P A) : Prop :=
  forall s, exists es, events (snd (snd (m s))) = events (snd s) ++ es /\ Q es.

(** The event is a write, attempted or done: not a question to the user. *)
Definition isWrite (e : Event) : Prop :=
  match e with Confirm _ _ => False | _ => True end.

End Host.

(** ** The structured-block codec *)

Module Codec.
Import JsString Js.

Definition MARK : string := "---".

(** [content.match(/^---\n([\s\S]*?)\n---/)]: the captured group and the
    text after the match.  The lazy group ends at the first [\n---] at or
    after position 4. *)
Definition matchBlock (content : string) : option (string * string) :=
  if startsWith content (MARK +:+ LF) then
    match indexOf content (LF +:+ MARK) 4 with
    | Some j => Some (slice content 4 j, substring content (j + 4))
    | None => None
    end
  else None.

(** [content.split(/^---\n[\s\S]*?\n---/).pop()] *)
Definition afterBlock (content : string) : string :=
  match matchBlock content with
  | Some (_, rest) => rest
  | None => content
  end.

Section WithYaml.
Variable Y : YamlLib.

(** [extractFrontmatter] (both programs of the second source file) *)
Definition extractFrontmatter (content : string) : outcome value :=
  match matchBlock content with
  | Some (block, _) =>
      match YAML_parse Y block with
      | Returned v => Returned v
      | Thrown _ => Returned (VObj [])      (* catch (e) *)
      end
  | None => Returned (VObj [])
  end.

(** [updateContentWithFrontmatter] ([Legacy]) *)
Definition updateContentWithFrontmatter (content : string) (frontmatter : value) : string :=
  let frontmatterString := MARK +:+ LF +:+ YAML_stringify Y frontmatter +:+ MARK +:+ LF in
  let existingBody := trim (afterBlock content) in
  frontmatterString +:+ LF +:+ existingBody.

(** The [restOfContent] of [replaceFrontMatter] *)
Definition restOfContent (content : string) : string :=
  match indexOf content MARK 0 with
  | Some yamlStart =>
      match indexOf content MARK (yamlStart + 3) with
      | Some yamlEnd => trimStart (substring content (yamlEnd + 3))
      | None => trimStart content
      end
  | None => trimStart content
  end.

(** [replaceFrontMatter] ([Main] and [Folder]) *)
Definition replaceFrontMatter (content : string) (newData : value) : string :=
  let newYaml := JSYAML_dump Y newData in
  MARK +:+ LF +:+ newYaml +:+ MARK +:+ LF +:+ LF +:+ restOfContent content.

End WithYaml.

End Codec.

(** ** Well-formed objects and operations on arbitrary values *)

Module JsAny.
Import JsString Js.

(** [k1] is enumerated before [k2] in any object that has both. *)
Definition entryBefore (k1 k2 : string) : bool :=
  match arrayIndex k1, arrayIndex k2 with
  | Some a, Some b => (a <? b)%N
  | Some _, None => true
  | None, Some _ => false
  | None, None => negb (String.eqb k1 k2)
  end.

(** The keys are in enumeration order: no key twice, array indices first
    and ascending. *)
Fixpoint enumerationb (ks : list string) : bool :=
  match ks with
  | [] => true
  | k :: ks' => List.forallb (entryBefore k) ks' && enumerationb ks'
  end.

(** The association list is the enumeration of an object. *)
Definition wellFormed (o : obj) : Prop := enumerationb (keys o) = true.

Definition isIndex (k : string) : bool :=
  match arrayIndex k with Some _ => true | None => false end.

(** The keys that are not array indices, in creation order. *)
Definition namedKeys (o : obj) : list string :=
  List.filter (fun k => negb (isIndex k)) (keys o).

(** The named keys after an assignment to [k]. *)
Definition addNamed (nk : list string) (k : string) : list string :=
  if isIndex k || List.existsb (String.eqb k) nk then nk else nk ++ [k].

(** [v[k]] for an own property, [undefined] otherwise. *)
Definition member (v : value) (k : string) : value :=
  match getProp k (ownEntries v) with
  | Some x => x
  | None => VUndefined
  end.

(** [new Set(l)] spread back into an array: first occurrences, in order. *)
Fixpoint dedupe (l : list string) : list string :=
  match l with
  | [] => []
  | x :: l' => x :: List.filter (fun y => negb (String.eqb y x)) (dedupe l')
  end.

(** [l.map(tag => tag.startsWith("#") ? tag.substring(1) : tag)] on values
    that should be strings: a [TypeError] on the first that is not. *)
Fixpoint stripHashes (l : list value) : outcome (list string) :=
  match l with
  | [] => Returned []
  | VStr tag :: l' =>
      match stripHashes l' with
      | Returned r =>
          Returned ((if startsWith tag "#" then substring tag 1 else tag) :: r)
      | Thrown e => Thrown e
      end
  | _ :: _ => Thrown "TypeError"
  end.

End JsAny.

(** ** [src/main.ts] *)

Module Main.
Import JsString Js JsAny Host Codec.
Local Open Scope async_scope.

Record MetaTagsSettings : Type := {
  tagBase : string;
  deleteEmptyMetatagProperties : bool;   (* [Folder] only *)
  templateFolderPath : string            (* [Folder] only *)
}.

Definition DEFAULT_SETTINGS : MetaTagsSettings :=
  {| tagBase := "mt"; deleteEmptyMetatagProperties := false;
     templateFolderPath := EmptyString |}.

Record Plugin : Type := {
  settings : MetaTagsSettings;
  fileTagCache : gmap string (list string);
  templateCache : gmap string obj
}.

Definition withTemplateCache (c : gmap string obj) (p : Plugin) : Plugin :=
  {| settings := settings p; fileTagCache := fileTagCache p; templateCache := c |}.

(** [getAllTags] *)
Definition getAllTags (w : World) (file : TFile) : outcome (list string) :=
  let fileCache := metadataCache w !! path file in
  let tagCache := match fileCache with Some c => tags c | None => [] end in
  let frontmatterTags :=
    match fileCache with
    | Some c => match frontmatter c with
                | Some fm => member (VObj fm) "tags"
                | None => VUndefined
                end
    | None => VUndefined
    end in
  let tags0 := List.map VStr tagCache in
  let tags1 :=
    if truthy frontmatterTags then
      match frontmatterTags with
      | VStr s => tags0 ++ [VStr s]
      | VArr l => tags0 ++ l
      | _ => tags0
      end
    else tags0 in
  match stripHashes tags1 with
  | Returned l => Returned (dedupe l)
  | Thrown e => Thrown e
  end.

Definition getAddedTags (prevTags currentTags : list string) : list string :=
  List.filter (fun tag => negb (List.existsb (String.eqb tag) prevTags)) currentTags.

Definition getRemovedTags (prevTags currentTags : list string) : list string :=
  List.filter (fun tag => negb (List.existsb (String.eqb tag) currentTags)) prevTags.

Section WithYaml.
Variable Y : YamlLib.

(** The [newData] of [syncTemplateToNote] after the loop over
    [addedProps]. *)
Definition withAddedProps (addedProps : list string) (currTemplateData newData : obj) : obj :=
  fold_left
    (fun newData prop =>
       if negb (inOp prop newData)
       then setProp prop (member (VObj currTemplateData) prop) newData
       else newData)
    addedProps newData.

(** [newData[prop]] is the empty string or [== null]; a property that is
    only inherited holds a function or the prototype object. *)
Definition holdsEmpty (prop : string) (newData : obj) : bool :=
  match getProp prop newData with
  | Some v => isEmptyString v || isNullish v
  | None => negb (inherited prop)
  end.

(** The [newData] of [syncTemplateToNote] after the loop over
    [removedProps]. *)
Definition withoutRemovedProps (removedProps : list string) (newData : obj) : obj :=
  fold_left
    (fun newData prop =>
       if inOp prop newData && holdsEmpty prop newData
       then deleteProp prop newData
       else newData)
    removedProps newData.

(** The [newData] that [syncTemplateToNote] writes. *)
Definition syncedData (addedProps removedProps : list string)
    (currTemplateData noteData : obj) : obj :=
  withoutRemovedProps removedProps
    (withAddedProps addedProps currTemplateData (assign [] noteData)).

Definition syncTemplateToNote (file : TFile) (metaTagName : string)
    (addedProps removedProps : list string) (currTemplateData : obj)
  : Async Plugin unit :=
  w <- getWorld ;;
  let noteData := default [] (cachedFrontmatter w file) in
  let newData := syncedData addedProps removedProps currTemplateData noteData in
  content <- read file ;;
  let newContent := replaceFrontMatter Y content (VObj newData) in
  modify file newContent.

Definition ignoreProps : list string := ["tags"; "mt"].

Definition propsOf (data : obj) : list string :=
  List.filter (fun prop => negb (List.existsb (String.eqb prop) ignoreProps))
    (keys data).

Definition addedPropsOf (prevTemplateData currTemplateData : obj) : list string :=
  List.filter
    (fun prop => negb (List.existsb (String.eqb prop) (propsOf prevTemplateData)))
    (propsOf currTemplateData).

Definition removedPropsOf (prevTemplateData currTemplateData : obj) : list string :=
  List.filter
    (fun prop => negb (List.existsb (String.eqb prop) (propsOf currTemplateData)))
    (propsOf prevTemplateData).

Definition handleTemplateMetadataChange (templateFile : TFile) : Async Plugin unit :=
  let metaTagName := basename templateFile in
  p <- getPlugin ;;
  w <- getWorld ;;
  let prevTemplateData := default [] (templateCache p !! path templateFile) in
  let currTemplateData := default [] (cachedFrontmatter w templateFile) in
  setPlugin (fun p => withTemplateCache
                        (<[path templateFile := currTemplateData]> (templateCache p)) p) ;;;
  let addedProps := addedPropsOf prevTemplateData currTemplateData in
  let removedProps := removedPropsOf prevTemplateData currTemplateData in
  let allFiles := markdownFiles w in
  forEach allFiles
    (fun file =>
       w' <- getWorld ;;
       tags <- lift (getAllTags w' file) ;;
       if List.existsb (String.eqb (tagBase (settings p) +:+ "/" +:+ metaTagName)) tags
       then syncTemplateToNote file metaTagName addedProps removedProps currTemplateData
       else ret tt).

(** The [mergedTemplateData] of [applyTemplateMetadata] after its loop,
    given how a name resolves to a template's frontmatter ([None]: the
    template file is not found). *)
Definition mergedTemplateDataOf (templateData : string -> option obj)
    (metaTagNames : list string) : obj :=
  fold_left
    (fun mergedTemplateData metaTagName =>
       match templateData metaTagName with
       | None => mergedTemplateData                       (* continue *)
       | Some data => spread mergedTemplateData data
       end)
    metaTagNames [].

Definition templateDataOf (p : Plugin) (w : World) (metaTagName : string) : option obj :=
  let templateFilePath := tagBase (settings p) +:+ "/" +:+ metaTagName +:+ ".md" in
  match getAbstractFileByPath w templateFilePath with
  | None => None
  | Some templateFile => Some (default [] (cachedFrontmatter w templateFile))
  end.

(** The [mergedData] of [applyTemplateMetadata]. *)
Definition mergedDataOf (templateData : string -> option obj)
    (metaTagNames : list string) (noteData : obj) : obj :=
  spread (mergedTemplateDataOf templateData metaTagNames) noteData.

Definition applyTemplateMetadata (file : TFile) (metaTagNames : list string)
  : Async Plugin unit :=
  p <- getPlugin ;;
  w <- getWorld ;;
  let noteData := default [] (cachedFrontmatter w file) in
  let mergedData := mergedDataOf (templateDataOf p w) metaTagNames noteData in
  content <- read file ;;
  let newContent := replaceFrontMatter Y content (VObj mergedData) in
  modify file newContent.

(** [removeEmptyTemplateProperties]: the body starts with [return]. *)
Definition removeEmptyTemplateProperties (file : TFile) (metaTagName : string)
  : Async Plugin unit :=
  ret tt.

End WithYaml.

End Main.

(** ** The first program of the second source file *)

Module Legacy.
Import JsString Js JsAny Host Codec.
Local Open Scope async_scope.

Record Plugin : Type := {
  tagBase : string;                            (* settings.tagBase *)
  suppressChange : bool;
  suppressTemplateChange : bool;
  previousTemplateState : gmap string value
}.

Definition withSuppressChange (b : bool) (p : Plugin) : Plugin :=
  {| tagBase := tagBase p; suppressChange := b;
     suppressTemplateChange := suppressTemplateChange p;
     previousTemplateState := previousTemplateState p |}.

Definition withSuppressTemplateChange (b : bool) (p : Plugin) : Plugin :=
  {| tagBase := tagBase p; suppressChange := suppressChange p;
     suppressTemplateChange := b;
     previousTemplateState := previousTemplateState p |}.

Definition withPreviousTemplateState (m : gmap string value) (p : Plugin) : Plugin :=
  {| tagBase := tagBase p; suppressChange := suppressChange p;
     suppressTemplateChange := suppressTemplateChange p;
     previousTemplateState := m |}.

(** [isEmpty] *)
Definition isEmpty (v : value) : bool :=
  match v with
  | VUndefined | VNull => true
  | VStr s => String.eqb s EmptyString
  | _ => false
  end.

(** [getDeletedProperties]; [hasOwnProperty.call] throws on a nullish
    [newTemplate] at the first key of [oldTemplate]. *)
Definition getDeletedProperties (oldTemplate newTemplate : value)
  : outcome (list string) :=
  match ownEntries oldTemplate with
  | [] => Returned []
  | entries =>
      if isNullish newTemplate then Thrown "TypeError"
      else Returned
             (List.filter (fun key => negb (hasOwnProperty newTemplate key))
                (keys entries))
  end.

(** [mergeFrontmatter] *)
Definition mergeFrontmatter (tagBase : string) (existing template : value) : obj :=
  let merged := spread (ownEntries template) (ownEntries existing) in
  match getProp "tags" merged with
  | Some (VArr l) =>
      setProp "tags"
        (VArr (List.filter (fun tag => negb (isString tagBase tag)) l)) merged
  | _ => merged
  end.

(** [JSON.stringify(a) === JSON.stringify(b)] *)
Definition sameJSON (a b : value) : bool :=
  match JSON_stringify a, JSON_stringify b with
  | Some x, Some y => String.eqb x y
  | None, None => true
  | _, _ => false
  end.

(** [metadata?.frontmatter?.tags?.includes(tag)]: [Array.prototype.includes]
    on a list, [String.prototype.includes] on a string, [undefined] when
    there are no tags, a [TypeError] on any other value. *)
Definition tagsInclude (w : World) (file : TFile) (tag : string) : outcome bool :=
  match cachedFrontmatter w file with
  | None => Returned false
  | Some fm =>
      match getProp "tags" fm with
      | None | Some VUndefined | Some VNull => Returned false
      | Some (VArr l) => Returned (List.existsb (isString tag) l)
      | Some (VStr s) => Returned (includes s tag)
      | Some _ => Thrown "TypeError"
      end
  end.

Section WithYaml.
Variable Y : YamlLib.

(** What [applyMetadataTemplate] decides to write: [None] when the
    frontmatter is identical and the update is skipped. *)
Definition updatedContentOf (tagBase existingContent : string)
    (existingFrontmatter templateFrontmatter : value) : option string :=
  let mergedFrontmatter :=
    VObj (mergeFrontmatter tagBase existingFrontmatter templateFrontmatter) in
  if sameJSON existingFrontmatter mergedFrontmatter then None
  else Some (updateContentWithFrontmatter Y existingContent mergedFrontmatter).

Definition applyMetadataTemplate (file : TFile) (templateName : string)
  : Async Plugin unit :=
  p <- getPlugin ;;
  if suppressChange p then ret tt else
  w <- getWorld ;;
  match getAbstractFileByPath w (templateName +:+ ".md") with
  | None => ret tt
  | Some templateFile =>
      templateContent <- read templateFile ;;
      templateFrontmatter <- lift (extractFrontmatter Y templateContent) ;;
      if truthy templateFrontmatter then
        existingContent <- read file ;;
        existingFrontmatter <- lift (extractFrontmatter Y existingContent) ;;
        match updatedContentOf (tagBase p) existingContent
                existingFrontmatter templateFrontmatter with
        | None => ret tt
        | Some updatedContent =>
            setPlugin (withSuppressChange true) ;;;
            finally (modify file updatedContent) (withSuppressChange false)
        end
      else ret tt
  end.

(** The [forEach] over [deletedProperties] in [syncNotesWithTemplate]:
    [existingFrontmatter.hasOwnProperty(prop) && !existingFrontmatter[prop]],
    for a root that is a mapping; the call throws when the mapping has a
    property of its own named [hasOwnProperty], which is no function.  The
    other roots are not covered: the definition returns them as they are,
    which is what the code does for a number, a boolean and a non-empty
    string only. *)
Definition withoutEmpties (deletedProperties : list string)
    (existingFrontmatter : value) : outcome value :=
  match deletedProperties with
  | [] => Returned existingFrontmatter
  | _ =>
      if isNullish existingFrontmatter then Thrown "TypeError"
      else match existingFrontmatter with
           | VObj o =>
               if hasOwn "hasOwnProperty" o then Thrown "TypeError"
               else
                 Returned
                   (VObj (fold_left
                            (fun o prop =>
                               if hasOwn prop o && negb (truthy (member (VObj o) prop))
                               then deleteProp prop o else o)
                            deletedProperties o))
           | other => Returned other
           end
  end.

Definition confirmMessage (templateName : string) (deletedProperties : list string)
  : string :=
  "The following properties will be removed from all notes with the MetaTag "
    +:+ DQUOTE +:+ templateName +:+ DQUOTE +:+ ":" +:+ LF
    +:+ join ", " deletedProperties +:+ LF +:+ LF +:+ "Do you want to proceed?".

Definition revertedContentOf (previousFrontmatter : value)
    (newTemplateContent : string) : string :=
  MARK +:+ LF +:+ YAML_stringify Y previousFrontmatter +:+ MARK +:+ LF
    +:+ afterBlock newTemplateContent.

(** The body of the loop over [allFiles] in [syncNotesWithTemplate]. *)
Definition syncNote (templateName : string) (deletedProperties : list string)
    (newTemplateFrontmatter : value) (file : TFile) : Async Plugin unit :=
  p <- getPlugin ;;
  w <- getWorld ;;
  bound <- lift (tagsInclude w file (tagBase p +:+ "/" +:+ templateName)) ;;
  if bound then
    existingContent <- read file ;;
    parsed <- lift (extractFrontmatter Y existingContent) ;;
    existingFrontmatter <- lift (withoutEmpties deletedProperties parsed) ;;
    let mergedFrontmatter :=
      VObj (mergeFrontmatter (tagBase p) existingFrontmatter newTemplateFrontmatter) in
    if negb (sameJSON existingFrontmatter mergedFrontmatter) then
      let updatedContent :=
        updateContentWithFrontmatter Y existingContent mergedFrontmatter in
      setPlugin (withSuppressChange true) ;;;
      modify file updatedContent ;;;
      setPlugin (withSuppressChange false)
    else ret tt
  else ret tt.

(** [this.previousTemplateState[templateName] || {}] *)
Definition previousFrontmatterOf (p : Plugin) (templateName : string) : value :=
  match previousTemplateState p !! templateName with
  | Some v => if truthy v then v else VObj []
  | None => VObj []
  end.

Definition syncNotesWithTemplate (templateName : string) : Async Plugin unit :=
  w <- getWorld ;;
  match getAbstractFileByPath w (templateName +:+ ".md") with
  | None => ret tt
  | Some templateFile =>
      p <- getPlugin ;;
      let previousFrontmatter := previousFrontmatterOf p templateName in
      newTemplateContent <- read templateFile ;;
      newTemplateFrontmatter <- lift (extractFrontmatter Y newTemplateContent) ;;
      if negb (truthy newTemplateFrontmatter) then ret tt else
      deletedProperties <-
        lift (getDeletedProperties previousFrontmatter newTemplateFrontmatter) ;;
      proceed <-
        (match deletedProperties with
         | [] => ret true
         | _ => confirm (confirmMessage templateName deletedProperties)
         end) ;;
      if negb proceed then
        setPlugin (withSuppressTemplateChange true) ;;;
        modify templateFile (revertedContentOf previousFrontmatter newTemplateContent) ;;;
        setPlugin (withSuppressTemplateChange false)
      else
        setPlugin (fun p => withPreviousTemplateState
                              (<[templateName := newTemplateFrontmatter]>
                                 (previousTemplateState p)) p) ;;;
        forEach (markdownFiles w)
          (syncNote templateName deletedProperties newTemplateFrontmatter)
  end.

End WithYaml.

End Legacy.

(** ** The second program of the second source file *)

Module Folder.
Import JsString Js JsAny Host Codec.
Import Main.
Local Open Scope async_scope.

(** [getAllTagsFromFrontmatter] *)
Definition getAllTagsFromFrontmatter (frontmatter : obj) : outcome (list string) :=
  let tags := member (VObj frontmatter) "tags" in
  if negb (truthy tags) then Returned []
  else match tags with
       | VStr s => stripHashes [VStr s]
       | VArr l => stripHashes l
       | _ => Returned []
       end.

(** Is [file] a template carrying the base tag? *)
Definition carriesBaseTag (p : Plugin) (w : World) (file : TFile) : outcome bool :=
  match cachedFrontmatter w file with
  | Some frontmatter =>
      match getAllTagsFromFrontmatter frontmatter with
      | Returned tags =>
          Returned (List.existsb (String.eqb (tagBase (settings p))) tags)
      | Thrown e => Thrown e
      end
  | None => Returned false
  end.

Fixpoint findTemplate (p : Plugin) (w : World) (templateName : string)
    (allFiles : list TFile) : outcome (option TFile) :=
  match allFiles with
  | [] => Returned None
  | file :: rest =>
      if String.eqb (basename file) templateName then
        match carriesBaseTag p w file with
        | Returned true => Returned (Some file)
        | Returned false => findTemplate p w templateName rest
        | Thrown e => Thrown e
        end
      else findTemplate p w templateName rest
  end.

(** [getTemplateFileByName] *)
Definition getTemplateFileByName (p : Plugin) (w : World) (templateName : string)
  : outcome (option TFile) :=
  let templateFolderPath := trim (templateFolderPath (settings p)) in
  if negb (String.eqb templateFolderPath EmptyString) then
    Returned (getAbstractFileByPath w
                (templateFolderPath +:+ "/" +:+ templateName +:+ ".md"))
  else findTemplate p w templateName (markdownFiles w).

Section WithYaml.
Variable Y : YamlLib.

(** Does the loop of [removeEmptyTemplateProperties] delete [key], whose
    value in the note is [noteValue]?  ([templateData[key]] is only tested
    for being a boolean, which the [length] of a sequence or a string is
    not.) *)
Definition prunes (templateData : value) (key : string) (noteValue : value) : bool :=
  hasOwnProperty templateData key &&
  (let templateValue := member templateData key in
   if isEmptyString noteValue || isNull noteValue then true
   else match templateValue with
        | VBool b => isBool b noteValue
        | _ => false
        end).

(** The [newData] of [removeEmptyTemplateProperties] after its loop;
    [templateData.hasOwnProperty(key)] throws on a nullish [templateData],
    and on one that has a property of its own named [hasOwnProperty], which
    is no function. *)
Definition prunedData (noteData : obj) (templateData : value) : outcome obj :=
  let newData := assign [] noteData in
  match newData with
  | [] => Returned newData
  | _ =>
      if isNullish templateData || hasOwn "hasOwnProperty" (ownEntries templateData)
      then Thrown "TypeError"
      else Returned
             (fold_left
                (fun newData key =>
                   if prunes templateData key (member (VObj newData) key)
                   then deleteProp key newData else newData)
                (keys newData) newData)
  end.

Definition removeEmptyTemplateProperties (file : TFile) (metaTagName : string)
  : Async Plugin unit :=
  p <- getPlugin ;;
  w <- getWorld ;;
  let noteData := default [] (cachedFrontmatter w file) in
  content <- read file ;;
  found <- lift (getTemplateFileByName p w metaTagName) ;;
  match found with
  | None => ret tt
  | Some templateFile =>
      templateContent <- read templateFile ;;
      templateData <- lift (extractFrontmatter Y templateContent) ;;
      newData <- lift (prunedData noteData templateData) ;;
      let newContent := replaceFrontMatter Y content (VObj newData) in
      modify file newContent
  end.

(** [handleMetaTagRemoved], without the view refresh. *)
Definition handleMetaTagRemoved (file : TFile) (removedTags : list string)
  : Async Plugin unit :=
  p <- getPlugin ;;
  forEach removedTags
    (fun tag =>
       if startsWith tag (tagBase (settings p) +:+ "/") then
         let metaTagName := replace tag (tagBase (settings p) +:+ "/") EmptyString in
         if deleteEmptyMetatagProperties (settings p)
         then removeEmptyTemplateProperties file metaTagName
         else ret tt
       else ret tt).

Definition templateDataOf (p : Plugin) (w : World) (metaTagName : string)
  : outcome (option obj) :=
  match getTemplateFileByName p w metaTagName with
  | Returned None => Returned None
  | Returned (Some templateFile) =>
      Returned (Some (default [] (cachedFrontmatter w templateFile)))
  | Thrown e => Thrown e
  end.

(** The loop of [applyTemplateMetadata] from [mergedTemplateData] on;
    it stops when [getTemplateFileByName] throws. *)
Fixpoint mergedTemplateDataFrom (p : Plugin) (w : World)
    (metaTagNames : list string) (mergedTemplateData : obj) : outcome obj :=
  match metaTagNames with
  | [] => Returned mergedTemplateData
  | metaTagName :: rest =>
      match templateDataOf p w metaTagName with
      | Returned None => mergedTemplateDataFrom p w rest mergedTemplateData
      | Returned (Some templateData) =>
          mergedTemplateDataFrom p w rest (spread mergedTemplateData templateData)
      | Thrown e => Thrown e
      end
  end.

Definition applyTemplateMetadata (file : TFile) (metaTagNames : list string)
  : Async Plugin unit :=
  p <- getPlugin ;;
  w <- getWorld ;;
  let noteData := default [] (cachedFrontmatter w file) in
  mergedTemplateData <- lift (mergedTemplateDataFrom p w metaTagNames []) ;;
  let mergedData := spread mergedTemplateData noteData in
  content <- read file ;;
  let newContent := replaceFrontMatter Y content (VObj mergedData) in
  modify file newContent.

End WithYaml.

End Folder.

(** ** Sample data

    A small implementation of the YAML interface, for running the plugin on
    concrete vaults: block mappings of plain one-line scalars and block
    sequences are emitted the way [js-yaml] emits them, and the texts listed
    in [parseTable] are parsed the way [yaml] parses them. *)

Module Sample.
Import JsString Js JsAny Host Codec.

Definition scalar (v : value) : string :=
  match v with
  | VStr EmptyString => "''"
  | VStr s => s
  | VNull | VUndefined => "null"
  | VBool true => "true"
  | VBool false => "false"
  | VNum n => numberToString n
  | VArr _ => "[]"
  | VObj _ => "{}"
  end.

Definition line (kv : string * value) : string :=
  match snd kv with
  | VArr (x :: l) =>
      fst kv +:+ ":" +:+ LF +:+
      String.concat EmptyString (List.map (fun y => "  - " +:+ scalar y +:+ LF) (x :: l))
  | v => fst kv +:+ ": " +:+ scalar v +:+ LF
  end.

Definition emit (v : value) : string :=
  match v with
  | VObj (kv :: o) => String.concat EmptyString (List.map line (kv :: o))
  | v => scalar v +:+ LF
  end.

(** The frontmatter of the templates [Book] (now, and as it was when it
    still had [rating]) and [Film]. *)
Definition Book : obj := [("author", VStr "unknown"); ("tags", VArr [VStr "mt"])].
Definition BookBefore : obj :=
  [("author", VStr "unknown"); ("rating", VStr "unrated"); ("tags", VArr [VStr "mt"])].
Definition Film : obj := [("author", VStr "anonymous"); ("seen", VBool true)].

(** The frontmatter of a note that references [Book], before and after the
    template is merged into it. *)
Definition Note : obj :=
  [("rating", VStr EmptyString); ("author", VStr "Jane"); ("tags", VArr [VStr "mt/Book"])].
Definition NoteMerged : obj :=
  [("author", VStr "Jane"); ("tags", VArr [VStr "mt/Book"]); ("rating", VStr EmptyString)].

Definition block (data : obj) : string :=
  "---" +:+ LF +:+ emit (VObj data) +:+ "---" +:+ LF.

Definition bookText : string := block Book.
Definition noteText : string := block Note +:+ LF +:+ "body".
Definition noteMergedText : string := block NoteMerged +:+ LF +:+ "body".

(** [emit data] without its final line feed: what the pattern of
    [extractFrontmatter] captures in [block data]. *)
Definition captured (data : obj) : string :=
  let s := emit (VObj data) in String.substring 0 (String.length s - 1) s.

Definition parseTable : list (string * outcome value) :=
  [ ("[", Thrown "YAMLParseError");
    ("title: a---b", Returned (VObj [("title", VStr "a---b")]));
    (captured Book, Returned (VObj Book));
    (captured BookBefore, Returned (VObj BookBefore));
    (captured Note, Returned (VObj Note));
    (captured NoteMerged, Returned (VObj NoteMerged)) ].

Definition parse (s : string) : outcome value :=
  match List.find (fun e => String.eqb (fst e) s) parseTable with
  | Some e => snd e
  | None => Thrown "YAMLParseError"
  end.

Definition yaml : YamlLib :=
  {| YAML_parse := parse; YAML_stringify := emit; JSYAML_dump := emit |}.

Definition templates (metaTagName : string) : option obj :=
  if String.eqb metaTagName "Book" then Some Book
  else if String.eqb metaTagName "Film" then Some Film
  else None.

(** A vault for [Main]: templates are in the folder [mt]; the template
    [Book] no longer has [rating], its snapshot still has it; the note
    references [Book] and has an empty [rating]. *)
Definition bookFile : TFile := {| path := "mt/Book.md"; basename := "Book" |}.
Definition noteFile : TFile := {| path := "note.md"; basename := "note" |}.

Definition vault : World :=
  {| markdownFiles := [bookFile; noteFile];
     vaultText := <["note.md" := noteMergedText]> (<["mt/Book.md" := bookText]> ∅);
     metadataCache :=
       <["note.md" := {| frontmatter := Some NoteMerged; tags := [] |}]>
         (<["mt/Book.md" := {| frontmatter := Some Book; tags := [] |}]> ∅);
     readOnly := ∅;
     confirmAnswer := fun _ => false;
     events := [] |}.

(** The same vault, with a note the host refuses to write. *)
Definition lockedVault : World :=
  {| markdownFiles := markdownFiles vault; vaultText := vaultText vault;
     metadataCache := metadataCache vault; readOnly := {["note.md"]};
     confirmAnswer := confirmAnswer vault; events := [] |}.

Definition plugin : Main.Plugin :=
  {| Main.settings := Main.DEFAULT_SETTINGS;
     Main.fileTagCache := ∅;
     Main.templateCache := <["mt/Book.md" := BookBefore]> ∅ |}.

(** A vault for [Legacy]: templates are at the root and carry the base
    tag; the stored state of [Book] still has [rating]; the user declines
    confirmations. *)
Definition legacyBookFile : TFile := {| path := "Book.md"; basename := "Book" |}.

Definition legacyVault : World :=
  {| markdownFiles := [legacyBookFile; noteFile];
     vaultText := <["note.md" := noteText]> (<["Book.md" := bookText]> ∅);
     metadataCache :=
       <["note.md" := {| frontmatter := Some Note; tags := [] |}]>
         (<["Book.md" := {| frontmatter := Some Book; tags := [] |}]> ∅);
     readOnly := ∅;
     confirmAnswer := fun _ => false;
     events := [] |}.

Definition legacyPlugin : Legacy.Plugin :=
  {| Legacy.tagBase := "mt";
     Legacy.suppressChange := false;
     Legacy.suppressTemplateChange := false;
     Legacy.previousTemplateState := <["Book" := VObj BookBefore]> ∅ |}.

(** A delimited block that is not YAML, and a body. *)
Definition malformed : string :=
  "---" +:+ LF +:+ "[" +:+ LF +:+ "---" +:+ LF +:+ "body".

(** A block with the marker inside a value, a blank line, and a body. *)
Definition titled : string :=
  "---" +:+ LF +:+ "title: a---b" +:+ LF +:+ "---" +:+ LF +:+ LF +:+ "body".

End Sample.

(** ** The rest of [src/main.ts]: tag changes and start-up *)

Module MainFlow.
Import JsString Js JsAny Host Codec Main.
Local Open Scope async_scope.

Definition withFileTagCache (c : gmap string (list string)) (p : Plugin) : Plugin :=
  {| settings := settings p; fileTagCache := c; templateCache := templateCache p |}.

(** A call to an [async] function that is not awaited: the caller goes on
    whether it returns or throws.  What the call does is taken to be done
    when the caller goes on (nothing else runs in between). *)
Definition detached {P A} (m : Async P A) : Async P unit :=
  fun s => (Returned tt, snd (m s)).

(** A file or a folder of the vault, with what [getAllTemplateFiles] reads of
    it: the extension of a file, the children of a folder. *)
Inductive TAbstractFile : Type :=
| AFile (file : TFile) (extension : string)
| AFolder (folderPath : string) (children : list TAbstractFile).

Definition abstractPath (a : TAbstractFile) : string :=
  match a with
  | AFile file _ => path file
  | AFolder folderPath _ => folderPath
  end.

(** The files [getAllTemplateFiles] collects from one child of a folder. *)
Fixpoint templateFilesIn (child : TAbstractFile) : list TFile :=
  match child with
  | AFile file extension => if String.eqb extension "md" then [file] else []
  | AFolder _ children => List.flat_map templateFilesIn children
  end.

(** [getAllTemplateFiles] *)
Definition getAllTemplateFiles (folder : TAbstractFile) : list TFile :=
  match folder with
  | AFile _ _ => []
  | AFolder _ children => List.flat_map templateFilesIn children
  end.

(** What [getAllTags] makes of one tag: [tag.startsWith("#") ?
    tag.substring(1) : tag]. *)
Definition stripHash (tag : string) : string :=
  if startsWith tag "#" then substring tag 1 else tag.

(** The names [handleMetaTagAdded] passes on: the added tags that start with
    the base tag and a slash, without that prefix. *)
Definition metaTagNamesOf (tagBase : string) (addedTags : list string) : list string :=
  List.map (fun tag => replace tag (tagBase +:+ "/") EmptyString)
    (List.filter (fun tag => startsWith tag (tagBase +:+ "/")) addedTags).

Section WithYaml.
Variable Y : YamlLib.

(** [handleMetaTagAdded] ([applyMetaTagAttributes] does nothing). *)
Definition handleMetaTagAdded (file : TFile) (addedTags : list string)
  : Async Plugin unit :=
  p <- getPlugin ;;
  match metaTagNamesOf (tagBase (settings p)) addedTags with
  | [] => ret tt
  | metaTagNames => applyTemplateMetadata Y file metaTagNames
  end.

(** [handleMetaTagRemoved] ([removeMetaTagAttributes] does nothing). *)
Definition handleMetaTagRemoved (file : TFile) (removedTags : list string)
  : Async Plugin unit :=
  p <- getPlugin ;;
  forEach removedTags
    (fun tag =>
       if startsWith tag (tagBase (settings p)) then
         let metaTagName := replace tag (tagBase (settings p) +:+ "/") EmptyString in
         removeEmptyTemplateProperties file metaTagName
       else ret tt).

(** [syncTemplateToNotes] *)
Definition syncTemplateToNotes (file : TFile) (metaTagName : string)
  : Async Plugin unit :=
  p <- getPlugin ;;
  w <- getWorld ;;
  match getAbstractFileByPath w
          (tagBase (settings p) +:+ "/" +:+ metaTagName +:+ ".md") with
  | None => ret tt
  | Some templateFile =>
      let templateData := default [] (cachedFrontmatter w templateFile) in
      let noteData := default [] (cachedFrontmatter w file) in
      let mergedData := spread templateData noteData in
      content <- read file ;;
      let newContent := replaceFrontMatter Y content (VObj mergedData) in
      modify file newContent
  end.

(** [initializeFileTagCache] *)
Definition initializeFileTagCache : Async Plugin unit :=
  w <- getWorld ;;
  forEach (markdownFiles w)
    (fun file =>
       tags <- lift (getAllTags w file) ;;
       setPlugin (fun p => withFileTagCache (<[path file := tags]> (fileTagCache p)) p)).

(** The folders of the vault, which the host keeps: the folder a file is in
    ([file.parent], absent for a file outside the tree) and the file or
    folder at a path ([getAbstractFileByPath]). *)
Variable parentPath : TFile -> option string.
Variable abstractFileAt : string -> option TAbstractFile.

(** [isTemplateFile] *)
Definition isTemplateFile (p : Plugin) (file : TFile) : bool :=
  match parentPath file, abstractFileAt (tagBase (settings p)) with
  | Some parent, Some templatesFolder => String.eqb parent (abstractPath templatesFolder)
  | _, _ => false
  end.

(** [initializeTemplateCache] *)
Definition initializeTemplateCache : Async Plugin unit :=
  p <- getPlugin ;;
  w <- getWorld ;;
  match abstractFileAt (tagBase (settings p)) with
  | Some (AFolder folderPath children) =>
      forEach (getAllTemplateFiles (AFolder folderPath children))
        (fun file =>
           let frontmatter := default [] (cachedFrontmatter w file) in
           setPlugin (fun p => withTemplateCache
                                 (<[path file := frontmatter]> (templateCache p)) p))
  | _ => ret tt
  end.

(** What [onload] registers with [onLayoutReady]: the two scans, one after
    the other. *)
Definition onLayoutReady : Async Plugin unit :=
  initializeFileTagCache ;;; initializeTemplateCache.

(** [onMetadataChanged]; the call of [handleTemplateMetadataChange] is not
    awaited. *)
Definition onMetadataChanged (file : TFile) : Async Plugin unit :=
  p <- getPlugin ;;
  if isTemplateFile p file then
    detached (handleTemplateMetadataChange Y file)
  else
    w <- getWorld ;;
    currentTags <- lift (getAllTags w file) ;;
    let prevTags := default [] (fileTagCache p !! path file) in
    let addedTags := getAddedTags prevTags currentTags in
    let removedTags := getRemovedTags prevTags currentTags in
    (match addedTags with
     | [] => ret tt
     | _ => handleMetaTagAdded file addedTags
     end) ;;;
    (match removedTags with
     | [] => ret tt
     | _ => handleMetaTagRemoved file removedTags
     end) ;;;
    setPlugin (fun p => withFileTagCache
                          (<[path file := currentTags]> (fileTagCache p)) p).

End WithYaml.

End MainFlow.

(** ** The rest of the first program of the second source file *)

Module LegacyFlow.
Import JsString Js JsAny Host Codec Legacy.
Local Open Scope async_scope.

(** [hasTagBase] *)
Definition hasTagBase (tagBase : string) (tags : value) : bool :=
  if negb (truthy tags) then false
  else match tags with
       | VArr l => List.existsb (isString tagBase) l
       | _ => false
       end.

(** The replacement text of [String.prototype.replace] for a string pattern:
    [$$] is a dollar, [$&] the match, [$`] the text before it, [$'] the text
    after it; any other dollar stands for itself. *)
Fixpoint substitution (replacement matched before after : string) : string :=
  match replacement with
  | EmptyString => EmptyString
  | String c rest =>
      if Ascii.eqb c "$"%char then
        match rest with
        | String d rest' =>
            if Ascii.eqb d "$"%char then
              "$" +:+ substitution rest' matched before after
            else if Ascii.eqb d "&"%char then
              matched +:+ substitution rest' matched before after
            else if Ascii.eqb d "`"%char then
              before +:+ substitution rest' matched before after
            else if Ascii.eqb d "'"%char then
              after +:+ substitution rest' matched before after
            else String c (substitution rest matched before after)
        | EmptyString => String c EmptyString
        end
      else String c (substitution rest matched before after)
  end.

(** [s.replace(pattern, replacement)] for a string pattern and a string
    replacement. *)
Definition replaceWith (s pattern replacement : string) : string :=
  match String.index 0 pattern s with
  | Some i =>
      let before := String.substring 0 i s in
      let after := substring s (i + String.length pattern) in
      before +:+ substitution replacement pattern before after +:+ after
  | None => s
  end.

(** The whole match of [/^---\n[\s\S]*?\n---/] in [content]. *)
Definition matchedBlock (content : string) : option string :=
  match matchBlock content with
  | Some (block, _) => Some (MARK +:+ LF +:+ block +:+ LF +:+ MARK)
  | None => None
  end.

(** The text [addFrontmatterToFile] writes. *)
Definition contentWithFrontmatter (content frontmatter : string) : string :=
  match matchedBlock content with
  | Some whole =>
      replaceWith content whole (MARK +:+ LF +:+ frontmatter +:+ LF +:+ MARK)
  | None => MARK +:+ LF +:+ frontmatter +:+ LF +:+ MARK +:+ LF +:+ LF +:+ content
  end.

(** [addFrontmatterToFile] *)
Definition addFrontmatterToFile (file : TFile) (frontmatter : string)
  : Async Plugin unit :=
  content <- read file ;;
  modify file (contentWithFrontmatter content frontmatter).

Section WithYaml.
Variable Y : YamlLib.


(** The handler of the vault's [modify] event, for a markdown file. *)
Definition onModify (file : TFile) : Async Plugin unit :=
  p <- getPlugin ;;
  w <- getWorld ;;
  match cachedFrontmatter w file with
  | Some frontmatter =>
      if hasTagBase (tagBase p) (member (VObj frontmatter) "tags")
      then syncNotesWithTemplate Y (basename file)
      else ret tt
  | None => ret tt
  end.

End WithYaml.

End LegacyFlow.

(** ** The rest of the second program of the second source file *)

Module FolderFlow.
Import JsString Js JsAny Host Codec Main Folder.
Local Open Scope async_scope.

(** [isMetaTag] *)
Definition isMetaTag (p : Plugin) (tag : string) : bool :=
  startsWith tag (tagBase (settings p) +:+ "/").

(** [getMetaTagName] *)
Definition getMetaTagName (p : Plugin) (tag : string) : string :=
  replace tag (tagBase (settings p) +:+ "/") EmptyString.

(** [getMetaTagNamesFromFrontmatter] *)
Definition getMetaTagNamesFromFrontmatter (p : Plugin) (frontmatter : obj)
  : outcome (list string) :=
  let tags := member (VObj frontmatter) "tags" in
  if negb (truthy tags) then Returned []
  else
    let tagList := match tags with
                   | VStr s => [VStr s]
                   | VArr l => l
                   | _ => []
                   end in
    match stripHashes tagList with
    | Returned stripped =>
        Returned (List.map (getMetaTagName p) (List.filter (isMetaTag p) stripped))
    | Thrown e => Thrown e
    end.

Section WithFolders.

(** Is there a folder at this path ([getAbstractFileByPath(p) instanceof
    TFolder])?  The path of the folder found is the path asked for. *)
Variable folderAt : string -> bool.

(** [isTemplateFile] *)
Definition isTemplateFile (p : Plugin) (w : World) (file : TFile) : outcome bool :=
  let templateFolderPath := trim (templateFolderPath (settings p)) in
  if negb (String.eqb templateFolderPath EmptyString) then
    if folderAt templateFolderPath
    then Returned (startsWith (path file) templateFolderPath)
    else Returned false
  else carriesBaseTag p w file.

End WithFolders.

End FolderFlow.

(** ** More sample data *)

Module Cases.
Import JsString Js JsAny Host Codec Main MainFlow.

(** A note tagged [#mt/Book] in its text and [mt/Book] and [reading] in its
    frontmatter. *)
Definition taggedTwice : CachedMetadata :=
  {| frontmatter := Some [("tags", VArr [VStr "mt/Book"; VStr "reading"])];
     tags := ["#mt/Book"] |}.

Definition taggedVault : World :=
  {| markdownFiles := [Sample.bookFile; Sample.noteFile];
     vaultText := vaultText Sample.vault;
     metadataCache :=
       <["note.md" := taggedTwice]> (metadataCache Sample.vault);
     readOnly := ∅;
     confirmAnswer := fun _ => false;
     events := [] |}.

(** The vault's folders: the templates are the files of the folder [mt];
    the folder [mt/old] inside it holds one more. *)
Definition oldBookFile : TFile := {| path := "mt/old/Book.md"; basename := "Book" |}.

Definition parentOf (file : TFile) : option string :=
  if startsWith (path file) "mt/old/" then Some "mt/old"
  else if startsWith (path file) "mt/" then Some "mt"
  else Some "/".

Definition templatesFolder : TAbstractFile :=
  AFolder "mt"
    [AFile Sample.bookFile "md";
     AFile {| path := "mt/cover.png"; basename := "cover" |} "png";
     AFolder "mt/old" [AFile oldBookFile "md"]].

Definition fileAt (p : string) : option TAbstractFile :=
  if String.eqb p "mt" then Some templatesFolder else None.

(** The plugin after it has seen the tags of [note.md]. *)
Definition settledPlugin : Plugin :=
  withFileTagCache (<["note.md" := ["mt/Book"]]> ∅) Sample.plugin.

(** A note whose frontmatter lists a year among its tags. *)
Definition yearTagged : CachedMetadata :=
  {| frontmatter := Some [("tags", VArr [VStr "mt/Book"; VNum 2024])];
     tags := [] |}.

Definition yearVault : World :=
  {| markdownFiles := [Sample.bookFile; Sample.noteFile];
     vaultText := vaultText Sample.vault;
     metadataCache := <["note.md" := yearTagged]> (metadataCache Sample.vault);
     readOnly := ∅;
     confirmAnswer := fun _ => false;
     events := [] |}.

(** A vault in which a file with an unreadable tag comes before the note
    that references [Book]. *)
Definition yearFile : TFile := {| path := "2024.md"; basename := "2024" |}.

Definition yearFirstVault : World :=
  {| markdownFiles := [Sample.bookFile; yearFile; Sample.noteFile];
     vaultText := <["2024.md" := "text"]> (vaultText Sample.vault);
     metadataCache := <["2024.md" := yearTagged]> (metadataCache Sample.vault);
     readOnly := ∅;
     confirmAnswer := fun _ => false;
     events := [] |}.

(** A vault for [Legacy] with a note whose [tags] is the single string
    [warmth]. *)
Definition warmthFile : TFile := {| path := "diary.md"; basename := "diary" |}.

Definition warmthVault : World :=
  {| markdownFiles := [Sample.legacyBookFile; warmthFile];
     vaultText := <["diary.md" := Sample.noteText]> (vaultText Sample.legacyVault);
     metadataCache :=
       <["diary.md" := {| frontmatter := Some [("tags", VStr "warmth")]; tags := [] |}]>
         (metadataCache Sample.legacyVault);
     readOnly := ∅;
     confirmAnswer := fun _ => false;
     events := [] |}.

(** For [Folder]: the templates are the files of the folder [templates];
    [templates-old] is another folder. *)
Definition folderPlugin : Plugin :=
  {| settings := {| tagBase := "mt"; deleteEmptyMetatagProperties := false;
                    templateFolderPath := " templates " |};
     fileTagCache := ∅;
     templateCache := ∅ |}.

Definition onlyTemplates (p : string) : bool :=
  String.eqb p "templates" || String.eqb p "templates-old".

Definition siblingFile : TFile :=
  {| path := "templates-old/Book.md"; basename := "Book" |}.

(** For [Folder] without a template folder (the setting is blank): two files
    are named [Book], the second one carries the base tag. *)
Definition blankFolderPlugin : Plugin :=
  {| settings := {| tagBase := "mt"; deleteEmptyMetatagProperties := false;
                    templateFolderPath := "  " |};
     fileTagCache := ∅;
     templateCache := ∅ |}.

Definition draftBookFile : TFile := {| path := "drafts/Book.md"; basename := "Book" |}.

Definition twoBooksVault : World :=
  {| markdownFiles := [draftBookFile; Sample.bookFile; Sample.noteFile];
     vaultText := vaultText Sample.vault;
     metadataCache :=
       <["drafts/Book.md" := {| frontmatter := Some [("tags", VArr [VStr "draft"])];
                                tags := [] |}]>
         (metadataCache Sample.vault);
     readOnly := ∅;
     confirmAnswer := fun _ => false;
     events := [] |}.

End Cases.
(** * Properties *)

(** ** Objects *)

Module JsFacts.
Import JsString Js JsAny.

Lemma getProp_app k (o1 o2 : obj) :
  getProp k (o1 ++ o2) =
  match getProp k o1 with Some v => Some v | None => getProp k o2 end.
Proof.
  induction o1 as [|[k' v'] o1 IH]; simpl; [reflexivity|].
  destruct (String.eqb k' k); [reflexivity|exact IH].
Qed.

Lemma hasOwn_true k (o : obj) : hasOwn k o = true <-> exists v, getProp k o = Some v.
Proof.
  unfold hasOwn. destruct (getProp k o); split; intros H; eauto; try discriminate.
  destruct H as [? H]; discriminate.
Qed.

Lemma hasOwn_false k (o : obj) : hasOwn k o = false <-> getProp k o = None.
Proof. unfold hasOwn. destruct (getProp k o); split; congruence. Qed.

Lemma getProp_updateProp k k' v (o : obj) :
  getProp k' (updateProp k v o) =
  if String.eqb k k' then (if hasOwn k o then Some v else None) else getProp k' o.
Proof.
  induction o as [|[k0 v0] o IH]; simpl.
  - destruct (String.eqb k k'); reflexivity.
  - unfold hasOwn in *. simpl.
    destruct (String.eqb_spec k0 k) as [->|Hne]; simpl.
    + destruct (String.eqb_spec k k') as [->|Hne']; [reflexivity|reflexivity].
    + destruct (String.eqb_spec k0 k') as [->|Hne'].
      * destruct (String.eqb_spec k k'); [congruence|reflexivity].
      * exact IH.
Qed.

Lemma getProp_insertIndex n k k' v (o : obj) :
  getProp k o = None ->
  getProp k' (insertIndex n k v o) = if String.eqb k k' then Some v else getProp k' o.
Proof.
  induction o as [|[k0 v0] o IH]; simpl; intros Hk.
  - reflexivity.
  - destruct (String.eqb_spec k0 k) as [->|Hne]; [discriminate|].
    destruct (arrayIndex k0) as [n0|]; [destruct (n0 <? n)%N|]; simpl.
    + rewrite (IH Hk).
      destruct (String.eqb_spec k0 k') as [->|]; [|reflexivity].
      destruct (String.eqb_spec k k'); [congruence|reflexivity].
    + reflexivity.
    + reflexivity.
Qed.

Lemma getProp_setProp k k' v (o : obj) :
  getProp k' (setProp k v o) = if String.eqb k k' then Some v else getProp k' o.
Proof.
  unfold setProp. destruct (hasOwn k o) eqn:Hh.
  - rewrite getProp_updateProp, Hh. reflexivity.
  - apply hasOwn_false in Hh. destruct (arrayIndex k).
    + apply getProp_insertIndex; assumption.
    + rewrite getProp_app. simpl.
      destruct (String.eqb_spec k k') as [<-|]; [rewrite Hh; reflexivity|].
      destruct (getProp k' o); reflexivity.
Qed.

Lemma getProp_setProp_eq k v (o : obj) : getProp k (setProp k v o) = Some v.
Proof. rewrite getProp_setProp, String.eqb_refl. reflexivity. Qed.

Lemma getProp_setProp_ne k k' v (o : obj) :
  k <> k' -> getProp k' (setProp k v o) = getProp k' o.
Proof.
  intros H. rewrite getProp_setProp.
  destruct (String.eqb_spec k k'); [contradiction|reflexivity].
Qed.

Lemma getProp_deleteProp k k' (o : obj) :
  getProp k' (deleteProp k o) = if String.eqb k k' then None else getProp k' o.
Proof.
  induction o as [|[k0 v0] o IH]; simpl.
  - destruct (String.eqb k k'); reflexivity.
  - destruct (String.eqb_spec k0 k) as [->|Hne]; simpl.
    + rewrite IH. destruct (String.eqb_spec k k'); reflexivity.
    + rewrite IH. destruct (String.eqb_spec k0 k') as [->|]; [|reflexivity].
      destruct (String.eqb_spec k k'); [congruence|reflexivity].
Qed.

(** A well-formed object has no key twice. *)
Lemma entryBefore_irrefl k : entryBefore k k = false.
Proof.
  unfold entryBefore. destruct (arrayIndex k).
  - apply N.ltb_irrefl.
  - rewrite String.eqb_refl. reflexivity.
Qed.

Lemma getProp_keys k (o : obj) : getProp k o = None <-> ~ In k (keys o).
Proof.
  induction o as [|[k0 v0] o IH]; simpl; [tauto|].
  destruct (String.eqb_spec k0 k) as [->|Hne]; split; intros H.
  - discriminate.
  - exfalso; apply H; left; reflexivity.
  - intros [?|?]; [congruence|]. apply IH in H. contradiction.
  - apply IH. intros ?. apply H. right. assumption.
Qed.

Lemma getProp_In k v (o : obj) : getProp k o = Some v -> In k (keys o).
Proof.
  intros H. destruct (in_dec String.string_dec k (keys o)) as [|Hn]; [assumption|].
  apply getProp_keys in Hn. congruence.
Qed.

Lemma wellFormed_head k v (o : obj) :
  wellFormed ((k, v) :: o) -> getProp k o = None /\ wellFormed o.
Proof.
  unfold wellFormed. simpl. intros H. apply andb_prop in H as [Hall Hwf].
  split; [|exact Hwf]. apply getProp_keys. intros Hin.
  rewrite forallb_forall in Hall. apply Hall in Hin.
  rewrite entryBefore_irrefl in Hin. discriminate.
Qed.

Lemma getProp_assign k (src : obj) : forall tgt : obj,
  wellFormed src ->
  getProp k (assign tgt src) =
  match getProp k src with Some v => Some v | None => getProp k tgt end.
Proof.
  unfold assign.
  induction src as [|[k0 v0] src IH]; intros tgt Hwf; simpl; [reflexivity|].
  apply wellFormed_head in Hwf as [Hfresh Hwf].
  rewrite (IH _ Hwf). destruct (String.eqb_spec k0 k) as [->|Hne].
  - rewrite Hfresh. apply getProp_setProp_eq.
  - rewrite getProp_setProp_ne by assumption. reflexivity.
Qed.

Lemma getProp_spread k (a b : obj) :
  wellFormed a -> wellFormed b ->
  getProp k (spread a b) =
  match getProp k b with Some v => Some v | None => getProp k a end.
Proof.
  intros Ha Hb. unfold spread. rewrite (getProp_assign _ _ _ Hb).
  rewrite (getProp_assign _ _ _ Ha). simpl.
  destruct (getProp k b); [reflexivity|]. destruct (getProp k a); reflexivity.
Qed.


(** *** Enumeration order *)

Lemma arrayIndex_decimal k n : arrayIndex k = Some n -> decimal n = k.
Proof.
  unfold arrayIndex. destruct (NilZero.uint_of_string k) as [u|]; [|discriminate].
  destruct (String.eqb_spec (decimal (N.of_uint u)) k) as [He|]; simpl; [|discriminate].
  destruct (N.of_uint u <? 4294967295)%N; [|discriminate].
  intros [= <-]. exact He.
Qed.

Lemma arrayIndex_inj k1 k2 n :
  arrayIndex k1 = Some n -> arrayIndex k2 = Some n -> k1 = k2.
Proof.
  intros H1 H2. apply arrayIndex_decimal in H1, H2. congruence.
Qed.

Lemma keys_updateProp k v (o : obj) : keys (updateProp k v o) = keys o.
Proof.
  induction o as [|[k0 v0] o IH]; simpl; [reflexivity|].
  destruct (String.eqb k0 k); simpl; [reflexivity|]. f_equal. exact IH.
Qed.

Lemma In_keys_insertIndex x n k v (o : obj) :
  In x (keys (insertIndex n k v o)) <-> x = k \/ In x (keys o).
Proof.
  induction o as [|[k0 v0] o IH]; simpl; [intuition congruence|].
  destruct (arrayIndex k0) as [n0|]; [destruct (n0 <? n)%N|]; simpl;
    rewrite ?IH; intuition congruence.
Qed.

Lemma enumerationb_cons k ks :
  enumerationb (k :: ks) = true <->
  (forall x, In x ks -> entryBefore k x = true) /\ enumerationb ks = true.
Proof.
  simpl. rewrite andb_true_iff, forallb_forall. reflexivity.
Qed.

Lemma wellFormed_insertIndex n k v (o : obj) :
  arrayIndex k = Some n -> getProp k o = None -> wellFormed o ->
  wellFormed (insertIndex n k v o).
Proof.
  unfold wellFormed. intros Hk.
  induction o as [|[k0 v0] o IH]; simpl; intros Hfresh Hwf; [reflexivity|].
  destruct (String.eqb_spec k0 k) as [->|Hne]; [discriminate|].
  change (enumerationb (k0 :: keys o) = true) in Hwf.
  apply enumerationb_cons in Hwf as [Hall Hwf].
  destruct (arrayIndex k0) as [n0|] eqn:Hk0; [destruct (n0 <? n)%N eqn:Hlt|].
  - change (enumerationb (k0 :: keys (insertIndex n k v o)) = true).
    apply enumerationb_cons. split; [|auto].
    intros x Hx. apply In_keys_insertIndex in Hx as [->|Hx]; [|auto].
    unfold entryBefore. rewrite Hk0, Hk. exact Hlt.
  - change (enumerationb (k :: k0 :: keys o) = true).
    assert (Hgt : (n <? n0)%N = true).
    { apply N.ltb_lt. apply N.ltb_ge in Hlt.
      assert (n0 <> n) by (intros ->; apply Hne; eapply arrayIndex_inj; eauto).
      lia. }
    apply enumerationb_cons. split.
    + intros x [<-|Hx].
      * unfold entryBefore. rewrite Hk, Hk0. exact Hgt.
      * specialize (Hall x Hx). unfold entryBefore in *. rewrite Hk0 in Hall.
        rewrite Hk. destruct (arrayIndex x); [|reflexivity].
        apply N.ltb_lt in Hall, Hgt. apply N.ltb_lt. lia.
    + apply enumerationb_cons. split; assumption.
  - change (enumerationb (k :: k0 :: keys o) = true).
    apply enumerationb_cons. split.
    + intros x [<-|Hx].
      * unfold entryBefore. rewrite Hk, Hk0. reflexivity.
      * specialize (Hall x Hx). unfold entryBefore in *. rewrite Hk0 in Hall.
        rewrite Hk. destruct (arrayIndex x); [discriminate|reflexivity].
    + apply enumerationb_cons. split; assumption.
Qed.

Lemma enumerationb_snoc ks k :
  arrayIndex k = None -> ~ In k ks -> enumerationb ks = true ->
  enumerationb (ks ++ [k]) = true.
Proof.
  intros Hk. induction ks as [|k0 ks IH]; simpl; intros Hfresh Hwf; [reflexivity|].
  apply andb_prop in Hwf as [Hall Hwf]. apply andb_true_intro. split.
  - rewrite forallb_app, Hall. simpl. rewrite andb_true_r.
    unfold entryBefore. rewrite Hk. destruct (arrayIndex k0); [reflexivity|].
    destruct (String.eqb_spec k0 k) as [->|]; [|reflexivity].
    exfalso. apply Hfresh. left. reflexivity.
  - apply IH; [|exact Hwf]. intros ?. apply Hfresh. right. assumption.
Qed.

Lemma wellFormed_setProp k v (o : obj) : wellFormed o -> wellFormed (setProp k v o).
Proof.
  intros Hwf. unfold setProp. destruct (hasOwn k o) eqn:Hh.
  - unfold wellFormed. rewrite keys_updateProp. exact Hwf.
  - apply hasOwn_false in Hh. destruct (arrayIndex k) as [n|] eqn:Hk.
    + apply wellFormed_insertIndex; assumption.
    + unfold wellFormed, keys. rewrite List.map_app. simpl.
      apply enumerationb_snoc; [assumption| |exact Hwf].
      apply getProp_keys. exact Hh.
Qed.

Lemma wellFormed_assign (src : obj) : forall tgt : obj,
  wellFormed tgt -> wellFormed (assign tgt src).
Proof.
  unfold assign. induction src as [|[k v] src IH]; intros tgt Hwf; simpl; [exact Hwf|].
  apply IH. apply wellFormed_setProp. exact Hwf.
Qed.

Lemma wellFormed_nil : wellFormed [].
Proof. reflexivity. Qed.

Lemma wellFormed_spread (a b : obj) : wellFormed (spread a b).
Proof. unfold spread. do 2 apply wellFormed_assign. apply wellFormed_nil. Qed.

Lemma enumerationb_filter f ks :
  enumerationb ks = true -> enumerationb (List.filter f ks) = true.
Proof.
  induction ks as [|k ks IH]; simpl; [auto|]. intros H.
  apply andb_prop in H as [Hall Hwf]. destruct (f k); [|auto].
  simpl. rewrite (IH Hwf), andb_true_r. rewrite forallb_forall in *.
  intros x Hx. apply List.filter_In in Hx as [Hx _]. auto.
Qed.

Lemma keys_deleteProp k (o : obj) :
  keys (deleteProp k o) = List.filter (fun x => negb (String.eqb x k)) (keys o).
Proof.
  induction o as [|[k0 v0] o IH]; simpl; [reflexivity|].
  destruct (String.eqb k0 k); simpl; [exact IH|]. f_equal. exact IH.
Qed.

Lemma wellFormed_deleteProp k (o : obj) : wellFormed o -> wellFormed (deleteProp k o).
Proof.
  unfold wellFormed. rewrite keys_deleteProp. apply enumerationb_filter.
Qed.

(** A well-formed object is its own copy. *)
Lemma setProp_same k v (o : obj) : getProp k o = Some v -> setProp k v o = o.
Proof.
  intros H. unfold setProp, hasOwn. rewrite H.
  induction o as [|[k0 v0] o IH]; simpl in *; [discriminate|].
  destruct (String.eqb_spec k0 k) as [->|]; [congruence|].
  f_equal. auto.
Qed.


(** A well-formed object is determined by its properties and the order of
    its named keys. *)
Lemma namedKeys_cons k v (o : obj) :
  namedKeys ((k, v) :: o) = if isIndex k then namedKeys o else k :: namedKeys o.
Proof. unfold namedKeys. simpl. destruct (isIndex k); reflexivity. Qed.

Lemma head_key_eq k1 v1 k2 v2 (o1 o2 : obj) :
  wellFormed ((k1, v1) :: o1) -> wellFormed ((k2, v2) :: o2) ->
  (forall k, getProp k ((k1, v1) :: o1) = getProp k ((k2, v2) :: o2)) ->
  namedKeys ((k1, v1) :: o1) = namedKeys ((k2, v2) :: o2) ->
  k1 = k2.
Proof.
  intros W1 W2 Hget Hnk.
  destruct (String.eqb_spec k1 k2) as [|Hne]; [assumption|exfalso].
  assert (H12 : entryBefore k1 k2 = true).
  { apply enumerationb_cons in W1 as [Hall _]. apply Hall.
    specialize (Hget k2). simpl in Hget. rewrite String.eqb_refl in Hget.
    destruct (String.eqb_spec k1 k2); [contradiction|].
    eapply getProp_In. exact Hget. }
  assert (H21 : entryBefore k2 k1 = true).
  { apply enumerationb_cons in W2 as [Hall _]. apply Hall.
    specialize (Hget k1). simpl in Hget. rewrite String.eqb_refl in Hget.
    destruct (String.eqb_spec k2 k1); [congruence|].
    eapply getProp_In. symmetry. exact Hget. }
  rewrite !namedKeys_cons in Hnk. unfold entryBefore, isIndex in *.
  destruct (arrayIndex k1), (arrayIndex k2); simpl in *; try discriminate.
  - apply N.ltb_lt in H12, H21. lia.
  - congruence.
Qed.

Lemma obj_ext (o1 : obj) : forall o2 : obj,
  wellFormed o1 -> wellFormed o2 ->
  (forall k, getProp k o1 = getProp k o2) ->
  namedKeys o1 = namedKeys o2 ->
  o1 = o2.
Proof.
  induction o1 as [|[k1 v1] o1 IH]; intros [|[k2 v2] o2] W1 W2 Hget Hnk.
  - reflexivity.
  - specialize (Hget k2). simpl in Hget. rewrite String.eqb_refl in Hget. discriminate.
  - specialize (Hget k1). simpl in Hget. rewrite String.eqb_refl in Hget. discriminate.
  - assert (k1 = k2) by (eapply head_key_eq; eassumption). subst k2.
    assert (v1 = v2).
    { specialize (Hget k1). simpl in Hget. rewrite String.eqb_refl in Hget. congruence. }
    subst v2. f_equal.
    pose proof (wellFormed_head _ _ _ W1) as [F1 W1'].
    pose proof (wellFormed_head _ _ _ W2) as [F2 W2'].
    apply IH; try assumption.
    + intros k. specialize (Hget k). simpl in Hget.
      destruct (String.eqb_spec k1 k) as [->|]; [congruence|assumption].
    + rewrite !namedKeys_cons in Hnk. destruct (isIndex k1); congruence.
Qed.

Lemma namedKeys_keys (o1 o2 : obj) : keys o1 = keys o2 -> namedKeys o1 = namedKeys o2.
Proof. unfold namedKeys. intros ->. reflexivity. Qed.

Lemma namedKeys_insertIndex n k v (o : obj) :
  arrayIndex k = Some n -> namedKeys (insertIndex n k v o) = namedKeys o.
Proof.
  intros Hk. assert (Hi : isIndex k = true) by (unfold isIndex; rewrite Hk; reflexivity).
  induction o as [|[k0 v0] o IH]; simpl.
  - rewrite namedKeys_cons, Hi. reflexivity.
  - destruct (arrayIndex k0) as [n0|] eqn:Hk0; [destruct (n0 <? n)%N|];
      rewrite ?namedKeys_cons, ?Hi, ?IH; reflexivity.
Qed.

Lemma existsb_namedKeys k (o : obj) :
  isIndex k = false -> List.existsb (String.eqb k) (namedKeys o) = hasOwn k o.
Proof.
  intros Hk. unfold hasOwn. induction o as [|[k0 v0] o IH]; simpl; [reflexivity|].
  rewrite namedKeys_cons. destruct (String.eqb_spec k0 k) as [->|Hne].
  - rewrite Hk. simpl. rewrite String.eqb_refl. reflexivity.
  - destruct (isIndex k0); [exact IH|]. simpl.
    destruct (String.eqb_spec k k0); [congruence|]. exact IH.
Qed.

Lemma namedKeys_setProp k v (o : obj) :
  namedKeys (setProp k v o) = addNamed (namedKeys o) k.
Proof.
  unfold setProp, addNamed. destruct (isIndex k) eqn:Hi; simpl.
  - destruct (hasOwn k o).
    + apply namedKeys_keys, keys_updateProp.
    + unfold isIndex in Hi. destruct (arrayIndex k) eqn:Hk; [|discriminate].
      apply namedKeys_insertIndex. exact Hk.
  - rewrite (existsb_namedKeys _ _ Hi). destruct (hasOwn k o).
    + apply namedKeys_keys, keys_updateProp.
    + pose proof Hi as Hi'. unfold isIndex in Hi'.
      destruct (arrayIndex k); [discriminate|].
      unfold namedKeys, keys. rewrite List.map_app, List.filter_app. simpl.
      rewrite Hi. reflexivity.
Qed.

Lemma namedKeys_assign (src : obj) : forall tgt : obj,
  namedKeys (assign tgt src) = fold_left addNamed (keys src) (namedKeys tgt).
Proof.
  unfold assign. induction src as [|[k v] src IH]; intros tgt; simpl; [reflexivity|].
  rewrite IH, namedKeys_setProp. reflexivity.
Qed.

Lemma fold_addNamed_named ks : forall nk,
  fold_left addNamed ks nk =
  fold_left addNamed (List.filter (fun k => negb (isIndex k)) ks) nk.
Proof.
  induction ks as [|k ks IH]; intros nk; simpl; [reflexivity|].
  destruct (isIndex k) eqn:Hi; simpl.
  - rewrite <- IH. unfold addNamed. rewrite Hi. reflexivity.
  - apply IH.
Qed.

Lemma fold_addNamed_absorb ks nk :
  fold_left addNamed (fold_left addNamed ks nk) nk = fold_left addNamed ks nk ->
  forall k, fold_left addNamed (fold_left addNamed (ks ++ [k]) nk) nk
            = fold_left addNamed (ks ++ [k]) nk.
Proof.
  intros IH k. rewrite fold_left_app. simpl.
  set (s := fold_left addNamed ks nk) in *.
  unfold addNamed at 2 3. destruct (isIndex k || List.existsb (String.eqb k) s) eqn:E.
  - exact IH.
  - rewrite fold_left_app, IH. simpl. unfold addNamed. rewrite E. reflexivity.
Qed.

Lemma fold_addNamed_incl ks : forall nk,
  (forall x, In x ks -> In x nk) -> fold_left addNamed ks nk = nk.
Proof.
  induction ks as [|k ks IH]; intros nk Hin; simpl; [reflexivity|].
  assert (Hk : List.existsb (String.eqb k) nk = true).
  { apply List.existsb_exists. exists k. split; [|apply String.eqb_refl].
    apply Hin. left. reflexivity. }
  unfold addNamed at 2. rewrite Hk, orb_true_r. apply IH.
  intros x Hx. apply Hin. right. exact Hx.
Qed.

Lemma fold_addNamed_idem ks nk :
  fold_left addNamed (fold_left addNamed ks nk) nk = fold_left addNamed ks nk.
Proof.
  induction ks as [|k ks IH] using rev_ind.
  - simpl. apply fold_addNamed_incl. auto.
  - apply fold_addNamed_absorb. exact IH.
Qed.

Lemma hasOwn_assign_mono k (src : obj) : forall tgt : obj,
  getProp k (assign tgt src) = None -> getProp k tgt = None.
Proof.
  unfold assign. induction src as [|[k0 v0] src IH]; intros tgt H; simpl in *; [exact H|].
  apply IH in H. rewrite getProp_setProp in H.
  destruct (String.eqb k0 k); [discriminate|exact H].
Qed.

(** Assigning onto [tgt] an object that already has the shape of an
    assignment onto [tgt] gives that object. *)
Lemma assign_absorb (tgt src x : obj) :
  wellFormed tgt -> wellFormed x -> keys x = keys (assign tgt src) ->
  assign tgt x = x.
Proof.
  intros Wt Wx Hkeys. apply obj_ext.
  - apply wellFormed_assign. exact Wt.
  - exact Wx.
  - intros k. rewrite (getProp_assign _ _ _ Wx).
    destruct (getProp k x) eqn:E; [reflexivity|].
    apply (hasOwn_assign_mono k src). apply getProp_keys.
    rewrite <- Hkeys. apply getProp_keys. exact E.
  - rewrite namedKeys_assign, Hkeys.
    rewrite fold_addNamed_named. fold (namedKeys (assign tgt src)).
    rewrite (namedKeys_keys x (assign tgt src) Hkeys).
    rewrite namedKeys_assign. apply fold_addNamed_idem.
Qed.

Lemma spread_absorb (a b x : obj) :
  wellFormed x -> keys x = keys (spread a b) -> spread a x = x.
Proof.
  intros Wx Hk. unfold spread in *. eapply assign_absorb; try eassumption.
  apply wellFormed_assign, wellFormed_nil.
Qed.

(** Spreading the same template under the result of a spread changes
    nothing: not a value, not the order of the keys. *)
Lemma spread_idem (a b : obj) : spread a (spread a b) = spread a b.
Proof. apply (spread_absorb a b); [apply wellFormed_spread|reflexivity]. Qed.

Lemma existsb_eqb_false k (l : list string) :
  ~ In k l -> List.existsb (String.eqb k) l = false.
Proof.
  induction l as [|x l IH]; simpl; [reflexivity|]. intros H.
  destruct (String.eqb_spec k x) as [->|]; [exfalso; apply H; left; reflexivity|].
  apply IH. intros ?. apply H. right. assumption.
Qed.

Lemma fold_addNamed_fresh ks : forall acc,
  enumerationb ks = true ->
  (forall x, In x ks -> isIndex x = false /\ ~ In x acc) ->
  fold_left addNamed ks acc = acc ++ ks.
Proof.
  induction ks as [|k ks IH]; intros acc Hwf Hfresh; simpl.
  - rewrite List.app_nil_r. reflexivity.
  - apply enumerationb_cons in Hwf as [Hall Hwf].
    destruct (Hfresh k (or_introl eq_refl)) as [Hi Hk].
    unfold addNamed at 2. rewrite Hi, (existsb_eqb_false _ _ Hk). simpl.
    rewrite IH; [rewrite <- List.app_assoc; reflexivity|exact Hwf|].
    intros x Hx. destruct (Hfresh x (or_intror Hx)) as [Hix Hnx]. split; [exact Hix|].
    intros Hin. apply List.in_app_or in Hin as [Hin|[<-|[]]]; [contradiction|].
    specialize (Hall _ Hx). rewrite entryBefore_irrefl in Hall. discriminate.
Qed.

(** A well-formed object is its own copy: [{ ...o }]. *)
Lemma assign_nil_id (o : obj) : wellFormed o -> assign [] o = o.
Proof.
  intros W. apply obj_ext; [apply wellFormed_assign, wellFormed_nil|exact W| |].
  - intros k. rewrite (getProp_assign _ _ _ W). simpl. destruct (getProp k o); reflexivity.
  - rewrite namedKeys_assign, fold_addNamed_named. fold (namedKeys o). simpl.
    apply fold_addNamed_fresh.
    + apply enumerationb_filter. exact W.
    + intros x Hx. apply List.filter_In in Hx as [_ Hx].
      split; [destruct (isIndex x); [discriminate|reflexivity]|intros []].
Qed.

End JsFacts.

(** ** Strings *)

Module JsStringFacts.
Import JsString.

Lemma index_ge needle : forall s n m, String.index n needle s = Some m -> n <= m.
Proof.
  induction s as [|c s IH]; intros [|n] m; simpl; try lia.
  - discriminate.
  - destruct (String.index n needle s) as [m'|] eqn:E; [|discriminate].
    intros [= <-]. apply IH in E. lia.
Qed.

(** An occurrence at or after [n] is found by [indexOf], at or before it. *)
Lemma indexOf_occurs s needle n p :
  needle <> EmptyString -> occursAt needle s p -> n <= p ->
  exists i, indexOf s needle n = Some i /\ n <= i <= p /\ occursAt needle s i.
Proof.
  unfold indexOf, occursAt. intros Hne Hocc Hle.
  destruct (String.index n needle s) as [i|] eqn:E.
  - exists i. split; [reflexivity|]. split; [split|].
    + eapply index_ge; eassumption.
    + destruct (Nat.le_gt_cases i p) as [|Hlt]; [assumption|exfalso].
      exact (String.index_correct2 _ _ _ _ E p Hle Hlt Hocc).
    + eapply String.index_correct1; eassumption.
  - exfalso. exact (String.index_correct3 _ _ _ _ E Hne Hle Hocc).
Qed.

Lemma length_String_substring s : forall n m,
  String.length (String.substring n m s) <= String.length s - n.
Proof.
  induction s as [|c s IH]; intros [|n] [|m]; simpl; try lia.
  - specialize (IH 0 m). lia.
  - apply IH.
  - apply IH.
Qed.

Lemma occursAt_bound needle s p :
  occursAt needle s p -> needle <> EmptyString -> p + String.length needle <= String.length s.
Proof.
  unfold occursAt. intros H Hne.
  pose proof (length_String_substring s p (String.length needle)) as Hl.
  rewrite H in Hl. destruct needle; [congruence|]. simpl in *. lia.
Qed.

Lemma length_substring s : forall n,
  String.length (substring s n) = String.length s - n.
Proof.
  induction s as [|c s IH]; intros [|n]; simpl; try reflexivity. apply IH.
Qed.

Lemma length_trimStart s : String.length (trimStart s) <= String.length s.
Proof.
  induction s as [|c s IH]; simpl; [lia|].
  destruct (isWhiteSpace c); simpl; lia.
Qed.

(** [trimStart] stops at the first character that is not white space. *)
Lemma trimStart_keeps s : forall i c,
  String.get i s = Some c -> isWhiteSpace c = false ->
  String.length s - i <= String.length (trimStart s).
Proof.
  induction s as [|c0 s IH]; intros i c Hget Hc; simpl in *; [lia|].
  destruct i as [|i].
  - injection Hget as ->. rewrite Hc. simpl. lia.
  - destruct (isWhiteSpace c0); [eapply IH; eassumption|simpl; lia].
Qed.

Lemma occursAt_get needle s p c rest :
  needle = String c rest -> occursAt needle s p -> String.get p s = Some c.
Proof.
  unfold occursAt. intros -> H.
  pose proof (String.substring_correct1 s p (String.length (String c rest)) 0) as Hs.
  simpl in Hs. rewrite <- Hs by lia. simpl in H. rewrite H. reflexivity.
Qed.

Lemma String_substring_app_l (a b : string) : forall p m,
  p + m <= String.length a ->
  String.substring p m (a +:+ b) = String.substring p m a.
Proof.
  induction a as [|c a IH]; intros p m H; simpl in *.
  - assert (p = 0) by lia. assert (m = 0) by lia. subst. destruct b; reflexivity.
  - destruct p as [|p], m as [|m]; try reflexivity.
    + f_equal. apply (IH 0 m). lia.
    + apply IH. lia.
    + apply IH. lia.
Qed.

Lemma String_substring_app_r (a b : string) : forall p m,
  String.substring (String.length a + p) m (a +:+ b) = String.substring p m b.
Proof. induction a as [|c a IH]; intros p m; simpl; [reflexivity|apply IH]. Qed.

Lemma substring_app (a b : string) : substring (a +:+ b) (String.length a) = b.
Proof. induction a as [|c a IH]; simpl; [destruct b; reflexivity|exact IH]. Qed.

Lemma length_append (a b : string) :
  String.length (a +:+ b) = String.length a + String.length b.
Proof.
  induction a as [|c a IH]; [reflexivity|].
  change (S (String.length (a +:+ b)) = S (String.length a + String.length b)).
  f_equal. exact IH.
Qed.

Lemma append_assoc (a b c : string) : (a +:+ b) +:+ c = a +:+ (b +:+ c).
Proof.
  induction a as [|x a IH]; [reflexivity|].
  change (String x ((a +:+ b) +:+ c) = String x (a +:+ b +:+ c)).
  f_equal. exact IH.
Qed.

Lemma trimStart_idem s : trimStart (trimStart s) = trimStart s.
Proof.
  induction s as [|c s IH]; simpl; [reflexivity|].
  destruct (isWhiteSpace c) eqn:E; [exact IH|]. simpl. rewrite E. reflexivity.
Qed.

End JsStringFacts.

(** ** The codec *)

Module CodecFacts.
Import JsString Js Codec JsStringFacts.

Lemma MARK_nonempty : MARK <> EmptyString.
Proof. discriminate. Qed.

Lemma restOfContent_trimmed content : trimStart (restOfContent content) = restOfContent content.
Proof.
  unfold restOfContent. destruct (indexOf content MARK 0) as [i|]; [|apply trimStart_idem].
  destruct (indexOf content MARK (i + 3)); apply trimStart_idem.
Qed.

(** When the dumped block holds no marker (and does not end in a dash
    that would form one with the closing marker), what
    [replaceFrontMatter] wrote has the body of the text it was given:
    writing again does not change the body. *)
Lemma restOfContent_replaceFrontMatter (Y : YamlLib) (content : string) (newData : value) :
  (forall p, ~ occursAt MARK (LF +:+ JSYAML_dump Y newData +:+ "--") p) ->
  restOfContent (replaceFrontMatter Y content newData) = restOfContent content.
Proof.
  intros Hclean. unfold replaceFrontMatter.
  set (d := JSYAML_dump Y newData) in *. set (r := restOfContent content).
  set (inner := LF +:+ d +:+ "--") in *.
  assert (Hshape : MARK +:+ LF +:+ d +:+ MARK +:+ LF +:+ LF +:+ r
                   = MARK +:+ (inner +:+ ("-" +:+ LF +:+ LF +:+ r))).
  { unfold inner, MARK. rewrite !append_assoc. reflexivity. }
  rewrite Hshape. clear Hshape.
  set (tail := "-" +:+ LF +:+ LF +:+ r).
  assert (Hlen : String.length inner = String.length (LF +:+ d) + 2).
  { unfold inner. rewrite <- append_assoc, length_append. reflexivity. }
  assert (Hocc : occursAt MARK (MARK +:+ (inner +:+ tail)) (3 + String.length (LF +:+ d))).
  { unfold occursAt. change 3 with (String.length MARK) at 1.
    rewrite String_substring_app_r. unfold inner.
    rewrite <- (append_assoc LF d "--"), (append_assoc (LF +:+ d)).
    rewrite <- (Nat.add_0_r (String.length (LF +:+ d))).
    rewrite String_substring_app_r. reflexivity. }
  unfold restOfContent at 1.
  assert (H0 : indexOf (MARK +:+ (inner +:+ tail)) MARK 0 = Some 0) by reflexivity.
  rewrite H0. simpl Nat.add.
  destruct (indexOf_occurs _ MARK 3 _ MARK_nonempty Hocc) as (j & Hj & [Hlo Hhi] & Hoccj);
    [lia|].
  rewrite Hj.
  assert (j = 3 + String.length (LF +:+ d)).
  { destruct (Nat.eq_dec j (3 + String.length (LF +:+ d))) as [|Hne]; [assumption|exfalso].
    apply (Hclean (j - 3)). unfold occursAt in *.
    replace j with (String.length MARK + (j - 3)) in Hoccj
      by (change (String.length MARK) with 3; lia).
    rewrite String_substring_app_r in Hoccj.
    rewrite String_substring_app_l in Hoccj; [exact Hoccj|].
    change (String.length MARK) with 3. lia. }
  subst j.
  replace (3 + String.length (LF +:+ d) + 3)
    with (String.length (MARK +:+ inner +:+ "-")).
  2:{ rewrite !length_append, Hlen, !length_append. change (String.length MARK) with 3.
      change (String.length "-") with 1. lia. }
  replace (MARK +:+ (inner +:+ tail))
    with ((MARK +:+ inner +:+ "-") +:+ (LF +:+ LF +:+ r)).
  2:{ unfold tail. rewrite !append_assoc. reflexivity. }
  rewrite substring_app.
  change (trimStart (LF +:+ LF +:+ r)) with (trimStart r).
  apply restOfContent_trimmed.
Qed.

(** C10.  The serializer looks for the block by the first occurrence of
    the marker anywhere in the text: whenever the text holds two occurrences
    of the marker that do not overlap (at [p] and at [q], with or without a
    leading block), [replaceFrontMatter] takes the first occurrence for the
    opening of a block and the next one after it for its end, and writes as
    body only what follows that second occurrence; everything before,
    markers included, is dropped, so the body written is strictly shorter
    than the whole text kept as body would be. *)
Theorem replaceFrontMatter_discards_to_second_marker
    (Y : YamlLib) (content : string) (newData : value) (p q : nat) :
  occursAt MARK content p -> occursAt MARK content q -> p + 3 <= q ->
  exists yamlStart yamlEnd,
    indexOf content MARK 0 = Some yamlStart /\
    indexOf content MARK (yamlStart + 3) = Some yamlEnd /\
    yamlStart <= p /\ yamlStart + 3 <= yamlEnd <= q /\
    replaceFrontMatter Y content newData =
      MARK +:+ LF +:+ JSYAML_dump Y newData +:+ MARK +:+ LF +:+ LF
        +:+ trimStart (substring content (yamlEnd + 3)) /\
    String.length (trimStart (substring content (yamlEnd + 3)))
      < String.length (trimStart content).
Proof.
  intros Hp Hq Hpq.
  destruct (indexOf_occurs content MARK 0 p MARK_nonempty Hp (Nat.le_0_l _))
    as (i & Hi & [_ Hip] & Hocci).
  assert (Hiq : i + 3 <= q) by lia.
  destruct (indexOf_occurs content MARK (i + 3) q MARK_nonempty Hq Hiq)
    as (j & Hj & [Hij Hjq] & Hoccj).
  exists i, j. repeat split; try assumption.
  - unfold replaceFrontMatter, restOfContent. rewrite Hi, Hj. reflexivity.
  - pose proof (occursAt_bound _ _ _ Hoccj MARK_nonempty) as Hb. simpl in Hb.
    pose proof (length_trimStart (substring content (j + 3))) as H1.
    rewrite length_substring in H1.
    assert (Hget : String.get i content = Some "-"%char)
      by (eapply occursAt_get; [reflexivity|exact Hocci]).
    pose proof (trimStart_keeps content i _ Hget eq_refl) as H2.
    lia.
Qed.

Lemma replaceFrontMatter_discards_witness :
  exists yamlStart yamlEnd,
    indexOf "a --- b --- c" MARK 0 = Some yamlStart /\
    indexOf "a --- b --- c" MARK (yamlStart + 3) = Some yamlEnd /\
    yamlStart <= 2 /\ yamlStart + 3 <= yamlEnd <= 8 /\
    replaceFrontMatter Sample.yaml "a --- b --- c" (VObj []) =
      MARK +:+ LF +:+ JSYAML_dump Sample.yaml (VObj []) +:+ MARK +:+ LF +:+ LF
        +:+ trimStart (substring "a --- b --- c" (yamlEnd + 3)) /\
    String.length (trimStart (substring "a --- b --- c" (yamlEnd + 3)))
      < String.length (trimStart "a --- b --- c").
Proof.
  apply (replaceFrontMatter_discards_to_second_marker
           Sample.yaml "a --- b --- c" (VObj []) 2 8);
    [reflexivity|reflexivity|simpl; lia].
Defined.


(** C9 (as amended).  Parsing the structured block never throws; it gives
    the empty map when the text has no delimited leading block, and then
    the whole text is what the serializer keeps as body; it also gives the
    empty map when the delimited block does not parse, but then the body
    kept is only the text after the block. *)
Theorem extractFrontmatter_total (Y : YamlLib) (content : string) :
  exists fields,
    extractFrontmatter Y content = Returned fields /\
    (matchBlock content = None ->
       fields = VObj [] /\ afterBlock content = content) /\
    (forall block rest e,
       matchBlock content = Some (block, rest) -> YAML_parse Y block = Thrown e ->
       fields = VObj [] /\ afterBlock content = rest).
Proof.
  unfold extractFrontmatter, afterBlock.
  destruct (matchBlock content) as [[block rest]|].
  - destruct (YAML_parse Y block) as [v|e] eqn:E.
    + exists v. split; [reflexivity|]. split; [discriminate|].
      intros b r e' [= <- <-] He. congruence.
    + exists (VObj []). split; [reflexivity|]. split; [discriminate|].
      intros b r e' [= <- <-] _. split; reflexivity.
  - exists (VObj []). split; [reflexivity|]. split; [split; reflexivity|discriminate].
Qed.

Lemma extractFrontmatter_total_witness :
  exists fields,
    extractFrontmatter Sample.yaml Sample.malformed = Returned fields /\
    (matchBlock Sample.malformed = None ->
       fields = VObj [] /\ afterBlock Sample.malformed = Sample.malformed) /\
    (forall block rest e,
       matchBlock Sample.malformed = Some (block, rest) ->
       YAML_parse Sample.yaml block = Thrown e ->
       fields = VObj [] /\ afterBlock Sample.malformed = rest).
Proof. apply (extractFrontmatter_total Sample.yaml Sample.malformed). Defined.

(** C9 as stated fails: the block of [Sample.malformed] is delimited but
    does not parse; the field map is empty, yet the text kept as body is
    [body], not the entire text: the next write drops the block. *)
Lemma malformed_block_is_not_body :
  YAML_parse Sample.yaml "[" = Thrown "YAMLParseError" /\
  matchBlock Sample.malformed = Some ("[", LF +:+ "body") /\
  extractFrontmatter Sample.yaml Sample.malformed = Returned (VObj []) /\
  afterBlock Sample.malformed <> Sample.malformed /\
  updateContentWithFrontmatter Sample.yaml Sample.malformed (VObj [])
    = "---" +:+ LF +:+ "{}" +:+ LF +:+ "---" +:+ LF +:+ LF +:+ "body" /\
  replaceFrontMatter Sample.yaml Sample.malformed (VObj [])
    = "---" +:+ LF +:+ "{}" +:+ LF +:+ "---" +:+ LF +:+ LF +:+ "body".
Proof. repeat split; try reflexivity. discriminate. Qed.

(** C8, at the failing input.  The block of [Sample.titled] holds the
    marker inside a value.  [replaceFrontMatter] takes that for the end of
    the block: writing the parsed fields back puts the rest of the block in
    front of the body, the body it keeps is not the body of the text, and
    writing once more changes the body again. *)
Theorem replaceFrontMatter_marker_in_value (Y : YamlLib) (fields : value) :
  extractFrontmatter Y Sample.titled = Returned fields ->
  JSYAML_dump Y fields = "title: a---b" +:+ LF ->
  replaceFrontMatter Y Sample.titled fields
    = "---" +:+ LF +:+ "title: a---b" +:+ LF +:+ "---" +:+ LF +:+ LF
        +:+ "b" +:+ LF +:+ "---" +:+ LF +:+ LF +:+ "body" /\
  restOfContent Sample.titled = "b" +:+ LF +:+ "---" +:+ LF +:+ LF +:+ "body" /\
  restOfContent (replaceFrontMatter Y Sample.titled fields)
    = "b" +:+ LF +:+ "---" +:+ LF +:+ LF +:+ "b" +:+ LF +:+ "---" +:+ LF +:+ LF +:+ "body" /\
  restOfContent (replaceFrontMatter Y Sample.titled fields)
    <> restOfContent Sample.titled.
Proof.
  intros _ Hdump. unfold replaceFrontMatter. rewrite Hdump.
  repeat split; try reflexivity. discriminate.
Qed.

Lemma replaceFrontMatter_marker_in_value_witness :
  replaceFrontMatter Sample.yaml Sample.titled (VObj [("title", VStr "a---b")])
    = "---" +:+ LF +:+ "title: a---b" +:+ LF +:+ "---" +:+ LF +:+ LF
        +:+ "b" +:+ LF +:+ "---" +:+ LF +:+ LF +:+ "body" /\
  restOfContent Sample.titled = "b" +:+ LF +:+ "---" +:+ LF +:+ LF +:+ "body" /\
  restOfContent (replaceFrontMatter Sample.yaml Sample.titled
                   (VObj [("title", VStr "a---b")]))
    = "b" +:+ LF +:+ "---" +:+ LF +:+ LF +:+ "b" +:+ LF +:+ "---" +:+ LF +:+ LF +:+ "body" /\
  restOfContent (replaceFrontMatter Sample.yaml Sample.titled
                   (VObj [("title", VStr "a---b")]))
    <> restOfContent Sample.titled.
Proof.
  apply (replaceFrontMatter_marker_in_value Sample.yaml
           (VObj [("title", VStr "a---b")])); reflexivity.
Defined.

End CodecFacts.

(** ** Merging and propagation *)

Module MergeFacts.
Import JsString Js JsAny JsFacts.

Lemma getProp_assign_absent k (src : obj) : forall tgt : obj,
  getProp k src = None -> getProp k (assign tgt src) = getProp k tgt.
Proof.
  unfold assign. induction src as [|[k0 v0] src IH]; intros tgt H; simpl in *; [reflexivity|].
  destruct (String.eqb_spec k0 k) as [->|Hne]; [discriminate|].
  rewrite (IH _ H). apply getProp_setProp_ne. exact Hne.
Qed.

(** The own properties of the right operand of a spread win. *)
Lemma getProp_spread_right k v (a b : obj) :
  wellFormed b -> getProp k b = Some v -> getProp k (spread a b) = Some v.
Proof.
  intros Wb H. unfold spread. rewrite (getProp_assign _ _ _ Wb), H. reflexivity.
Qed.

Lemma getProp_spread_left k (a b : obj) :
  wellFormed a -> getProp k b = None -> getProp k (spread a b) = getProp k a.
Proof.
  intros Wa H. unfold spread. rewrite (getProp_assign_absent _ _ _ H).
  rewrite (assign_nil_id _ Wa). reflexivity.
Qed.

(** *** Apply-template-to-document *)

(** C1 (as amended).  A property the document has is kept with the
    document's value in the merged map of [applyTemplateMetadata], whatever
    the templates hold for it; in the merged map of [mergeFrontmatter] it
    is kept too, except that entries equal to the base tag are filtered
    out of a [tags] list. *)
Theorem document_value_survives_merge
    (tagBase : string) (templateData : string -> option obj)
    (metaTagNames : list string) (template : value)
    (noteData : obj) (k : string) (v : value) :
  wellFormed noteData ->
  getProp k noteData = Some v ->
  getProp k (Main.mergedDataOf templateData metaTagNames noteData) = Some v /\
  getProp k (Legacy.mergeFrontmatter tagBase (VObj noteData) template)
    = Some (match v with
            | VArr l =>
                if String.eqb k "tags"
                then VArr (List.filter (fun tag => negb (isString tagBase tag)) l)
                else v
            | _ => v
            end).
Proof.
  intros W H. split.
  - unfold Main.mergedDataOf. apply getProp_spread_right; assumption.
  - unfold Legacy.mergeFrontmatter. simpl ownEntries at 2.
    set (merged := spread (ownEntries template) noteData).
    assert (Hm : getProp k merged = Some v) by (apply getProp_spread_right; assumption).
    destruct (String.eqb_spec k "tags") as [->|Hne].
    + rewrite Hm. destruct v; try exact Hm. apply getProp_setProp_eq.
    + destruct (getProp "tags" merged) as [[]|];
        try (destruct v; exact Hm).
      rewrite getProp_setProp_ne by congruence. destruct v; exact Hm.
Qed.

Lemma document_value_survives_merge_witness :
  getProp "author"
    (Main.mergedDataOf Sample.templates ["Book"] [("author", VStr "Jane")])
    = Some (VStr "Jane") /\
  getProp "author"
    (Legacy.mergeFrontmatter "mt" (VObj [("author", VStr "Jane")])
       (VObj Sample.Book))
    = Some (VStr "Jane").
Proof.
  apply (document_value_survives_merge "mt" Sample.templates ["Book"]
           (VObj Sample.Book) [("author", VStr "Jane")] "author" (VStr "Jane"));
    reflexivity.
Defined.

(** C1 as stated fails in [mergeFrontmatter]: the document's own [tags]
    value is not kept when it lists the base tag. *)
Lemma mergeFrontmatter_filters_document_tags :
  let D := VObj [("tags", VArr [VStr "mt"; VStr "mt/Book"])] in
  let T := VObj [("tags", VArr [VStr "mt"]); ("author", VStr "unknown")] in
  getProp "tags" (ownEntries D) = Some (VArr [VStr "mt"; VStr "mt/Book"]) /\
  getProp "tags" (ownEntries T) = Some (VArr [VStr "mt"]) /\
  getProp "tags" (Legacy.mergeFrontmatter "mt" D T) = Some (VArr [VStr "mt/Book"]) /\
  getProp "tags" (Legacy.mergeFrontmatter "mt" D T) <> getProp "tags" (ownEntries D).
Proof. repeat split; try reflexivity. discriminate. Qed.

(** C3 (as amended).  Among the referenced templates that resolve, the
    last one that has a key gives its value in the merged template
    map: a later template overrides an earlier one. *)
Theorem last_template_wins
    (templateData : string -> option obj) (before after : list string)
    (name : string) (data : obj) (k : string) (v : value) :
  templateData name = Some data ->
  wellFormed data ->
  getProp k data = Some v ->
  (forall m d, In m after -> templateData m = Some d -> getProp k d = None) ->
  getProp k (Main.mergedTemplateDataOf templateData (before ++ name :: after))
    = Some v.
Proof.
  intros Hn W Hk Hafter. unfold Main.mergedTemplateDataOf.
  rewrite fold_left_app. simpl. rewrite Hn.
  set (f := fun merged n =>
              match templateData n with
              | None => merged
              | Some d => spread merged d
              end).
  set (acc := spread (fold_left f before []) data).
  assert (Wacc : wellFormed acc) by apply wellFormed_spread.
  assert (Hacc : getProp k acc = Some v) by (apply getProp_spread_right; assumption).
  clearbody acc. revert acc Wacc Hacc.
  induction after as [|m after IH]; intros acc Wacc Hacc; simpl; [exact Hacc|].
  apply IH.
  - intros m' d Hin. apply Hafter. right. exact Hin.
  - unfold f. destruct (templateData m); [apply wellFormed_spread|exact Wacc].
  - unfold f. destruct (templateData m) as [d|] eqn:Hm; [|exact Hacc].
    rewrite getProp_spread_left; [exact Hacc|exact Wacc|].
    eapply Hafter; [left; reflexivity|exact Hm].
Qed.

Lemma last_template_wins_witness :
  getProp "author" (Main.mergedTemplateDataOf Sample.templates (["Book"] ++ "Film" :: []))
    = Some (VStr "anonymous").
Proof.
  apply (last_template_wins Sample.templates ["Book"] [] "Film" Sample.Film
           "author" (VStr "anonymous")); try reflexivity.
  intros m d [].
Defined.

(** C3 as stated fails: [Book] is referenced first and has [author], yet
    the merged template map holds the value of [Film], referenced second. *)
Lemma first_template_does_not_win :
  Sample.templates "Book" = Some Sample.Book /\
  getProp "author" Sample.Book = Some (VStr "unknown") /\
  Sample.templates "Film" = Some Sample.Film /\
  getProp "author" Sample.Film = Some (VStr "anonymous") /\
  getProp "author" (Main.mergedTemplateDataOf Sample.templates ["Book"; "Film"])
    = Some (VStr "anonymous").
Proof. repeat split; reflexivity. Qed.


(** *** Propagate-template-change *)

Lemma withAddedProps_keeps (addedProps : list string) (curr : obj) k v :
  forall newData : obj,
  getProp k newData = Some v ->
  getProp k (Main.withAddedProps addedProps curr newData) = Some v.
Proof.
  unfold Main.withAddedProps.
  induction addedProps as [|prop l IH]; intros newData H; simpl; [exact H|].
  apply IH. destruct (inOp prop newData) eqn:E; simpl; [exact H|].
  rewrite getProp_setProp_ne; [exact H|]. intros ->.
  unfold inOp, hasOwn in E. rewrite H in E. discriminate.
Qed.

Lemma withoutRemovedProps_absent (removedProps : list string) k :
  forall newData : obj,
  getProp k newData = None ->
  getProp k (Main.withoutRemovedProps removedProps newData) = None.
Proof.
  unfold Main.withoutRemovedProps.
  induction removedProps as [|prop l IH]; intros newData H; simpl; [exact H|].
  apply IH. destruct (inOp prop newData && Main.holdsEmpty prop newData); [|exact H].
  rewrite getProp_deleteProp. destruct (String.eqb prop k); [reflexivity|exact H].
Qed.

Lemma withoutRemovedProps_spec (removedProps : list string) k v :
  forall newData : obj,
  getProp k newData = Some v ->
  getProp k (Main.withoutRemovedProps removedProps newData)
    = if List.existsb (String.eqb k) removedProps && (isEmptyString v || isNullish v)
      then None else Some v.
Proof.
  induction removedProps as [|prop l IH]; intros newData H; [exact H|].
  change (Main.withoutRemovedProps (prop :: l) newData)
    with (Main.withoutRemovedProps l
            (if inOp prop newData && Main.holdsEmpty prop newData
             then deleteProp prop newData else newData)).
  simpl List.existsb. destruct (String.eqb_spec k prop) as [<-|Hne].
  - unfold inOp, hasOwn, Main.holdsEmpty. rewrite H. simpl.
    destruct (isEmptyString v || isNullish v) eqn:E.
    + apply withoutRemovedProps_absent. rewrite getProp_deleteProp, String.eqb_refl.
      reflexivity.
    + rewrite (IH _ H), !andb_false_r. reflexivity.
  - simpl. apply IH.
    destruct (inOp prop newData && Main.holdsEmpty prop newData); [|exact H].
    rewrite getProp_deleteProp. destruct (String.eqb_spec prop k); [congruence|exact H].
Qed.

(** C2.  In [syncTemplateToNote], a property [p] the document holds with
    value [v] is deleted only if [p] is among the removed properties and
    [v] is empty (the empty string, or null); a document that holds a
    non-empty value for [p] keeps [p] with that value. *)
Theorem removed_property_kept_unless_empty
    (addedProps removedProps : list string) (currTemplateData noteData : obj)
    (p : string) (v : value) :
  wellFormed noteData ->
  getProp p noteData = Some v ->
  let newData := Main.syncedData addedProps removedProps currTemplateData noteData in
  (getProp p newData = None ->
     In p removedProps /\ (v = VStr EmptyString \/ v = VNull \/ v = VUndefined)) /\
  (v <> VStr EmptyString -> v <> VNull -> v <> VUndefined -> getProp p newData = Some v).
Proof.
  intros W H newData. subst newData. unfold Main.syncedData.
  rewrite (withoutRemovedProps_spec removedProps p v).
  2:{ apply withAddedProps_keeps. rewrite (assign_nil_id _ W). exact H. }
  assert (Hempty : isEmptyString v || isNullish v = true ->
                   v = VStr EmptyString \/ v = VNull \/ v = VUndefined).
  { destruct v; simpl; try discriminate; auto.
    destruct (String.eqb_spec s EmptyString); [subst; auto|discriminate]. }
  destruct (List.existsb (String.eqb p) removedProps) eqn:Ein; simpl.
  - destruct (isEmptyString v || isNullish v) eqn:E.
    + split; [|intros; destruct (Hempty eq_refl) as [?|[?|?]]; contradiction].
      intros _. split; [|auto].
      apply List.existsb_exists in Ein as (x & Hx & Hpx).
      apply String.eqb_eq in Hpx. subst x. exact Hx.
    + split; [discriminate|reflexivity].
  - split; [discriminate|reflexivity].
Qed.

Lemma removed_property_kept_unless_empty_witness :
  let newData := Main.syncedData [] ["rating"] [("author", VStr "unknown")]
                   [("author", VStr "Jane"); ("rating", VStr "5")] in
  (getProp "rating" newData = None ->
     In "rating" ["rating"] /\
     (VStr "5" = VStr EmptyString \/ VStr "5" = VNull \/ VStr "5" = VUndefined)) /\
  (VStr "5" <> VStr EmptyString -> VStr "5" <> VNull -> VStr "5" <> VUndefined ->
   getProp "rating" newData = Some (VStr "5")).
Proof.
  apply (removed_property_kept_unless_empty [] ["rating"] [("author", VStr "unknown")]
           [("author", VStr "Jane"); ("rating", VStr "5")] "rating" (VStr "5"));
    reflexivity.
Defined.

(** *** Reference-removed pruning *)

Lemma prune_loop_spec (templateData : value) (ks : list string) k :
  forall newData : obj,
  getProp k
    (fold_left
       (fun newData key =>
          if Folder.prunes templateData key (member (VObj newData) key)
          then deleteProp key newData else newData) ks newData)
  = match getProp k newData with
    | Some v => if List.existsb (String.eqb k) ks && Folder.prunes templateData k v
                then None else Some v
    | None => None
    end.
Proof.
  induction ks as [|key ks IH]; intros newData; simpl.
  - destruct (getProp k newData); reflexivity.
  - rewrite IH. destruct (String.eqb_spec k key) as [<-|Hne].
    + unfold member at 1. simpl ownEntries.
      destruct (getProp k newData) as [v|] eqn:E.
      * destruct (Folder.prunes templateData k v) eqn:P.
        -- rewrite getProp_deleteProp, String.eqb_refl. reflexivity.
        -- rewrite E, P, andb_false_r. reflexivity.
      * destruct (Folder.prunes templateData k VUndefined).
        -- rewrite getProp_deleteProp, String.eqb_refl. reflexivity.
        -- rewrite E. reflexivity.
    + destruct (Folder.prunes templateData key (member (VObj newData) key)).
      * rewrite getProp_deleteProp. destruct (String.eqb_spec key k); [congruence|].
        reflexivity.
      * reflexivity.
Qed.

(** C7 (as amended).  When the dropped template parses to a mapping
    that has no property named [hasOwnProperty], pruning deletes from the
    document exactly the properties that the template has too and whose
    value in the document is the empty string or null, or is the boolean
    the template holds for it; every other property keeps its value. *)
Theorem pruning_deletes_exactly
    (noteData templateData : obj) (k : string) :
  wellFormed noteData ->
  hasOwn "hasOwnProperty" templateData = false ->
  exists newData,
    Folder.prunedData noteData (VObj templateData) = Returned newData /\
    getProp k newData
      = match getProp k noteData with
        | Some v =>
            if hasOwn k templateData &&
               (isEmptyString v || isNull v ||
                match member (VObj templateData) k with
                | VBool b => isBool b v
                | _ => false
                end)
            then None else Some v
        | None => None
        end.
Proof.
  intros W Hown. unfold Folder.prunedData. rewrite (assign_nil_id _ W).
  change (ownEntries (VObj templateData)) with templateData. rewrite Hown.
  exists (fold_left
            (fun newData key =>
               if Folder.prunes (VObj templateData) key (member (VObj newData) key)
               then deleteProp key newData else newData)
            (keys noteData) noteData).
  split.
  - destruct noteData; reflexivity.
  - rewrite prune_loop_spec. destruct (getProp k noteData) as [v|] eqn:E; [|reflexivity].
    assert (Hin : List.existsb (String.eqb k) (keys noteData) = true).
    { apply List.existsb_exists. exists k. split; [|apply String.eqb_refl].
      eapply getProp_In. exact E. }
    rewrite Hin. simpl andb. unfold Folder.prunes.
    change (hasOwnProperty (VObj templateData) k) with (hasOwn k templateData).
    destruct (hasOwn k templateData); simpl; [|reflexivity].
    destruct (isEmptyString v || isNull v); reflexivity.
Qed.

Lemma pruning_deletes_exactly_witness :
  exists newData,
    Folder.prunedData [("author", VStr EmptyString); ("rating", VStr "5")] (VObj Sample.Book)
      = Returned newData /\
    getProp "author" newData = None.
Proof.
  apply (pruning_deletes_exactly [("author", VStr EmptyString); ("rating", VStr "5")]
           Sample.Book "author"); reflexivity.
Defined.

(** C7 as stated fails: the document holds the real value [true] for
    [seen], and pruning deletes it because the template holds [true] too. *)
Lemma pruning_deletes_real_boolean :
  getProp "seen" [("seen", VBool true); ("author", VStr "Jane")] = Some (VBool true) /\
  Folder.prunedData [("seen", VBool true); ("author", VStr "Jane")] (VObj Sample.Film)
    = Returned [("author", VStr "Jane")].
Proof. split; reflexivity. Qed.

End MergeFacts.

(** ** Asynchronous functions: what they leave of the plugin and the log *)

Module HostFacts.
Import Host.

Section Preserved.
Context {P : Type} {F : Type} (field : P -> F).

Lemma keeps_ret {A} (a : A) : keeps field (ret a).
Proof. intros s. reflexivity. Qed.

Lemma keeps_lift {A} (r : outcome A) : keeps field (lift r).
Proof. intros s. reflexivity. Qed.

Lemma keeps_getWorld : keeps field (getWorld (P:=P)).
Proof. intros s. reflexivity. Qed.

Lemma keeps_getPlugin : keeps field (getPlugin (P:=P)).
Proof. intros s. reflexivity. Qed.

Lemma keeps_read f : keeps field (read f).
Proof. intros s. unfold read. destruct (vaultText (snd s) !! path f); reflexivity. Qed.

Lemma keeps_modify f data : keeps field (modify f data).
Proof.
  intros s. unfold modify. destruct (bool_decide (path f ∈ readOnly (snd s))); reflexivity.
Qed.

Lemma keeps_confirm msg : keeps field (confirm msg).
Proof. intros s. reflexivity. Qed.

Lemma keeps_setPlugin (g : P -> P) :
  (forall p, field (g p) = field p) -> keeps field (setPlugin g).
Proof. intros H s. apply H. Qed.

Lemma keeps_bind {A B} (m : Async P A) (f : A -> Async P B) :
  keeps field m -> (forall a, keeps field (f a)) -> keeps field (bind m f).
Proof.
  intros Hm Hf s. unfold bind. specialize (Hm s).
  destruct (m s) as [[a|e] s']; simpl in *; [|exact Hm].
  rewrite (Hf a s'). exact Hm.
Qed.

Lemma keeps_forEach {A} (l : list A) (body : A -> Async P unit) :
  (forall x, keeps field (body x)) -> keeps field (forEach l body).
Proof.
  intros Hb. induction l as [|x l IH]; simpl.
  - apply keeps_ret.
  - apply keeps_bind; [apply Hb|intros _; exact IH].
Qed.

End Preserved.

Section Emitted.
Context {P : Type} (Q : list Event -> Prop).
Hypothesis Q_nil : Q [].
Hypothesis Q_app : forall a b, Q a -> Q b -> Q (a ++ b).

Lemma emits_silent {A} (m : Async P A) :
  (forall s, snd (snd (m s)) = snd s) -> emits Q m.
Proof.
  intros H s. exists []. rewrite H, List.app_nil_r. split; [reflexivity|exact Q_nil].
Qed.

Lemma emits_read f : emits Q (read (P:=P) f).
Proof.
  apply emits_silent. intros s. unfold read.
  destruct (vaultText (snd s) !! path f); reflexivity.
Qed.

Lemma emits_modify f data :
  Q [Modify (path f) data] -> Q [ModifyRejected (path f) data] ->
  emits Q (modify (P:=P) f data).
Proof.
  intros H1 H2 s. unfold modify.
  destruct (bool_decide (path f ∈ readOnly (snd s))); simpl; eauto.
Qed.

Lemma emits_confirm msg :
  (forall a, Q [Confirm msg a]) -> emits Q (confirm (P:=P) msg).
Proof. intros H s. simpl. eauto. Qed.

Lemma emits_bind {A B} (m : Async P A) (f : A -> Async P B) :
  emits Q m -> (forall a, emits Q (f a)) -> emits Q (bind m f).
Proof.
  intros Hm Hf s. unfold bind. destruct (Hm s) as (es & He & Hq).
  destruct (m s) as [[a|e] s']; simpl in *; [|eauto].
  destruct (Hf a s') as (es' & He' & Hq').
  exists (es ++ es'). rewrite He', He, List.app_assoc. auto.
Qed.

Lemma emits_forEach {A} (l : list A) (body : A -> Async P unit) :
  (forall x, emits Q (body x)) -> emits Q (forEach l body).
Proof.
  intros Hb. induction l as [|x l IH]; simpl.
  - apply emits_silent. reflexivity.
  - apply emits_bind; [apply Hb|intros _; exact IH].
Qed.

End Emitted.

End HostFacts.

(** ** The snapshot of a template *)

Module SnapshotFacts.
Import JsString Js JsAny Host Codec HostFacts.

Lemma syncTemplateToNote_keeps_plugin Y file name added removed curr :
  keeps (fun p : Main.Plugin => p) (Main.syncTemplateToNote Y file name added removed curr).
Proof.
  unfold Main.syncTemplateToNote.
  apply keeps_bind; [apply keeps_getWorld|intros w].
  apply keeps_bind; [apply keeps_read|intros content].
  apply keeps_modify.
Qed.

(** C5 (as amended).  [handleTemplateMetadataChange] overwrites the
    template's snapshot with the new property map before it propagates
    to any document: whether propagation completes or a write fails, the
    snapshot it leaves is the new map. *)
Theorem snapshot_advanced_before_propagation
    (Y : YamlLib) (templateFile : TFile) (p : Main.Plugin) (w : World) :
  Main.templateCache (fst (snd (Main.handleTemplateMetadataChange Y templateFile (p, w))))
  = <[path templateFile := default [] (cachedFrontmatter w templateFile)]>
      (Main.templateCache p).
Proof.
  unfold Main.handleTemplateMetadataChange.
  unfold bind at 1. simpl. unfold bind at 1. simpl. unfold bind at 1. simpl.
  match goal with |- context [forEach ?l ?b ?s] =>
    rewrite (keeps_forEach (fun p : Main.Plugin => p) l b) end.
  - reflexivity.
  - intros file. apply keeps_bind; [apply keeps_getWorld|intros w'].
    apply keeps_bind; [apply keeps_lift|intros tags].
    destruct (List.existsb _ tags);
      [apply syncTemplateToNote_keeps_plugin|apply keeps_ret].
Qed.

(** C5 as stated fails: the write to the bound note is rejected, and the
    snapshot of the template is already the new property map. *)
Lemma snapshot_advanced_despite_failed_write :
  let s := Main.handleTemplateMetadataChange Sample.yaml Sample.bookFile
             (Sample.plugin, Sample.lockedVault) in
  fst s = Thrown "EACCES" /\
  events (snd (snd s))
    = [ModifyRejected "note.md"
         (Sample.block [("author", VStr "Jane"); ("tags", VArr [VStr "mt/Book"])]
            +:+ LF +:+ "body")] /\
  vaultText (snd (snd s)) !! "note.md" = Some Sample.noteMergedText /\
  Main.templateCache Sample.plugin !! "mt/Book.md" = Some Sample.BookBefore /\
  Main.templateCache (fst (snd s)) !! "mt/Book.md" = Some Sample.Book.
Proof. vm_compute. repeat split; reflexivity. Qed.

End SnapshotFacts.

(** ** Confirmation of destructive changes *)

Module ConfirmFacts.
Import JsString Js JsAny Host Codec HostFacts.

Lemma Forall_isWrite_nil : Forall isWrite [].
Proof. constructor. Qed.

Lemma Forall_isWrite_app a b : Forall isWrite a -> Forall isWrite b -> Forall isWrite (a ++ b).
Proof. intros Ha Hb. apply Forall_app. split; assumption. Qed.

Lemma anything_nil : (fun _ : list Event => True) [].
Proof. exact I. Qed.

Lemma anything_app (a b : list Event) : True -> True -> (fun _ : list Event => True) (a ++ b).
Proof. intros _ _. exact I. Qed.

(** [handleTemplateMetadataChange] writes; it never asks. *)
Lemma handleTemplateMetadataChange_never_asks Y templateFile :
  emits (Forall isWrite) (Main.handleTemplateMetadataChange Y templateFile).
Proof.
  pose proof Forall_isWrite_nil as Hn. pose proof Forall_isWrite_app as Ha.
  unfold Main.handleTemplateMetadataChange.
  apply emits_bind; try assumption; [apply emits_silent; auto|intros p].
  apply emits_bind; try assumption; [apply emits_silent; auto|intros w].
  apply emits_bind; try assumption; [apply emits_silent; auto|intros _].
  apply emits_forEach; try assumption. intros file.
  apply emits_bind; try assumption; [apply emits_silent; auto|intros w'].
  apply emits_bind; try assumption; [apply emits_silent; auto|intros tags].
  destruct (List.existsb _ tags); [|apply emits_silent; auto].
  unfold Main.syncTemplateToNote.
  apply emits_bind; try assumption; [apply emits_silent; auto|intros w''].
  apply emits_bind; try assumption; [apply emits_read; auto|intros content].
  apply emits_modify; repeat constructor.
Qed.

Lemma syncNote_emits Y name dels newFm file :
  emits (fun _ => True) (Legacy.syncNote Y name dels newFm file).
Proof.
  pose proof anything_nil as Hn. pose proof anything_app as Ha.
  unfold Legacy.syncNote.
  apply emits_bind; try assumption; [apply emits_silent; auto|intros p].
  apply emits_bind; try assumption; [apply emits_silent; auto|intros w].
  apply emits_bind; try assumption; [apply emits_silent; auto|intros [|]];
    [|apply emits_silent; auto].
  apply emits_bind; try assumption; [apply emits_read; auto|intros content].
  apply emits_bind; try assumption; [apply emits_silent; auto|intros parsed].
  apply emits_bind; try assumption; [apply emits_silent; auto|intros existing].
  destruct (negb _); [|apply emits_silent; auto].
  apply emits_bind; try assumption; [apply emits_silent; auto|intros _].
  apply emits_bind; try assumption; [apply emits_modify; auto|intros _].
  apply emits_silent; auto.
Qed.

(** C4 (as amended).  In [syncNotesWithTemplate], whenever the block of
    the template's text parses to a mapping that lacks a property of the
    stored previous state, the confirmation is asked, for the properties
    that are lacking, before anything is written; when it is declined, the
    only write is the template's own text, rebuilt from the previous
    property map, the stored state stays, and no other file changes.
    [handleTemplateMetadataChange] never asks: it propagates directly. *)
Theorem confirmation_precedes_propagation
    (Y : YamlLib) (templateName : string) (p : Legacy.Plugin) (w : World)
    (templateFile : TFile) (content : string) (newTemplate : obj) :
  getAbstractFileByPath w (templateName +:+ ".md") = Some templateFile ->
  vaultText w !! path templateFile = Some content ->
  extractFrontmatter Y content = Returned (VObj newTemplate) ->
  let previous := Legacy.previousFrontmatterOf p templateName in
  let deleted :=
    List.filter (fun key => negb (hasOwn key newTemplate)) (keys (ownEntries previous)) in
  deleted <> [] ->
  let message := Legacy.confirmMessage templateName deleted in
  let reverted := Legacy.revertedContentOf Y previous content in
  let s' := snd (Legacy.syncNotesWithTemplate Y templateName (p, w)) in
  (exists rest,
     events (snd s') = events w ++ Confirm message (confirmAnswer w message) :: rest) /\
  (confirmAnswer w message = false ->
     (events (snd s') = events w ++ [Confirm message false; Modify (path templateFile) reverted]
      \/ events (snd s')
         = events w ++ [Confirm message false; ModifyRejected (path templateFile) reverted]) /\
     Legacy.previousTemplateState (fst s') = Legacy.previousTemplateState p /\
     forall q, q <> path templateFile -> vaultText (snd s') !! q = vaultText w !! q) /\
  (forall (tf : TFile) (pm : Main.Plugin) (wm : World),
     exists es,
       events (snd (snd (Main.handleTemplateMetadataChange Y tf (pm, wm))))
         = events wm ++ es /\ Forall isWrite es).
Proof.
  intros Hfile Hread Hparse previous deleted Hne message reverted s'.
  assert (Hdel : Legacy.getDeletedProperties previous (VObj newTemplate) = Returned deleted).
  { unfold Legacy.getDeletedProperties, deleted.
    destruct (ownEntries previous); reflexivity. }
  assert (Hrun : Legacy.syncNotesWithTemplate Y templateName (p, w) =
    let a := confirmAnswer w message in
    let w1 := withEvent (Confirm message a) w in
    if negb a then
      bind (setPlugin (Legacy.withSuppressTemplateChange true))
        (fun _ => bind (modify templateFile reverted)
           (fun _ => setPlugin (Legacy.withSuppressTemplateChange false))) (p, w1)
    else
      bind (setPlugin (fun p => Legacy.withPreviousTemplateState
                        (<[templateName := VObj newTemplate]>
                           (Legacy.previousTemplateState p)) p))
        (fun _ => forEach (markdownFiles w)
           (Legacy.syncNote Y templateName deleted (VObj newTemplate))) (p, w1)).
  { unfold Legacy.syncNotesWithTemplate.
    unfold bind at 1. simpl. rewrite Hfile.
    unfold bind at 1. simpl.
    unfold bind at 1. unfold read. simpl. rewrite Hread.
    unfold bind at 1. unfold lift. rewrite Hparse. simpl truthy. simpl negb. cbv iota.
    unfold bind at 1. fold previous. rewrite Hdel.
    unfold bind at 1. destruct deleted as [|d ds]; [congruence|].
    simpl. subst message. destruct (confirmAnswer w _); reflexivity. }
  subst s'. rewrite Hrun. clear Hrun. split; [|split].
  - cbv zeta. destruct (confirmAnswer w message); simpl negb; cbv iota.
    + unfold bind at 1. simpl.
      match goal with |- context [forEach ?l ?b ?s] =>
        destruct (emits_forEach (fun _ => True) anything_nil anything_app l b
                    (syncNote_emits Y templateName deleted (VObj newTemplate)) s)
          as (es & He & _) end.
      exists es. rewrite He. simpl. rewrite <- List.app_assoc. reflexivity.
    + unfold bind, setPlugin, modify. simpl.
      destruct (bool_decide (path templateFile ∈ readOnly w)); simpl;
        eexists; rewrite <- List.app_assoc; reflexivity.
  - intros Hno. rewrite Hno. cbv zeta. simpl negb. cbv iota.
    unfold bind, setPlugin, modify. simpl.
    destruct (bool_decide (path templateFile ∈ readOnly w)); simpl.
    + split; [right; rewrite <- List.app_assoc; reflexivity|].
      split; [reflexivity|]. intros q _. reflexivity.
    + split; [left; rewrite <- List.app_assoc; reflexivity|].
      split; [reflexivity|]. intros q Hq. apply lookup_insert_ne. congruence.
  - intros tf pm wm. apply (handleTemplateMetadataChange_never_asks Y tf (pm, wm)).
Qed.

Lemma confirmation_precedes_propagation_witness :
  let s := Legacy.syncNotesWithTemplate Sample.yaml "Book"
             (Sample.legacyPlugin, Sample.legacyVault) in
  (events (snd (snd s))
     = [Confirm (Legacy.confirmMessage "Book" ["rating"]) false;
        Modify "Book.md" (Sample.block Sample.BookBefore +:+ LF)]
   \/ events (snd (snd s))
      = [Confirm (Legacy.confirmMessage "Book" ["rating"]) false;
         ModifyRejected "Book.md" (Sample.block Sample.BookBefore +:+ LF)]) /\
  Legacy.previousTemplateState (fst (snd s))
    = Legacy.previousTemplateState Sample.legacyPlugin.
Proof.
  pose proof (confirmation_precedes_propagation Sample.yaml "Book"
                Sample.legacyPlugin Sample.legacyVault Sample.legacyBookFile
                Sample.bookText Sample.Book
                eq_refl eq_refl eq_refl) as H.
  assert (Hne : ["rating"] <> @nil string) by discriminate.
  destruct (H Hne) as (_ & Hdeclined & _).
  destruct (Hdeclined eq_refl) as (Hev & Hstate & _).
  split; [exact Hev|exact Hstate].
Defined.

(** C4 as stated fails: the template [Book] dropped [rating], which its
    snapshot holds with a value; the bound note, whose [rating] is empty,
    loses the property, and nobody was asked. *)
Lemma propagation_without_confirmation :
  let s := Main.handleTemplateMetadataChange Sample.yaml Sample.bookFile
             (Sample.plugin, Sample.vault) in
  Main.templateCache Sample.plugin !! "mt/Book.md" = Some Sample.BookBefore /\
  getProp "rating" Sample.BookBefore = Some (VStr "unrated") /\
  cachedFrontmatter Sample.vault Sample.bookFile = Some Sample.Book /\
  getProp "rating" Sample.Book = None /\
  cachedFrontmatter Sample.vault Sample.noteFile = Some Sample.NoteMerged /\
  getProp "rating" Sample.NoteMerged = Some (VStr EmptyString) /\
  fst s = Returned tt /\
  events (snd (snd s))
    = [Modify "note.md"
         (Sample.block [("author", VStr "Jane"); ("tags", VArr [VStr "mt/Book"])]
            +:+ LF +:+ "body")] /\
  vaultText (snd (snd s)) !! "note.md"
    = Some (Sample.block [("author", VStr "Jane"); ("tags", VArr [VStr "mt/Book"])]
              +:+ LF +:+ "body").
Proof. vm_compute. repeat split; reflexivity. Qed.

End ConfirmFacts.

(** ** Applying a template twice *)

Module ApplyFacts.
Import JsString Js JsAny Host Codec JsFacts HostFacts.

Lemma filter_idem {A} (f : A -> bool) (l : list A) :
  List.filter f (List.filter f l) = List.filter f l.
Proof.
  induction l as [|x l IH]; simpl; [reflexivity|].
  destruct (f x) eqn:E; simpl; rewrite ?E, IH; reflexivity.
Qed.

Lemma keys_setProp_own k v (o : obj) :
  hasOwn k o = true -> keys (setProp k v o) = keys o.
Proof. intros H. unfold setProp. rewrite H. apply keys_updateProp. Qed.

(** Merging the template again into the merged map gives the merged map. *)
Lemma mergeFrontmatter_idem tagBase (existing template : value) :
  Legacy.mergeFrontmatter tagBase
    (VObj (Legacy.mergeFrontmatter tagBase existing template)) template
  = Legacy.mergeFrontmatter tagBase existing template.
Proof.
  unfold Legacy.mergeFrontmatter.
  change (ownEntries (VObj ?o)) with o.
  set (T := ownEntries template). set (M0 := spread T (ownEntries existing)).
  assert (Hidem : spread T M0 = M0) by (unfold M0; apply spread_idem).
  destruct (getProp "tags" M0) as [tags|] eqn:Htags.
  2:{ rewrite Hidem, Htags. reflexivity. }
  destruct tags as [| | | | |l|];
    try (rewrite Hidem, Htags; reflexivity).
  set (f := fun tag => negb (isString tagBase tag)).
  set (m := setProp "tags" (VArr (List.filter f l)) M0).
  assert (Hown : hasOwn "tags" M0 = true) by (apply hasOwn_true; eauto).
  assert (Hm : spread T m = m).
  { apply (spread_absorb T (ownEntries existing)).
    - apply wellFormed_setProp, wellFormed_spread.
    - apply keys_setProp_own. exact Hown. }
  rewrite Hm. unfold m at 1. rewrite getProp_setProp_eq, filter_idem.
  apply setProp_same. apply getProp_setProp_eq.
Qed.

Lemma sameJSON_refl (o : obj) : Legacy.sameJSON (VObj o) (VObj o) = true.
Proof. unfold Legacy.sameJSON. simpl. apply String.eqb_refl. Qed.

(** Once the document holds the merged map, the update is skipped. *)
Lemma updatedContentOf_merged Y tagBase content (existing template : value) :
  Legacy.updatedContentOf Y tagBase content
    (VObj (Legacy.mergeFrontmatter tagBase existing template)) template = None.
Proof.
  unfold Legacy.updatedContentOf. rewrite mergeFrontmatter_idem, sameJSON_refl.
  reflexivity.
Qed.

(** What [applyMetadataTemplate] does once the template and the document
    are read. *)
Lemma applyMetadataTemplate_run Y (file templateFile : TFile) (templateName : string)
    (p : Legacy.Plugin) (w : World) (templateContent existingContent : string)
    (templateFrontmatter existingFrontmatter : value) :
  Legacy.suppressChange p = false ->
  getAbstractFileByPath w (templateName +:+ ".md") = Some templateFile ->
  vaultText w !! path templateFile = Some templateContent ->
  extractFrontmatter Y templateContent = Returned templateFrontmatter ->
  truthy templateFrontmatter = true ->
  vaultText w !! path file = Some existingContent ->
  extractFrontmatter Y existingContent = Returned existingFrontmatter ->
  Legacy.applyMetadataTemplate Y file templateName (p, w)
  = match Legacy.updatedContentOf Y (Legacy.tagBase p) existingContent
            existingFrontmatter templateFrontmatter with
    | None => (Returned tt, (p, w))
    | Some updatedContent =>
        if bool_decide (path file ∈ readOnly w)
        then (Thrown "EACCES",
              (p, withEvent (ModifyRejected (path file) updatedContent) w))
        else (Returned tt,
              (p, withEvent (Modify (path file) updatedContent)
                    (withText (<[path file := updatedContent]> (vaultText w)) w)))
    end.
Proof.
  intros Hs Hfile Htc Ht Htruthy Hc He.
  unfold Legacy.applyMetadataTemplate.
  unfold bind at 1. simpl. rewrite Hs.
  unfold bind at 1. simpl. rewrite Hfile.
  unfold bind at 1. unfold read at 1. simpl. rewrite Htc.
  unfold bind at 1. unfold lift at 1. rewrite Ht, Htruthy.
  unfold bind at 1. unfold read at 1. simpl. rewrite Hc.
  unfold bind at 1. unfold lift at 1. rewrite He.
  destruct (Legacy.updatedContentOf _ _ _ _ _) as [updated|]; [|reflexivity].
  unfold bind, setPlugin, finally, modify. simpl.
  destruct p as [tb sc stc pts]. simpl in Hs. subst sc.
  destruct (bool_decide (path file ∈ readOnly w)); reflexivity.
Qed.

(** C6 (as amended).  [applyMetadataTemplate] leaves everything as it is
    when the merged frontmatter serializes like the document's, and writes
    the merged frontmatter otherwise; applied again to the document it
    wrote, it writes nothing.  [applyTemplateMetadata] writes on every
    application; its merged map is the same the second time. *)
Theorem apply_twice
    (Y : YamlLib) (file templateFile : TFile) (templateName : string)
    (p : Legacy.Plugin) (w : World) (templateContent existingContent : string)
    (templateFrontmatter existingFrontmatter : value) :
  Legacy.suppressChange p = false ->
  getAbstractFileByPath w (templateName +:+ ".md") = Some templateFile ->
  vaultText w !! path templateFile = Some templateContent ->
  extractFrontmatter Y templateContent = Returned templateFrontmatter ->
  truthy templateFrontmatter = true ->
  vaultText w !! path file = Some existingContent ->
  extractFrontmatter Y existingContent = Returned existingFrontmatter ->
  let merged :=
    VObj (Legacy.mergeFrontmatter (Legacy.tagBase p) existingFrontmatter
            templateFrontmatter) in
  let updated := updateContentWithFrontmatter Y existingContent merged in
  let once := Legacy.applyMetadataTemplate Y file templateName (p, w) in
  (Legacy.sameJSON existingFrontmatter merged = true ->
     once = (Returned tt, (p, w))) /\
  (Legacy.sameJSON existingFrontmatter merged = false ->
     events (snd (snd once)) = events w ++ [Modify (path file) updated] \/
     events (snd (snd once)) = events w ++ [ModifyRejected (path file) updated]) /\
  (path file <> path templateFile ->
   path file ∉ readOnly w ->
   extractFrontmatter Y updated = Returned merged ->
     Legacy.applyMetadataTemplate Y file templateName (snd once)
     = (Returned tt, snd once)) /\
  (forall (pm : Main.Plugin) (wm : World) (names : list string) (content : string),
     vaultText wm !! path file = Some content ->
     let noteData := default [] (cachedFrontmatter wm file) in
     let mergedData := Main.mergedDataOf (Main.templateDataOf pm wm) names noteData in
     let written := replaceFrontMatter Y content (VObj mergedData) in
     let es := events (snd (snd (Main.applyTemplateMetadata Y file names (pm, wm)))) in
     (es = events wm ++ [Modify (path file) written] \/
      es = events wm ++ [ModifyRejected (path file) written]) /\
     Main.mergedDataOf (Main.templateDataOf pm wm) names mergedData = mergedData).
Proof.
  intros Hs Hfile Htc Ht Htruthy Hc He merged updated once.
  pose proof (applyMetadataTemplate_run Y file templateFile templateName p w
                _ _ _ _ Hs Hfile Htc Ht Htruthy Hc He) as Hrun.
  fold once in Hrun. unfold Legacy.updatedContentOf in Hrun.
  fold merged in Hrun. fold updated in Hrun.
  split; [|split; [|split]].
  - intros Hsame. rewrite Hsame in Hrun. exact Hrun.
  - intros Hdiff. rewrite Hdiff in Hrun. rewrite Hrun.
    destruct (bool_decide (path file ∈ readOnly w)); [right|left]; reflexivity.
  - intros Hneq Hrw Hback.
    destruct (Legacy.sameJSON existingFrontmatter merged) eqn:Hsame.
    + cbv iota in Hrun. rewrite Hrun. simpl snd. exact Hrun.
    + cbv iota in Hrun. rewrite (bool_decide_eq_false_2 _ Hrw) in Hrun.
      rewrite Hrun. simpl snd.
      rewrite (applyMetadataTemplate_run Y file templateFile templateName p _
                 templateContent updated templateFrontmatter merged); try assumption.
      * unfold merged. rewrite updatedContentOf_merged. reflexivity.
      * simpl. rewrite lookup_insert_ne by congruence. exact Htc.
      * simpl. apply lookup_insert_eq.
  - intros pm wm names content Hread noteData mergedData written es. split.
    + subst es. unfold Main.applyTemplateMetadata, bind, getPlugin, getWorld, read, modify.
      simpl. rewrite Hread. simpl.
      destruct (bool_decide (path file ∈ readOnly wm)); [right|left]; reflexivity.
    + unfold mergedData, Main.mergedDataOf. apply spread_idem.
Qed.

Lemma apply_twice_witness :
  let once := Legacy.applyMetadataTemplate Sample.yaml Sample.noteFile "Book"
                (Sample.legacyPlugin, Sample.legacyVault) in
  (events (snd (snd once)) = [Modify "note.md" Sample.noteMergedText] \/
   events (snd (snd once)) = [ModifyRejected "note.md" Sample.noteMergedText]) /\
  Legacy.applyMetadataTemplate Sample.yaml Sample.noteFile "Book" (snd once)
  = (Returned tt, snd once).
Proof.
  destruct (apply_twice Sample.yaml Sample.noteFile Sample.legacyBookFile "Book"
              Sample.legacyPlugin Sample.legacyVault Sample.bookText Sample.noteText
              (VObj Sample.Book) (VObj Sample.Note)
              eq_refl eq_refl eq_refl eq_refl eq_refl eq_refl eq_refl)
    as (_ & Hwrite & Hagain & _).
  split.
  - apply Hwrite. reflexivity.
  - apply Hagain.
    + discriminate.
    + vm_compute. intros H. discriminate H.
    + reflexivity.
Defined.

(** C6 as stated fails: the merged map of [applyTemplateMetadata] is the
    property map the note already has, and the note is written all the
    same, with the text it already has. *)
Lemma identical_map_is_written :
  let s := Main.applyTemplateMetadata Sample.yaml Sample.noteFile ["Book"]
             (Sample.plugin, Sample.vault) in
  cachedFrontmatter Sample.vault Sample.noteFile = Some Sample.NoteMerged /\
  Main.mergedDataOf (Main.templateDataOf Sample.plugin Sample.vault) ["Book"]
    Sample.NoteMerged = Sample.NoteMerged /\
  vaultText Sample.vault !! "note.md" = Some Sample.noteMergedText /\
  events (snd (snd s)) = [Modify "note.md" Sample.noteMergedText].
Proof. vm_compute. repeat split; reflexivity. Qed.

End ApplyFacts.

(** ** Further facts about the other revisions *)

Module RevisionFacts.
Import JsString Js JsAny Host Codec HostFacts.

Lemma syncNote_keeps_state Y name dels newFm file :
  keeps Legacy.previousTemplateState (Legacy.syncNote Y name dels newFm file).
Proof.
  unfold Legacy.syncNote.
  apply keeps_bind; [apply keeps_getPlugin|intros p].
  apply keeps_bind; [apply keeps_getWorld|intros w].
  apply keeps_bind; [apply keeps_lift|intros [|]]; [|apply keeps_ret].
  apply keeps_bind; [apply keeps_read|intros content].
  apply keeps_bind; [apply keeps_lift|intros parsed].
  apply keeps_bind; [apply keeps_lift|intros existing].
  destruct (negb _); [|apply keeps_ret].
  apply keeps_bind; [apply keeps_setPlugin; reflexivity|intros _].
  apply keeps_bind; [apply keeps_modify|intros _].
  apply keeps_setPlugin. reflexivity.
Qed.

(** [syncNotesWithTemplate] too stores the new property map before it
    goes through the notes: once the change is not declined, the stored
    state is the new map, however the loop over the notes ends. *)
Lemma previousTemplateState_advanced_before_propagation
    (Y : YamlLib) (templateName : string) (p : Legacy.Plugin) (w : World)
    (templateFile : TFile) (content : string) (newFrontmatter : value)
    (deleted : list string) :
  getAbstractFileByPath w (templateName +:+ ".md") = Some templateFile ->
  vaultText w !! path templateFile = Some content ->
  extractFrontmatter Y content = Returned newFrontmatter ->
  truthy newFrontmatter = true ->
  Legacy.getDeletedProperties (Legacy.previousFrontmatterOf p templateName) newFrontmatter
    = Returned deleted ->
  (deleted = [] \/ confirmAnswer w (Legacy.confirmMessage templateName deleted) = true) ->
  Legacy.previousTemplateState
    (fst (snd (Legacy.syncNotesWithTemplate Y templateName (p, w))))
  = <[templateName := newFrontmatter]> (Legacy.previousTemplateState p).
Proof.
  intros Hfile Hread Hparse Htruthy Hdel Hgo.
  unfold Legacy.syncNotesWithTemplate.
  unfold bind at 1. simpl. rewrite Hfile.
  unfold bind at 1. simpl.
  unfold bind at 1. unfold read. simpl. rewrite Hread.
  unfold bind at 1. unfold lift. rewrite Hparse, Htruthy. simpl.
  unfold bind at 1. rewrite Hdel.
  unfold bind at 1.
  assert (Hloop : forall s,
    Legacy.previousTemplateState
      (fst (snd (bind (setPlugin (fun p => Legacy.withPreviousTemplateState
                                 (<[templateName := newFrontmatter]>
                                    (Legacy.previousTemplateState p)) p))
                   (fun _ => forEach (markdownFiles w)
                               (Legacy.syncNote Y templateName deleted newFrontmatter)) s)))
    = <[templateName := newFrontmatter]> (Legacy.previousTemplateState (fst s))).
  { intros s. unfold bind at 1. simpl.
    rewrite (keeps_forEach Legacy.previousTemplateState); [reflexivity|].
    intros file. apply syncNote_keeps_state. }
  destruct deleted as [|d ds].
  - simpl. apply (Hloop (p, w)).
  - destruct Hgo as [Hnil|Hyes]; [discriminate|].
    simpl. rewrite Hyes. simpl. apply (Hloop (p, _)).
Qed.

(** [syncTemplateToNote] writes the note with [syncedData] as its block. *)
Lemma syncTemplateToNote_writes Y (file : TFile) (metaTagName : string)
    (addedProps removedProps : list string) (currTemplateData : obj)
    (p : Main.Plugin) (w : World) (content : string) :
  vaultText w !! path file = Some content ->
  let newData :=
    Main.syncedData addedProps removedProps currTemplateData
      (default [] (cachedFrontmatter w file)) in
  let written := replaceFrontMatter Y content (VObj newData) in
  let es := events (snd (snd (Main.syncTemplateToNote Y file metaTagName addedProps
                                removedProps currTemplateData (p, w)))) in
  es = events w ++ [Modify (path file) written] \/
  es = events w ++ [ModifyRejected (path file) written].
Proof.
  intros Hread newData written es. subst es.
  unfold Main.syncTemplateToNote, bind, getWorld, read, modify. simpl.
  rewrite Hread. simpl.
  destruct (bool_decide (path file ∈ readOnly w)); [right|left]; reflexivity.
Qed.

(** [syncNotesWithTemplate] decides what to delete by falsiness, not by
    emptiness: a zero or a [false] goes too, which [isEmpty] of the same
    program does not count as empty. *)
Lemma withoutEmpties_drops_falsy :
  Legacy.isEmpty (VNum 0) = false /\
  Legacy.withoutEmpties ["rating"] (VObj [("rating", VNum 0); ("author", VStr "Jane")])
    = Returned (VObj [("author", VStr "Jane")]).
Proof. split; reflexivity. Qed.

(** Pruning runs only when the setting is on. *)
Lemma handleMetaTagRemoved_disabled Y (file : TFile) (removedTags : list string)
    (p : Main.Plugin) (w : World) :
  Main.deleteEmptyMetatagProperties (Main.settings p) = false ->
  Folder.handleMetaTagRemoved Y file removedTags (p, w) = (Returned tt, (p, w)).
Proof.
  intros Hoff. unfold Folder.handleMetaTagRemoved. unfold bind at 1. simpl.
  rewrite Hoff. induction removedTags as [|tag l IH]; simpl; [reflexivity|].
  unfold bind at 1. destruct (startsWith tag _); simpl; exact IH.
Qed.

(** In [src/main.ts] pruning is switched off altogether. *)
Lemma removeEmptyTemplateProperties_returns (file : TFile) (metaTagName : string)
    (s : Main.Plugin * World) :
  Main.removeEmptyTemplateProperties file metaTagName s = (Returned tt, s).
Proof. reflexivity. Qed.

(** The loop of [Folder.applyTemplateMetadata] is the loop of [src/main.ts]
    over another way of finding templates: when every lookup returns, it
    builds the same merged template map (so the last template wins there
    too). *)
Lemma mergedTemplateDataFrom_spec (p : Main.Plugin) (w : World)
    (templateData : string -> option obj) (metaTagNames : list string) :
  (forall name, In name metaTagNames ->
                Folder.templateDataOf p w name = Returned (templateData name)) ->
  Folder.mergedTemplateDataFrom p w metaTagNames []
  = Returned (Main.mergedTemplateDataOf templateData metaTagNames).
Proof.
  unfold Main.mergedTemplateDataOf. generalize (@nil (string * value)).
  induction metaTagNames as [|name l IH]; intros acc H; simpl; [reflexivity|].
  rewrite (H name (or_introl eq_refl)).
  destruct (templateData name); apply IH; intros n Hn; apply H; right; exact Hn.
Qed.

End RevisionFacts.

(** ** More on strings *)

Module PrefixFacts.
Import JsString JsStringFacts.

Lemma prefix_append (p r : string) : String.prefix p (p +:+ r) = true.
Proof.
  induction p as [|c p IH]; simpl.
  - destruct r; reflexivity.
  - destruct (Ascii.ascii_dec c c) as [_|Hne]; [exact IH|contradiction].
Qed.

Lemma prefix_split (p : string) : forall s,
  String.prefix p s = true -> s = p +:+ substring s (String.length p).
Proof.
  induction p as [|c p IH]; intros s H; simpl.
  - destruct s; reflexivity.
  - destruct s as [|d s]; simpl in H; [discriminate|].
    destruct (Ascii.ascii_dec c d) as [<-|]; [|discriminate].
    change (String c s = String c (p +:+ substring s (String.length p))).
    f_equal. apply IH. exact H.
Qed.

Lemma index_prefix (p s : string) :
  String.prefix p s = true -> String.index 0 p s = Some 0.
Proof.
  intros H. destruct s as [|d s].
  - destruct p; [reflexivity|discriminate].
  - cbv beta iota delta [String.index]. fold String.index. rewrite H. reflexivity.
Qed.

Lemma String_substring_0_0 (s : string) : String.substring 0 0 s = EmptyString.
Proof. destruct s; reflexivity. Qed.

(** Replacing a prefix by nothing leaves what follows it. *)
Lemma replace_prefix (p r : string) : replace (p +:+ r) p EmptyString = r.
Proof.
  unfold replace. rewrite (index_prefix _ _ (prefix_append p r)).
  rewrite String_substring_0_0. simpl Nat.add. rewrite substring_app. reflexivity.
Qed.

End PrefixFacts.

(** ** Tags: the delta between two observations *)

Module TagFacts.
Import JsString Js JsAny Host Codec Main MainFlow HostFacts.

Lemma existsb_eqb_In (x : string) (l : list string) :
  List.existsb (String.eqb x) l = true <-> In x l.
Proof.
  rewrite List.existsb_exists. split.
  - intros (y & Hy & He). apply String.eqb_eq in He. subst. exact Hy.
  - intros H. exists x. split; [exact H|apply String.eqb_refl].
Qed.

Lemma In_getAddedTags (prev cur : list string) (t : string) :
  In t (getAddedTags prev cur) <-> In t cur /\ ~ In t prev.
Proof.
  unfold getAddedTags. rewrite List.filter_In, negb_true_iff.
  split; intros [H1 H2]; (split; [exact H1|]).
  - intros Hin. apply existsb_eqb_In in Hin. congruence.
  - destruct (List.existsb (String.eqb t) prev) eqn:E; [|reflexivity].
    apply existsb_eqb_In in E. contradiction.
Qed.

Lemma In_getRemovedTags (prev cur : list string) (t : string) :
  In t (getRemovedTags prev cur) <-> In t prev /\ ~ In t cur.
Proof. apply (In_getAddedTags cur prev t). Qed.

Lemma nil_iff_no_member {A} (l : list A) : l = [] <-> forall x, ~ In x l.
Proof.
  split; [intros -> x []|]. destruct l as [|a l]; [reflexivity|].
  intros H. exfalso. apply (H a). left. reflexivity.
Qed.

(** The delta of the tags: a tag is added when it is there now and was not
    before, removed when it was there and is not now; there is no delta
    exactly when both observations hold the same tags, in whatever order;
    and the tags now are the previous ones without the removed, with the
    added. *)
Theorem tag_delta (prevTags currentTags : list string) :
  (forall t, In t (getAddedTags prevTags currentTags)
             <-> In t currentTags /\ ~ In t prevTags) /\
  (forall t, In t (getRemovedTags prevTags currentTags)
             <-> In t prevTags /\ ~ In t currentTags) /\
  (getAddedTags prevTags currentTags = [] /\ getRemovedTags prevTags currentTags = []
   <-> forall t, In t prevTags <-> In t currentTags) /\
  (forall t, In t currentTags
             <-> In t (getAddedTags prevTags currentTags) \/
                 (In t prevTags /\ ~ In t (getRemovedTags prevTags currentTags))).
Proof.
  split; [intros t; apply In_getAddedTags|].
  split; [intros t; apply In_getRemovedTags|].
  split.
  - rewrite !nil_iff_no_member. split.
    + intros [Ha Hr] t. specialize (Ha t). specialize (Hr t).
      rewrite In_getAddedTags in Ha. rewrite In_getRemovedTags in Hr.
      destruct (in_dec String.string_dec t prevTags),
               (in_dec String.string_dec t currentTags); tauto.
    + intros H. split; intros t; rewrite ?In_getAddedTags, ?In_getRemovedTags;
        specialize (H t); tauto.
  - intros t. rewrite In_getAddedTags, In_getRemovedTags.
    destruct (in_dec String.string_dec t prevTags),
             (in_dec String.string_dec t currentTags); tauto.
Qed.

(** *** [getAllTags] *)

Lemma In_filter_neq (x y : string) (l : list string) :
  In y (List.filter (fun z => negb (String.eqb z x)) l) <-> In y l /\ y <> x.
Proof.
  rewrite List.filter_In, negb_true_iff, String.eqb_neq. reflexivity.
Qed.

Lemma In_dedupe (l : list string) (x : string) : In x (dedupe l) <-> In x l.
Proof.
  induction l as [|a l IH]; simpl; [reflexivity|].
  rewrite In_filter_neq, IH.
  destruct (String.string_dec a x); intuition congruence.
Qed.

Lemma NoDup_filter_string (f : string -> bool) (l : list string) :
  List.NoDup l -> List.NoDup (List.filter f l).
Proof.
  induction 1 as [|a l Hn Hd IH]; simpl; [constructor|].
  destruct (f a); [|exact IH]. constructor; [|exact IH].
  intros Hin. apply List.filter_In in Hin. apply Hn. apply Hin.
Qed.

Lemma NoDup_dedupe (l : list string) : List.NoDup (dedupe l).
Proof.
  induction l as [|a l IH]; simpl; constructor.
  - rewrite In_filter_neq. intros [_ H]. apply H. reflexivity.
  - apply NoDup_filter_string. exact IH.
Qed.

Lemma stripHashes_Thrown (l : list value) (x : value) :
  In x l -> (forall tag, x <> VStr tag) -> stripHashes l = Thrown "TypeError".
Proof.
  induction l as [|a l IH]; intros Hx Hns; [destruct Hx|].
  destruct Hx as [->|Hx].
  - destruct x; try reflexivity. exfalso. apply (Hns s). reflexivity.
  - simpl. destruct a; try reflexivity. rewrite (IH Hx Hns). reflexivity.
Qed.

Ltac only_inline :=
  let H := fresh "H" in
  let Ht := fresh "Ht" in
  intros [H|[(? & ? & [= <-] & Ht & _)|(? & ? & [= <-] & Ht & _)]];
  [exact H|congruence|congruence].

Lemma stripHashes_spec (l : list value) :
  (forall x, In x l -> exists s, x = VStr s) ->
  exists r, stripHashes l = Returned r /\
            forall t, In t r <-> exists tag, In (VStr tag) l /\ t = stripHash tag.
Proof.
  induction l as [|a l IH]; intros Hstr.
  - exists []. split; [reflexivity|]. intros t. split; [intros []|intros (? & [] & _)].
  - destruct (Hstr a (or_introl eq_refl)) as [s ->].
    destruct IH as (r & Hr & Hin); [intros x Hx; apply Hstr; right; exact Hx|].
    exists (stripHash s :: r). split; [simpl; rewrite Hr; reflexivity|].
    intros t. simpl. rewrite Hin. split.
    + intros [<-|(tag & Htag & ->)]; [exists s|exists tag]; auto.
    + intros (tag & [[= ->]|Htag] & ->); [left; reflexivity|right; eauto].
Qed.

(** [getAllTags], when the tags declared in the frontmatter are strings,
    returns every tag once and without its leading hash: the tags written in
    the text, and those of the frontmatter, declared as one non-empty string
    or as a list; nothing else. *)
Theorem getAllTags_normalizes (w : World) (file : TFile) (c : CachedMetadata) :
  metadataCache w !! path file = Some c ->
  (forall fm elems x, frontmatter c = Some fm -> getProp "tags" fm = Some (VArr elems) ->
                      In x elems -> exists s, x = VStr s) ->
  exists allTags,
    getAllTags w file = Returned allTags /\
    List.NoDup allTags /\
    forall t, In t allTags <->
      (exists raw, In raw (tags c) /\ t = stripHash raw) \/
      (exists fm s, frontmatter c = Some fm /\ getProp "tags" fm = Some (VStr s) /\
                    s <> EmptyString /\ t = stripHash s) \/
      (exists fm elems s, frontmatter c = Some fm /\
                          getProp "tags" fm = Some (VArr elems) /\
                          In (VStr s) elems /\ t = stripHash s).
Proof.
  intros Hc Hstr. unfold getAllTags. rewrite Hc.
  match goal with
  | |- context [stripHashes ?l] => set (collected := l)
  end.
  assert (Hcol : forall x, In x collected <->
            (exists raw, In raw (tags c) /\ x = VStr raw) \/
            (exists fm s, frontmatter c = Some fm /\ getProp "tags" fm = Some (VStr s) /\
                          s <> EmptyString /\ x = VStr s) \/
            (exists fm elems, frontmatter c = Some fm /\
                              getProp "tags" fm = Some (VArr elems) /\ In x elems)).
  { intros x. unfold collected.
    assert (Hinline : In x (List.map VStr (tags c))
                      <-> exists raw, In raw (tags c) /\ x = VStr raw).
    { rewrite List.in_map_iff. split; intros (raw & H1 & H2); exists raw; auto. }
    destruct (frontmatter c) as [fm|].
    2:{ simpl. rewrite Hinline. split; [auto|].
        intros [H|[(? & ? & [=] & _)|(? & ? & [=] & _)]]. exact H. }
    unfold member. change (ownEntries (VObj fm)) with fm.
    destruct (getProp "tags" fm) as [v|] eqn:Hg.
    2:{ simpl. rewrite Hinline. split; [auto|]. only_inline. }
    destruct v as [| |b|n|s|elems|o]; simpl truthy; cbv iota;
      try (rewrite Hinline; split; [auto|]; only_inline).
    - destruct b; rewrite Hinline; (split; [auto|]); only_inline.
    - destruct (negb (n =? 0)%Z); rewrite Hinline; (split; [auto|]); only_inline.
    - destruct (String.eqb_spec s EmptyString) as [->|Hs]; simpl negb; cbv iota.
      + rewrite Hinline. split; [auto|].
        intros [H|[(? & s0 & [= <-] & Ht & Hne & _)|(? & ? & [= <-] & Ht & _)]];
          [exact H|exfalso; apply Hne; congruence|congruence].
      + rewrite List.in_app_iff, Hinline. simpl. split.
        * intros [H|[<-|[]]]; [auto|]. right. left. exists fm, s. auto.
        * intros [H|[(? & s0 & [= <-] & Ht & _ & ->)|(? & ? & [= <-] & Ht & _)]];
            [auto|right; left; congruence|congruence].
    - rewrite List.in_app_iff, Hinline. split.
      + intros [H|H]; [auto|]. right. right. exists fm, elems. auto.
      + intros [H|[(? & ? & [= <-] & Ht & _)|(? & el & [= <-] & Ht & H)]];
          [auto|congruence|]. right. congruence. }
  destruct (stripHashes_spec collected) as (r & Hr & Hin).
  { intros x Hx. apply Hcol in Hx.
    destruct Hx as [(raw & _ & ->)|[(fm & s & _ & _ & _ & ->)|(fm & elems & Hfm & Ht & Hx)]];
      eauto. }
  exists (dedupe r). rewrite Hr. split; [reflexivity|]. split; [apply NoDup_dedupe|].
  intros t. rewrite In_dedupe, Hin. split.
  - intros (tag & Htag & ->). apply Hcol in Htag.
    destruct Htag as [(raw & Hraw & [= ->])|[(fm & s & Hfm & Ht & Hs & [= ->])
                                            |(fm & elems & Hfm & Ht & Hx)]].
    + left. eauto.
    + right. left. exists fm, s. auto.
    + right. right. exists fm, elems, tag. auto.
  - intros [(raw & Hraw & ->)|[(fm & s & Hfm & Ht & Hs & ->)
                              |(fm & elems & s & Hfm & Ht & Hx & ->)]].
    + exists raw. split; [|reflexivity]. apply Hcol. left. eauto.
    + exists s. split; [|reflexivity]. apply Hcol. right. left. exists fm, s. auto.
    + exists s. split; [|reflexivity]. apply Hcol. right. right. exists fm, elems. auto.
Qed.

Lemma getAllTags_normalizes_witness :
  exists allTags,
    getAllTags Cases.taggedVault Sample.noteFile = Returned allTags /\
    List.NoDup allTags /\
    forall t, In t allTags <->
      (exists raw, In raw (tags Cases.taggedTwice) /\ t = stripHash raw) \/
      (exists fm s, frontmatter Cases.taggedTwice = Some fm /\
                    getProp "tags" fm = Some (VStr s) /\
                    s <> EmptyString /\ t = stripHash s) \/
      (exists fm elems s, frontmatter Cases.taggedTwice = Some fm /\
                          getProp "tags" fm = Some (VArr elems) /\
                          In (VStr s) elems /\ t = stripHash s).
Proof.
  apply (getAllTags_normalizes Cases.taggedVault Sample.noteFile Cases.taggedTwice).
  - reflexivity.
  - intros fm elems x [= <-] [= <-] [<-|[<-|[]]]; eexists; reflexivity.
Defined.

(** A frontmatter tag that is not a string (a number, a nested list) makes
    [getAllTags] throw. *)
Lemma getAllTags_throws (w : World) (file : TFile) (c : CachedMetadata)
    (fm : obj) (elems : list value) (x : value) :
  metadataCache w !! path file = Some c ->
  frontmatter c = Some fm ->
  getProp "tags" fm = Some (VArr elems) ->
  In x elems -> (forall tag, x <> VStr tag) ->
  getAllTags w file = Thrown "TypeError".
Proof.
  intros Hc Hfm Htags Hin Hns. unfold getAllTags. rewrite Hc, Hfm.
  unfold member. simpl ownEntries. rewrite Htags. simpl truthy. cbv iota.
  rewrite (stripHashes_Thrown _ x); [reflexivity| |exact Hns].
  apply List.in_or_app. right. exact Hin.
Qed.

End TagFacts.

(** ** Notifications about notes *)

Module FlowFacts.
Import JsString Js JsAny Host Codec Main MainFlow HostFacts JsStringFacts PrefixFacts TagFacts.
Local Open Scope async_scope.

Lemma filter_none {A} (f : A -> bool) (l : list A) :
  (forall x, In x l -> f x = false) -> List.filter f l = [].
Proof.
  induction l as [|x l IH]; intros H; simpl; [reflexivity|].
  rewrite (H x) by (left; reflexivity). apply IH. intros y Hy. apply H. right. exact Hy.
Qed.

(** The names [handleMetaTagAdded] looks templates up by are what follows
    the base tag and its slash in the added tags, whatever that is: the tag
    [mt/Book/old] gives the name [Book/old], the tag [mt/] the empty name. *)
Theorem metaTagNames_spec (tagBase : string) (addedTags : list string) (name : string) :
  In name (metaTagNamesOf tagBase addedTags) <-> In (tagBase +:+ "/" +:+ name) addedTags.
Proof.
  unfold metaTagNamesOf. rewrite List.in_map_iff. split.
  - intros (tag & <- & Hin). apply List.filter_In in Hin. destruct Hin as [Hin Hpre].
    unfold startsWith in Hpre. apply prefix_split in Hpre.
    remember (substring tag (String.length (tagBase +:+ "/"))) as r eqn:Hr. clear Hr.
    subst tag. rewrite replace_prefix, <- append_assoc. exact Hin.
  - intros Hin. exists (tagBase +:+ "/" +:+ name). split.
    + rewrite <- append_assoc. apply replace_prefix.
    + apply List.filter_In. split; [exact Hin|].
      unfold startsWith. rewrite <- append_assoc. apply prefix_append.
Qed.

(** In [src/main.ts] the handler of removed tags changes nothing: the only
    thing it calls returns at its first statement. *)
Lemma handleMetaTagRemoved_skips (file : TFile) (removedTags : list string)
    (s : Plugin * World) :
  handleMetaTagRemoved file removedTags s = (Returned tt, s).
Proof.
  destruct s as [p w]. unfold handleMetaTagRemoved, bind, getPlugin. simpl.
  induction removedTags as [|tag l IH]; [reflexivity|].
  simpl. unfold bind.
  destruct (startsWith tag (tagBase (settings p))); simpl; exact IH.
Qed.

Lemma getAllTags_path (w : World) (f g : TFile) :
  path f = path g -> getAllTags w f = getAllTags w g.
Proof. intros H. unfold getAllTags. rewrite H. reflexivity. Qed.

Lemma cachedFrontmatter_path (w : World) (f g : TFile) :
  path f = path g -> cachedFrontmatter w f = cachedFrontmatter w g.
Proof. intros H. unfold cachedFrontmatter. rewrite H. reflexivity. Qed.

Lemma withFileTagCache_id (p : Plugin) : withFileTagCache (fileTagCache p) p = p.
Proof. destruct p. reflexivity. Qed.

(** The scan of [initializeFileTagCache], from any plugin state. *)
Lemma scan_tags (w w0 : World) (l : list TFile) : forall p : Plugin,
  (forall file, In file l -> exists tags, getAllTags w file = Returned tags) ->
  exists p',
    forEach l
      (fun file =>
         tags <- lift (getAllTags w file) ;;
         setPlugin (fun p => withFileTagCache (<[path file := tags]> (fileTagCache p)) p))
      (p, w0)
    = (Returned tt, (p', w0)) /\
    settings p' = settings p /\ templateCache p' = templateCache p /\
    (forall file tags, In file l -> getAllTags w file = Returned tags ->
                       fileTagCache p' !! path file = Some tags) /\
    (forall k, (forall file, In file l -> path file <> k) ->
               fileTagCache p' !! k = fileTagCache p !! k).
Proof.
  induction l as [|x l IH]; intros p Hall.
  - exists p. simpl. repeat split; try reflexivity. intros file tags [].
  - destruct (Hall x (or_introl eq_refl)) as [tags Htags].
    destruct (IH (withFileTagCache (<[path x := tags]> (fileTagCache p)) p))
      as (p' & Hrun & Hset & Htc & Hin & Hout).
    { intros file Hfile. apply Hall. right. exact Hfile. }
    exists p'. split; [|split; [exact Hset|split; [exact Htc|split]]].
    + simpl. unfold bind at 1. unfold bind at 1, lift. rewrite Htags.
      unfold setPlugin. simpl. exact Hrun.
    + intros file tags' [<-|Hfile] Hft; [|apply Hin; assumption].
      destruct (List.in_dec String.string_dec (path x) (List.map path l)) as [Hdup|Hnew].
      * apply List.in_map_iff in Hdup. destruct Hdup as (g & Hg & Hgl).
        rewrite <- Hg. apply Hin; [exact Hgl|].
        rewrite (getAllTags_path w g x Hg). exact Hft.
      * rewrite Hout.
        -- simpl. rewrite lookup_insert_eq. congruence.
        -- intros g Hgl Hg. apply Hnew. apply List.in_map_iff. exists g. split; assumption.
    + intros k Hk. rewrite Hout.
      * simpl. apply lookup_insert_ne. apply Hk. left. reflexivity.
      * intros g Hgl. apply Hk. right. exact Hgl.
Qed.

(** A scan that returns has read the tags of every file. *)
Lemma scan_tags_returned (w w0 : World) (l : list TFile) : forall (p : Plugin) s',
  forEach l
    (fun file =>
       tags <- lift (getAllTags w file) ;;
       setPlugin (fun p => withFileTagCache (<[path file := tags]> (fileTagCache p)) p))
    (p, w0)
  = (Returned tt, s') ->
  forall g, In g l -> exists tags, getAllTags w g = Returned tags.
Proof.
  induction l as [|x l IH]; intros q s' Hrun g Hg; [destruct Hg|].
  simpl in Hrun. unfold bind at 1 in Hrun. unfold bind at 1, lift in Hrun.
  destruct (getAllTags w x) as [tags|e] eqn:Hx; [|discriminate].
  destruct Hg as [<-|Hg]; [exists tags; exact Hx|].
  unfold setPlugin in Hrun. simpl in Hrun. eapply IH; eassumption.
Qed.

Lemma initializeFileTagCache_scan (p : Plugin) (w : World) :
  initializeFileTagCache (p, w)
  = forEach (markdownFiles w)
      (fun file =>
         tags <- lift (getAllTags w file) ;;
         setPlugin (fun p => withFileTagCache (<[path file := tags]> (fileTagCache p)) p))
      (p, w).
Proof. reflexivity. Qed.

(** [initializeFileTagCache] records, for every markdown file of the vault,
    the tags [getAllTags] gives for it; it changes nothing else. *)
Theorem startup_records_every_note (p : Plugin) (w : World) :
  (forall file, In file (markdownFiles w) -> exists tags, getAllTags w file = Returned tags) ->
  exists p',
    initializeFileTagCache (p, w) = (Returned tt, (p', w)) /\
    settings p' = settings p /\ templateCache p' = templateCache p /\
    (forall file tags, In file (markdownFiles w) -> getAllTags w file = Returned tags ->
                       fileTagCache p' !! path file = Some tags) /\
    (forall k, (forall file, In file (markdownFiles w) -> path file <> k) ->
               fileTagCache p' !! k = fileTagCache p !! k).
Proof.
  intros Hall. destruct (scan_tags w w (markdownFiles w) p Hall) as (p' & Hrun & H).
  exists p'. split; [|exact H].
  rewrite initializeFileTagCache_scan. exact Hrun.
Qed.

Lemma startup_records_every_note_witness :
  exists p',
    initializeFileTagCache (Sample.plugin, Cases.taggedVault)
      = (Returned tt, (p', Cases.taggedVault)) /\
    settings p' = settings Sample.plugin /\
    templateCache p' = templateCache Sample.plugin /\
    (forall file tags, In file (markdownFiles Cases.taggedVault) ->
                       getAllTags Cases.taggedVault file = Returned tags ->
                       fileTagCache p' !! path file = Some tags) /\
    (forall k, (forall file, In file (markdownFiles Cases.taggedVault) -> path file <> k) ->
               fileTagCache p' !! k = fileTagCache Sample.plugin !! k).
Proof.
  apply (startup_records_every_note Sample.plugin Cases.taggedVault).
  intros file [<-|[<-|[]]]; eexists; reflexivity.
Defined.

Lemma scan_tags_thrown (w : World) (e : string) (file : TFile) (after : list TFile) :
  getAllTags w file = Thrown e ->
  forall (before : list TFile) (p p' : Plugin),
  forEach before
    (fun file =>
       tags <- lift (getAllTags w file) ;;
       setPlugin (fun p => withFileTagCache (<[path file := tags]> (fileTagCache p)) p))
    (p, w)
  = (Returned tt, (p', w)) ->
  forEach (before ++ file :: after)
    (fun file =>
       tags <- lift (getAllTags w file) ;;
       setPlugin (fun p => withFileTagCache (<[path file := tags]> (fileTagCache p)) p))
    (p, w)
  = (Thrown e, (p', w)).
Proof.
  intros Hfile. induction before as [|x l IH]; intros p p' Hrun.
  - simpl in Hrun. injection Hrun as <-. simpl. unfold bind at 1. unfold bind at 1, lift.
    rewrite Hfile. reflexivity.
  - simpl in *. unfold bind at 1 in Hrun. unfold bind at 1.
    destruct (bind (lift (getAllTags w x)) _ (p, w)) as [[[]|e'] [p1 w1]] eqn:Hx.
    + assert (w1 = w) as ->.
      { unfold bind, lift, setPlugin in Hx. destruct (getAllTags w x); simpl in Hx;
          [injection Hx as _ <-; reflexivity|discriminate]. }
      apply IH. exact Hrun.
    + discriminate.
Qed.

(** The caching loop of [initializeTemplateCache], from any plugin state. *)
Lemma cache_templates (w w0 : World) (l : list TFile) : forall p : Plugin,
  exists p',
    forEach l
      (fun file =>
         setPlugin (fun p => withTemplateCache
                               (<[path file := default [] (cachedFrontmatter w file)]>
                                  (templateCache p)) p))
      (p, w0)
    = (Returned tt, (p', w0)) /\
    settings p' = settings p /\ fileTagCache p' = fileTagCache p /\
    (forall file, In file l ->
                  templateCache p' !! path file = Some (default [] (cachedFrontmatter w file))) /\
    (forall k, (forall file, In file l -> path file <> k) ->
               templateCache p' !! k = templateCache p !! k).
Proof.
  induction l as [|x l IH]; intros p.
  - exists p. simpl. repeat split; try reflexivity. intros file [].
  - destruct (IH (withTemplateCache
                    (<[path x := default [] (cachedFrontmatter w x)]> (templateCache p)) p))
      as (p' & Hrun & Hset & Htc & Hin & Hout).
    exists p'. split; [|split; [exact Hset|split; [exact Htc|split]]].
    + simpl. unfold bind at 1, setPlugin. simpl. exact Hrun.
    + intros file [<-|Hfile]; [|apply Hin; exact Hfile].
      destruct (List.in_dec String.string_dec (path x) (List.map path l)) as [Hdup|Hnew].
      * apply List.in_map_iff in Hdup. destruct Hdup as (g & Hg & Hgl).
        rewrite <- Hg, <- (cachedFrontmatter_path w g x Hg). apply Hin. exact Hgl.
      * rewrite Hout.
        -- simpl. apply lookup_insert_eq.
        -- intros g Hgl Hg. apply Hnew. apply List.in_map_iff. exists g. split; assumption.
    + intros k Hk. rewrite Hout.
      * simpl. apply lookup_insert_ne. apply Hk. left. reflexivity.
      * intros g Hgl. apply Hk. right. exact Hgl.
Qed.

(** The start-up scan stops at the first note whose tags cannot be read: it
    throws, the notes after that one are not recorded, and the templates are
    not cached at all. *)
Theorem startup_stops_at_unreadable_tags
    (abstractFileAt : string -> option TAbstractFile) (p : Plugin) (w : World)
    (before after : list TFile) (file : TFile) (e : string) :
  markdownFiles w = before ++ file :: after ->
  (forall g, In g before -> exists tags, getAllTags w g = Returned tags) ->
  getAllTags w file = Thrown e ->
  exists p',
    onLayoutReady abstractFileAt (p, w) = (Thrown e, (p', w)) /\
    templateCache p' = templateCache p /\
    (forall k, (forall g, In g before -> path g <> k) ->
               fileTagCache p' !! k = fileTagCache p !! k).
Proof.
  intros Hfiles Hbefore Hfile.
  destruct (scan_tags w w before p Hbefore) as (p' & Hrun & _ & Htc & _ & Hout).
  exists p'. split; [|split; [exact Htc|exact Hout]].
  unfold onLayoutReady, bind at 1.
  rewrite initializeFileTagCache_scan, Hfiles.
  rewrite (scan_tags_thrown w e file after Hfile before p p' Hrun). reflexivity.
Qed.

Lemma startup_stops_at_unreadable_tags_witness :
  exists p',
    onLayoutReady Cases.fileAt (Sample.plugin, Cases.yearVault)
      = (Thrown "TypeError", (p', Cases.yearVault)) /\
    templateCache p' = templateCache Sample.plugin /\
    (forall k, (forall g, In g [Sample.bookFile] -> path g <> k) ->
               fileTagCache p' !! k = fileTagCache Sample.plugin !! k).
Proof.
  apply (startup_stops_at_unreadable_tags Cases.fileAt Sample.plugin Cases.yearVault
           [Sample.bookFile] [] Sample.noteFile "TypeError").
  - reflexivity.
  - intros g [<-|[]]. eexists. reflexivity.
  - reflexivity.
Defined.

(** A markdown file in a sub-folder of the templates folder is cached as a
    template at start-up ([getAllTemplateFiles] descends into sub-folders),
    yet [isTemplateFile] does not take it for one: a later change to it is
    handled as the change of a note. *)
Theorem template_in_subfolder
    (parentPath : TFile -> option string)
    (abstractFileAt : string -> option TAbstractFile) (p : Plugin) (w : World)
    (folderPath sub : string) (children grandchildren : list TAbstractFile)
    (file : TFile) :
  abstractFileAt (tagBase (settings p)) = Some (AFolder folderPath children) ->
  In (AFolder sub grandchildren) children ->
  In (AFile file "md") grandchildren ->
  parentPath file = Some sub ->
  sub <> folderPath ->
  exists p',
    initializeTemplateCache abstractFileAt (p, w) = (Returned tt, (p', w)) /\
    templateCache p' !! path file = Some (default [] (cachedFrontmatter w file)) /\
    isTemplateFile parentPath abstractFileAt p' file = false.
Proof.
  intros Hfolder Hsub Hfile Hparent Hne.
  destruct (cache_templates w w (getAllTemplateFiles (AFolder folderPath children)) p)
    as (p' & Hrun & Hset & _ & Hin & _).
  exists p'. split; [|split].
  - unfold initializeTemplateCache, bind at 1, getPlugin. simpl.
    unfold bind at 1, getWorld. simpl. rewrite Hfolder. exact Hrun.
  - apply Hin. simpl. apply List.in_flat_map. exists (AFolder sub grandchildren).
    split; [exact Hsub|]. simpl. apply List.in_flat_map. exists (AFile file "md").
    split; [exact Hfile|]. left. reflexivity.
  - unfold isTemplateFile. rewrite Hparent, Hset, Hfolder. simpl.
    apply String.eqb_neq. exact Hne.
Qed.

Lemma template_in_subfolder_witness :
  exists p',
    initializeTemplateCache Cases.fileAt (Sample.plugin, Sample.vault)
      = (Returned tt, (p', Sample.vault)) /\
    templateCache p' !! path Cases.oldBookFile
      = Some (default [] (cachedFrontmatter Sample.vault Cases.oldBookFile)) /\
    isTemplateFile Cases.parentOf Cases.fileAt p' Cases.oldBookFile = false.
Proof.
  apply (template_in_subfolder Cases.parentOf Cases.fileAt Sample.plugin Sample.vault
           "mt" "mt/old"
           [AFile Sample.bookFile "md";
            AFile {| path := "mt/cover.png"; basename := "cover" |} "png";
            AFolder "mt/old" [AFile Cases.oldBookFile "md"]]
           [AFile Cases.oldBookFile "md"] Cases.oldBookFile).
  - reflexivity.
  - right. right. left. reflexivity.
  - left. reflexivity.
  - reflexivity.
  - discriminate.
Defined.

Section WithYaml.
Variable Y : YamlLib.

Lemma applyTemplateMetadata_keeps_plugin (file : TFile) (metaTagNames : list string) :
  keeps (fun p : Plugin => p) (applyTemplateMetadata Y file metaTagNames).
Proof.
  unfold applyTemplateMetadata.
  apply keeps_bind; [apply keeps_getPlugin|intros p].
  apply keeps_bind; [apply keeps_getWorld|intros w].
  apply keeps_bind; [apply keeps_read|intros content].
  apply keeps_modify.
Qed.

Lemma handleMetaTagAdded_keeps_plugin (file : TFile) (addedTags : list string) :
  keeps (fun p : Plugin => p) (handleMetaTagAdded Y file addedTags).
Proof.
  unfold handleMetaTagAdded.
  apply keeps_bind; [apply keeps_getPlugin|intros p].
  destruct (metaTagNamesOf _ _); [apply keeps_ret|apply applyTemplateMetadata_keeps_plugin].
Qed.

(** The plugin [handleTemplateMetadataChange] leaves: only the template
    cache has changed, at the path of the template. *)
Lemma handleTemplateMetadataChange_plugin (templateFile : TFile) (p : Plugin) (w : World) :
  fst (snd (handleTemplateMetadataChange Y templateFile (p, w)))
  = withTemplateCache
      (<[path templateFile := default [] (cachedFrontmatter w templateFile)]>
         (templateCache p)) p.
Proof.
  unfold handleTemplateMetadataChange.
  unfold bind at 1. simpl. unfold bind at 1. simpl. unfold bind at 1. simpl.
  match goal with |- context [forEach ?l ?b ?s] =>
    rewrite (keeps_forEach (fun p : Plugin => p) l b) end.
  - reflexivity.
  - intros file. apply keeps_bind; [apply keeps_getWorld|intros w'].
    apply keeps_bind; [apply keeps_lift|intros tags].
    destruct (List.existsb _ tags);
      [apply SnapshotFacts.syncTemplateToNote_keeps_plugin|apply keeps_ret].
Qed.

Variable parentPath : TFile -> option string.
Variable abstractFileAt : string -> option TAbstractFile.

(** Added tags none of which is under the base tag: nothing is applied. *)
Lemma handleMetaTagAdded_plain (file : TFile) (addedTags : list string)
    (p : Plugin) (w : World) :
  (forall tag, In tag addedTags -> startsWith tag (tagBase (settings p) +:+ "/") = false) ->
  match addedTags with
  | [] => ret tt
  | _ => handleMetaTagAdded Y file addedTags
  end (p, w) = (Returned tt, (p, w)).
Proof.
  intros Hplain. destruct addedTags as [|tag l]; [reflexivity|].
  unfold handleMetaTagAdded, bind, getPlugin, metaTagNamesOf.
  change (fst (p, w)) with p. rewrite (filter_none _ _ Hplain). reflexivity.
Qed.

(** What is left of a notification once the tags are handled. *)
Lemma onMetadataChanged_rest (file : TFile) (removedTags currentTags : list string)
    (p : Plugin) (w : World) :
  (match removedTags with
   | [] => ret tt
   | _ => handleMetaTagRemoved file removedTags
   end ;;;
   setPlugin (fun p0 => withFileTagCache
                          (<[path file := currentTags]> (fileTagCache p0)) p0))
    (p, w)
  = (Returned tt,
     (withFileTagCache (<[path file := currentTags]> (fileTagCache p)) p, w)).
Proof.
  unfold bind. destruct removedTags; [reflexivity|].
  rewrite handleMetaTagRemoved_skips. reflexivity.
Qed.

(** A notification about a note that has gained no tag under the base tag
    (tags were removed, plain tags were added, or nothing changed) reads and
    writes nothing: it only records the note's current tags. *)
Theorem notification_without_new_meta_tag (file : TFile) (p : Plugin) (w : World)
    (currentTags : list string) :
  isTemplateFile parentPath abstractFileAt p file = false ->
  getAllTags w file = Returned currentTags ->
  (forall tag, In tag currentTags ->
               ~ In tag (default [] (fileTagCache p !! path file)) ->
               startsWith tag (tagBase (settings p) +:+ "/") = false) ->
  onMetadataChanged Y parentPath abstractFileAt file (p, w)
  = (Returned tt,
     (withFileTagCache (<[path file := currentTags]> (fileTagCache p)) p, w)).
Proof.
  intros Hnote Htags Hplain.
  unfold onMetadataChanged, bind at 1, getPlugin. simpl. rewrite Hnote.
  unfold bind at 1, getWorld. simpl. unfold bind at 1, lift. rewrite Htags.
  unfold bind at 1. rewrite handleMetaTagAdded_plain.
  - apply onMetadataChanged_rest.
  - intros tag Hin. apply In_getAddedTags in Hin. destruct Hin as [Hc Hp].
    apply Hplain; assumption.
Qed.

(** Right after a start-up scan that succeeded, a notification about any
    note of the vault changes nothing at all. *)
Theorem notification_after_startup_is_silent (file : TFile) (p p' : Plugin) (w : World) :
  initializeFileTagCache (p, w) = (Returned tt, (p', w)) ->
  In file (markdownFiles w) ->
  isTemplateFile parentPath abstractFileAt p' file = false ->
  onMetadataChanged Y parentPath abstractFileAt file (p', w) = (Returned tt, (p', w)).
Proof.
  intros Hstart Hfile Hnote.
  rewrite initializeFileTagCache_scan in Hstart.
  pose proof (scan_tags_returned w w _ p _ Hstart) as Hall.
  destruct (scan_tags w w (markdownFiles w) p Hall) as (q & Hrun & _ & _ & Hin & _).
  assert (q = p') as -> by (rewrite Hrun in Hstart; injection Hstart as ->; reflexivity).
  destruct (Hall file Hfile) as [tags Htags].
  pose proof (Hin file tags Hfile Htags) as Hlook.
  unfold onMetadataChanged, bind at 1, getPlugin. simpl. rewrite Hnote.
  unfold bind at 1, getWorld. simpl. unfold bind at 1, lift. rewrite Htags, Hlook.
  simpl default.
  assert (Hadded : getAddedTags tags tags = []).
  { apply nil_iff_no_member. intros t Ht. apply In_getAddedTags in Ht. tauto. }
  rewrite Hadded. unfold bind at 1. simpl.
  rewrite onMetadataChanged_rest, insert_id by exact Hlook.
  rewrite withFileTagCache_id. reflexivity.
Qed.

(** The tags of a note are recorded as seen only when the notification
    succeeds: if reading the tags or writing the note throws, the plugin is
    as it was, and the same tags count as new at the next notification. *)
Theorem tag_cache_advanced_on_success (file : TFile) (p : Plugin) (w : World) :
  isTemplateFile parentPath abstractFileAt p file = false ->
  match onMetadataChanged Y parentPath abstractFileAt file (p, w) with
  | (Returned _, (p', _)) =>
      exists currentTags,
        getAllTags w file = Returned currentTags /\
        p' = withFileTagCache (<[path file := currentTags]> (fileTagCache p)) p
  | (Thrown _, (p', _)) => p' = p
  end.
Proof.
  intros Hnote.
  unfold onMetadataChanged, bind at 1, getPlugin. simpl. rewrite Hnote.
  unfold bind at 1, getWorld. simpl. unfold bind at 1, lift.
  destruct (getAllTags w file) as [currentTags|e]; [|reflexivity].
  set (addedTags := getAddedTags _ _). set (removedTags := getRemovedTags _ _).
  unfold bind at 1.
  destruct addedTags as [|tag addedTags].
  - simpl. rewrite onMetadataChanged_rest. exists currentTags. split; reflexivity.
  - pose proof (handleMetaTagAdded_keeps_plugin file (tag :: addedTags) (p, w)) as Hkeep.
    destruct (handleMetaTagAdded Y file (tag :: addedTags) (p, w)) as [[[]|e] [p1 w1]];
      simpl in Hkeep; subst p1.
    + rewrite onMetadataChanged_rest. exists currentTags. split; reflexivity.
    + reflexivity.
Qed.

(** A notification about a readable, writable note that has gained tags
    under the base tag does one thing to the vault: it writes the note once,
    its block replaced by the templates of the new tags merged under the
    note's own properties; then it records the note's current tags. *)
Theorem new_meta_tag_is_applied (file : TFile) (p : Plugin) (w : World)
    (currentTags : list string) (content : string) :
  isTemplateFile parentPath abstractFileAt p file = false ->
  getAllTags w file = Returned currentTags ->
  vaultText w !! path file = Some content ->
  path file ∉ readOnly w ->
  let addedTags := getAddedTags (default [] (fileTagCache p !! path file)) currentTags in
  let metaTagNames := metaTagNamesOf (tagBase (settings p)) addedTags in
  metaTagNames <> [] ->
  let newContent :=
    replaceFrontMatter Y content
      (VObj (mergedDataOf (templateDataOf p w) metaTagNames
               (default [] (cachedFrontmatter w file)))) in
  onMetadataChanged Y parentPath abstractFileAt file (p, w)
  = (Returned tt,
     (withFileTagCache (<[path file := currentTags]> (fileTagCache p)) p,
      withEvent (Modify (path file) newContent)
        (withText (<[path file := newContent]> (vaultText w)) w))).
Proof.
  intros Hnote Htags Hread Hrw addedTags metaTagNames Hnames newContent.
  unfold onMetadataChanged, bind at 1, getPlugin. simpl. rewrite Hnote.
  unfold bind at 1, getWorld. simpl. unfold bind at 1, lift. rewrite Htags.
  fold addedTags. unfold bind at 1.
  assert (Hadded : match addedTags with
                   | [] => ret tt
                   | _ => handleMetaTagAdded Y file addedTags
                   end (p, w)
                   = (Returned tt,
                      (p, withEvent (Modify (path file) newContent)
                            (withText (<[path file := newContent]> (vaultText w)) w)))).
  { assert (Hcall : handleMetaTagAdded Y file addedTags (p, w)
                    = applyTemplateMetadata Y file metaTagNames (p, w)).
    { unfold handleMetaTagAdded, bind at 1, getPlugin. simpl. fold metaTagNames.
      destruct metaTagNames; [contradiction|reflexivity]. }
    destruct addedTags as [|t l] eqn:Ha.
    - exfalso. apply Hnames. reflexivity.
    - rewrite Hcall. unfold applyTemplateMetadata, bind at 1, getPlugin. simpl.
      unfold bind at 1, getWorld. simpl. unfold bind at 1, read. simpl. rewrite Hread.
      unfold modify. simpl. rewrite bool_decide_eq_false_2 by exact Hrw. reflexivity. }
  rewrite Hadded. apply onMetadataChanged_rest.
Qed.

(** A number (or anything that is not a string) among the tags of a note's
    frontmatter makes the notification fail with a [TypeError] before
    anything is read, written or recorded. *)
Theorem notification_rejects_non_string_tag (file : TFile) (p : Plugin) (w : World)
    (c : CachedMetadata) (fm : obj) (elems : list value) (x : value) :
  isTemplateFile parentPath abstractFileAt p file = false ->
  metadataCache w !! path file = Some c ->
  frontmatter c = Some fm ->
  getProp "tags" fm = Some (VArr elems) ->
  In x elems -> (forall tag, x <> VStr tag) ->
  onMetadataChanged Y parentPath abstractFileAt file (p, w) = (Thrown "TypeError", (p, w)).
Proof.
  intros Hnote Hc Hfm Htags Hin Hx.
  unfold onMetadataChanged, bind at 1, getPlugin. simpl. rewrite Hnote.
  unfold bind at 1, getWorld. simpl. unfold bind at 1, lift.
  rewrite (getAllTags_throws w file c fm elems x Hc Hfm Htags Hin Hx). reflexivity.
Qed.

(** A notification about a template never fails: the propagation is started
    and not awaited, so an error in it (a note that cannot be written, tags
    that cannot be read) does not reach the caller.  Of the plugin, only the
    template cache changes: it holds the template's current property map;
    the tags recorded for the notes are not touched. *)
Theorem template_notification_never_fails (file : TFile) (p : Plugin) (w : World) :
  isTemplateFile parentPath abstractFileAt p file = true ->
  let r := onMetadataChanged Y parentPath abstractFileAt file (p, w) in
  fst r = Returned tt /\
  fst (snd r)
  = withTemplateCache
      (<[path file := default [] (cachedFrontmatter w file)]> (templateCache p)) p.
Proof.
  intros Htemplate r.
  assert (Hr : r = (Returned tt, snd (handleTemplateMetadataChange Y file (p, w)))).
  { subst r. unfold onMetadataChanged, bind at 1, getPlugin. simpl.
    rewrite Htemplate. reflexivity. }
  rewrite Hr. simpl. split; [reflexivity|].
  apply handleTemplateMetadataChange_plugin.
Qed.

End WithYaml.

Lemma notification_without_new_meta_tag_witness :
  onMetadataChanged Sample.yaml Cases.parentOf Cases.fileAt Sample.noteFile
    (Cases.settledPlugin, Cases.taggedVault)
  = (Returned tt,
     (withFileTagCache
        (<["note.md" := ["mt/Book"; "reading"]]> (fileTagCache Cases.settledPlugin))
        Cases.settledPlugin,
      Cases.taggedVault)).
Proof.
  apply (notification_without_new_meta_tag Sample.yaml Cases.parentOf Cases.fileAt
           Sample.noteFile Cases.settledPlugin Cases.taggedVault ["mt/Book"; "reading"]).
  - reflexivity.
  - reflexivity.
  - intros tag [<-|[<-|[]]] Hnew; [|reflexivity].
    exfalso. apply Hnew. left. reflexivity.
Defined.

Lemma notification_after_startup_is_silent_witness :
  let p' := fst (snd (initializeFileTagCache (Sample.plugin, Cases.taggedVault))) in
  onMetadataChanged Sample.yaml Cases.parentOf Cases.fileAt Sample.noteFile
    (p', Cases.taggedVault)
  = (Returned tt, (p', Cases.taggedVault)).
Proof.
  intros p'.
  apply (notification_after_startup_is_silent Sample.yaml Cases.parentOf Cases.fileAt
           Sample.noteFile Sample.plugin p' Cases.taggedVault).
  - reflexivity.
  - right. left. reflexivity.
  - reflexivity.
Defined.

Lemma new_meta_tag_is_applied_witness :
  let newContent :=
    replaceFrontMatter Sample.yaml Sample.noteMergedText
      (VObj (mergedDataOf (templateDataOf Sample.plugin Sample.vault) ["Book"]
               Sample.NoteMerged)) in
  onMetadataChanged Sample.yaml Cases.parentOf Cases.fileAt Sample.noteFile
    (Sample.plugin, Sample.vault)
  = (Returned tt,
     (withFileTagCache (<["note.md" := ["mt/Book"]]> (fileTagCache Sample.plugin))
        Sample.plugin,
      withEvent (Modify "note.md" newContent)
        (withText (<["note.md" := newContent]> (vaultText Sample.vault)) Sample.vault))).
Proof.
  apply (new_meta_tag_is_applied Sample.yaml Cases.parentOf Cases.fileAt Sample.noteFile
           Sample.plugin Sample.vault ["mt/Book"] Sample.noteMergedText).
  - reflexivity.
  - reflexivity.
  - reflexivity.
  - vm_compute. intros H. discriminate H.
  - discriminate.
Defined.

Lemma tag_cache_advanced_on_success_witness :
  match onMetadataChanged Sample.yaml Cases.parentOf Cases.fileAt Sample.noteFile
          (Sample.plugin, Sample.lockedVault) with
  | (Returned _, (p', _)) =>
      exists currentTags,
        getAllTags Sample.lockedVault Sample.noteFile = Returned currentTags /\
        p' = withFileTagCache
               (<[path Sample.noteFile := currentTags]> (fileTagCache Sample.plugin))
               Sample.plugin
  | (Thrown _, (p', _)) => p' = Sample.plugin
  end.
Proof.
  apply (tag_cache_advanced_on_success Sample.yaml Cases.parentOf Cases.fileAt
           Sample.noteFile Sample.plugin Sample.lockedVault).
  reflexivity.
Defined.

Lemma notification_rejects_non_string_tag_witness :
  onMetadataChanged Sample.yaml Cases.parentOf Cases.fileAt Sample.noteFile
    (Sample.plugin, Cases.yearVault)
  = (Thrown "TypeError", (Sample.plugin, Cases.yearVault)).
Proof.
  apply (notification_rejects_non_string_tag Sample.yaml Cases.parentOf Cases.fileAt
           Sample.noteFile Sample.plugin Cases.yearVault Cases.yearTagged
           [("tags", VArr [VStr "mt/Book"; VNum 2024])] [VStr "mt/Book"; VNum 2024]
           (VNum 2024)).
  - reflexivity.
  - reflexivity.
  - reflexivity.
  - reflexivity.
  - right. left. reflexivity.
  - intros tag H. discriminate H.
Defined.

Lemma template_notification_never_fails_witness :
  let r := onMetadataChanged Sample.yaml Cases.parentOf Cases.fileAt Sample.bookFile
             (Sample.plugin, Sample.lockedVault) in
  fst r = Returned tt /\
  fst (snd r)
  = withTemplateCache
      (<[path Sample.bookFile
         := default [] (cachedFrontmatter Sample.lockedVault Sample.bookFile)]>
         (templateCache Sample.plugin)) Sample.plugin.
Proof.
  apply (template_notification_never_fails Sample.yaml Cases.parentOf Cases.fileAt
           Sample.bookFile Sample.plugin Sample.lockedVault).
  reflexivity.
Defined.

End FlowFacts.

(** ** What a template change carries to a note *)

Module PropagationFacts.
Import JsString Js JsAny Host Codec Main MainFlow JsFacts MergeFacts HostFacts TagFacts FlowFacts.
Local Open Scope async_scope.

Lemma In_keys_hasOwn (k : string) (o : obj) : In k (keys o) <-> hasOwn k o = true.
Proof.
  split; intros H.
  - destruct (hasOwn k o) eqn:E; [reflexivity|].
    apply hasOwn_false, getProp_keys in E. contradiction.
  - apply hasOwn_true in H. destruct H as [v H]. exact (getProp_In _ _ _ H).
Qed.

Lemma In_propsOf (k : string) (data : obj) :
  In k (propsOf data) <-> hasOwn k data = true /\ k <> "tags" /\ k <> "mt".
Proof.
  unfold propsOf, ignoreProps. rewrite List.filter_In, In_keys_hasOwn. simpl.
  destruct (String.eqb_spec k "tags") as [->|Ht]; simpl.
  - split; [intros [_ H]; discriminate|intros (_ & H & _); contradiction].
  - destruct (String.eqb_spec k "mt") as [->|Hm]; simpl.
    + split; [intros [_ H]; discriminate|intros (_ & _ & H); contradiction].
    + tauto.
Qed.

Lemma not_In_propsOf (k : string) (data : obj) :
  k <> "tags" -> k <> "mt" -> (~ In k (propsOf data) <-> hasOwn k data = false).
Proof.
  intros Ht Hm. rewrite In_propsOf. destruct (hasOwn k data); split; intros H.
  - exfalso. apply H. auto.
  - discriminate.
  - reflexivity.
  - intros [? _]. discriminate.
Qed.

Lemma In_addedPropsOf (prev curr : obj) (k : string) :
  In k (addedPropsOf prev curr)
  <-> hasOwn k curr = true /\ hasOwn k prev = false /\ k <> "tags" /\ k <> "mt".
Proof.
  unfold addedPropsOf. rewrite List.filter_In, In_propsOf. split.
  - intros ((Hc & Ht & Hm) & Hn). repeat split; try assumption.
    apply (not_In_propsOf k prev Ht Hm). intros Hin.
    apply existsb_eqb_In in Hin. rewrite Hin in Hn. discriminate.
  - intros (Hc & Hp & Ht & Hm). repeat split; try assumption.
    rewrite existsb_eqb_false; [reflexivity|].
    apply (not_In_propsOf k prev Ht Hm). exact Hp.
Qed.

Lemma In_removedPropsOf (prev curr : obj) (k : string) :
  In k (removedPropsOf prev curr)
  <-> hasOwn k prev = true /\ hasOwn k curr = false /\ k <> "tags" /\ k <> "mt".
Proof.
  unfold removedPropsOf. rewrite List.filter_In, In_propsOf. split.
  - intros ((Hc & Ht & Hm) & Hn). repeat split; try assumption.
    apply (not_In_propsOf k curr Ht Hm). intros Hin.
    apply existsb_eqb_In in Hin. rewrite Hin in Hn. discriminate.
  - intros (Hc & Hp & Ht & Hm). repeat split; try assumption.
    rewrite existsb_eqb_false; [reflexivity|].
    apply (not_In_propsOf k curr Ht Hm). exact Hp.
Qed.

(** The difference [handleTemplateMetadataChange] computes between the stored
    and the current property map of a template: a property is added when
    only the current map has it, removed when only the stored map has it;
    [tags] and [mt] are never in it, and no property is both. *)
Theorem template_diff_spec (prevTemplateData currTemplateData : obj) (k : string) :
  (In k (addedPropsOf prevTemplateData currTemplateData)
   <-> hasOwn k currTemplateData = true /\ hasOwn k prevTemplateData = false /\
       k <> "tags" /\ k <> "mt") /\
  (In k (removedPropsOf prevTemplateData currTemplateData)
   <-> hasOwn k prevTemplateData = true /\ hasOwn k currTemplateData = false /\
       k <> "tags" /\ k <> "mt") /\
  ~ (In k (addedPropsOf prevTemplateData currTemplateData) /\
     In k (removedPropsOf prevTemplateData currTemplateData)).
Proof.
  split; [apply In_addedPropsOf|split; [apply In_removedPropsOf|]].
  rewrite In_addedPropsOf, In_removedPropsOf.
  intros [(Hc & _) (_ & Hc' & _)]. congruence.
Qed.

(** A change of a template that only changes values (or its [tags] or
    [mt]) carries nothing to the notes: the property map written for a note
    is the one it had. *)
Theorem value_change_is_not_propagated (prevTemplateData currTemplateData noteData : obj) :
  wellFormed noteData ->
  (forall k, In k (propsOf prevTemplateData) <-> In k (propsOf currTemplateData)) ->
  syncedData (addedPropsOf prevTemplateData currTemplateData)
    (removedPropsOf prevTemplateData currTemplateData) currTemplateData noteData
  = noteData.
Proof.
  intros Wn Hsame.
  assert (Ha : addedPropsOf prevTemplateData currTemplateData = []).
  { apply filter_none. intros k Hin. apply Hsame, existsb_eqb_In in Hin.
    rewrite Hin. reflexivity. }
  assert (Hr : removedPropsOf prevTemplateData currTemplateData = []).
  { apply filter_none. intros k Hin. apply Hsame, existsb_eqb_In in Hin.
    rewrite Hin. reflexivity. }
  rewrite Ha, Hr. unfold syncedData. simpl. apply assign_nil_id. exact Wn.
Qed.

Lemma value_change_is_not_propagated_witness :
  syncedData
    (addedPropsOf [("author", VStr "unknown"); ("tags", VArr [VStr "x"])]
       [("author", VStr "anonymous"); ("mt", VStr "m")])
    (removedPropsOf [("author", VStr "unknown"); ("tags", VArr [VStr "x"])]
       [("author", VStr "anonymous"); ("mt", VStr "m")])
    [("author", VStr "anonymous"); ("mt", VStr "m")]
    [("author", VStr EmptyString)]
  = [("author", VStr EmptyString)].
Proof.
  apply (value_change_is_not_propagated
           [("author", VStr "unknown"); ("tags", VArr [VStr "x"])]
           [("author", VStr "anonymous"); ("mt", VStr "m")]
           [("author", VStr EmptyString)]).
  - reflexivity.
  - intros k. vm_compute. split; intros H; exact H.
Defined.

Lemma withAddedProps_absent (addedProps : list string) (curr : obj) (k : string) :
  forall newData : obj,
  getProp k newData = None ->
  getProp k (withAddedProps addedProps curr newData)
  = if List.existsb (String.eqb k) addedProps && negb (inherited k)
    then Some (member (VObj curr) k) else None.
Proof.
  unfold withAddedProps.
  induction addedProps as [|a l IH]; intros newData Hnone; simpl; [exact Hnone|].
  destruct (String.eqb_spec k a) as [<-|Hne]; simpl.
  - assert (Hin : inOp k newData = inherited k).
    { unfold inOp. rewrite (proj2 (hasOwn_false k newData) Hnone). reflexivity. }
    rewrite Hin. destruct (inherited k) eqn:Hi; simpl.
    + rewrite (IH newData Hnone). simpl. rewrite Bool.andb_false_r. reflexivity.
    + apply (withAddedProps_keeps l curr k (member (VObj curr) k)).
      apply getProp_setProp_eq.
  - apply IH. destruct (negb (inOp a newData)); [|exact Hnone].
    rewrite getProp_setProp_ne by congruence. exact Hnone.
Qed.

(** A property added to the template reaches a note that does not have it,
    with the template's value, unless its name is one every object inherits
    ([constructor], [toString], ...): such a property is never added. *)
Theorem added_property_reaches_note
    (addedProps removedProps : list string) (currTemplateData noteData : obj)
    (k : string) :
  wellFormed noteData ->
  getProp k noteData = None ->
  In k addedProps -> ~ In k removedProps ->
  getProp k (syncedData addedProps removedProps currTemplateData noteData)
  = if inherited k then None else Some (member (VObj currTemplateData) k).
Proof.
  intros Wn Hnone Hadd Hrem. unfold syncedData. rewrite (assign_nil_id _ Wn).
  pose proof (withAddedProps_absent addedProps currTemplateData k noteData Hnone) as H.
  apply existsb_eqb_In in Hadd. rewrite Hadd in H. simpl in H.
  destruct (inherited k); simpl in H.
  - apply withoutRemovedProps_absent. exact H.
  - rewrite (withoutRemovedProps_spec removedProps k _ _ H).
    rewrite (existsb_eqb_false k removedProps Hrem). reflexivity.
Qed.

Lemma added_property_reaches_note_witness :
  getProp "rating"
    (syncedData ["rating"; "toString"] [] [("rating", VNum 3); ("toString", VStr "x")]
       [("author", VStr "Jane")])
  = (if inherited "rating" then None
     else Some (member (VObj [("rating", VNum 3); ("toString", VStr "x")]) "rating")) /\
  getProp "toString"
    (syncedData ["rating"; "toString"] [] [("rating", VNum 3); ("toString", VStr "x")]
       [("author", VStr "Jane")])
  = (if inherited "toString" then None
     else Some (member (VObj [("rating", VNum 3); ("toString", VStr "x")]) "toString")).
Proof.
  split.
  - apply (added_property_reaches_note ["rating"; "toString"] []
             [("rating", VNum 3); ("toString", VStr "x")] [("author", VStr "Jane")] "rating").
    + reflexivity.
    + reflexivity.
    + left. reflexivity.
    + intros [].
  - apply (added_property_reaches_note ["rating"; "toString"] []
             [("rating", VNum 3); ("toString", VStr "x")] [("author", VStr "Jane")]
             "toString").
    + reflexivity.
    + reflexivity.
    + right. left. reflexivity.
    + intros [].
Defined.

Section WithYaml.
Variable Y : YamlLib.

(** [syncTemplateToNotes] does what [applyTemplateMetadata] does for the one
    name when the template file exists, and nothing at all when it does
    not. *)
Theorem syncTemplateToNotes_spec (file : TFile) (metaTagName : string)
    (p : Plugin) (w : World) :
  syncTemplateToNotes Y file metaTagName (p, w)
  = match getAbstractFileByPath w
            (tagBase (settings p) +:+ "/" +:+ metaTagName +:+ ".md") with
    | Some _ => applyTemplateMetadata Y file [metaTagName] (p, w)
    | None => (Returned tt, (p, w))
    end.
Proof.
  unfold syncTemplateToNotes, applyTemplateMetadata, bind at 1, getPlugin. simpl.
  unfold bind at 1, getWorld. simpl.
  unfold bind at 2, getPlugin. simpl. unfold bind at 2, getWorld. simpl.
  unfold mergedDataOf, mergedTemplateDataOf, templateDataOf. simpl.
  destruct (getAbstractFileByPath w _) as [templateFile|]; [|reflexivity].
  set (t := default [] (cachedFrontmatter w templateFile)).
  replace (spread (spread [] t) (default [] (cachedFrontmatter w file)))
    with (spread t (default [] (cachedFrontmatter w file))); [reflexivity|].
  unfold spread. simpl. f_equal. symmetry. apply assign_nil_id.
  apply wellFormed_assign, wellFormed_nil.
Qed.

(** Tagging a note with names for which no template file exists still
    rewrites the note: its own property map is serialized again and its body
    is cut at the markers. *)
Theorem missing_template_still_rewrites (file : TFile) (metaTagNames : list string)
    (p : Plugin) (w : World) (content : string) (noteData : obj) :
  (forall name, In name metaTagNames ->
     getAbstractFileByPath w (tagBase (settings p) +:+ "/" +:+ name +:+ ".md") = None) ->
  cachedFrontmatter w file = Some noteData -> wellFormed noteData ->
  vaultText w !! path file = Some content ->
  path file ∉ readOnly w ->
  let newContent := replaceFrontMatter Y content (VObj noteData) in
  applyTemplateMetadata Y file metaTagNames (p, w)
  = (Returned tt,
     (p, withEvent (Modify (path file) newContent)
           (withText (<[path file := newContent]> (vaultText w)) w))).
Proof.
  intros Hmissing Hnote Wn Hread Hrw newContent.
  unfold applyTemplateMetadata, bind at 1, getPlugin. simpl.
  unfold bind at 1, getWorld. simpl.
  assert (Hm : mergedTemplateDataOf (templateDataOf p w) metaTagNames = []).
  { unfold mergedTemplateDataOf.
    assert (Hfold : forall acc : obj,
      fold_left
        (fun mergedTemplateData metaTagName =>
           match templateDataOf p w metaTagName with
           | None => mergedTemplateData
           | Some data => spread mergedTemplateData data
           end) metaTagNames acc = acc).
    { induction metaTagNames as [|name l IH]; intros acc; simpl; [reflexivity|].
      unfold templateDataOf at 2. rewrite (Hmissing name) by (left; reflexivity).
      apply IH. intros n Hn. apply Hmissing. right. exact Hn. }
    apply Hfold. }
  unfold mergedDataOf. rewrite Hm, Hnote. simpl default.
  replace (spread [] noteData) with noteData.
  2:{ unfold spread. simpl. symmetry. apply assign_nil_id. exact Wn. }
  unfold bind at 1, read. simpl. rewrite Hread.
  unfold modify. simpl. rewrite bool_decide_eq_false_2 by exact Hrw. reflexivity.
Qed.

End WithYaml.

Lemma missing_template_still_rewrites_witness :
  let newContent := replaceFrontMatter Sample.yaml Sample.noteMergedText
                      (VObj Sample.NoteMerged) in
  applyTemplateMetadata Sample.yaml Sample.noteFile ["Play"; "Opera"]
    (Sample.plugin, Sample.vault)
  = (Returned tt,
     (Sample.plugin,
      withEvent (Modify (path Sample.noteFile) newContent)
        (withText (<[path Sample.noteFile := newContent]> (vaultText Sample.vault))
           Sample.vault))).
Proof.
  apply (missing_template_still_rewrites Sample.yaml Sample.noteFile ["Play"; "Opera"]
           Sample.plugin Sample.vault Sample.noteMergedText Sample.NoteMerged).
  - intros name [<-|[<-|[]]]; reflexivity.
  - reflexivity.
  - reflexivity.
  - reflexivity.
  - vm_compute. intros H. discriminate H.
Defined.

End PropagationFacts.

(** ** Which notes a template change reaches *)

Module ReachFacts.
Import JsString Js JsAny Host Codec Main MainFlow HostFacts TagFacts.
Local Open Scope async_scope.

Lemma getAllTags_cache (w1 w2 : World) (file : TFile) :
  metadataCache w1 = metadataCache w2 -> getAllTags w1 file = getAllTags w2 file.
Proof. intros H. unfold getAllTags. rewrite H. reflexivity. Qed.

Lemma forEach_app {P A} (body : A -> Async P unit) (b : list A) : forall (a : list A) s,
  forEach (a ++ b) body s
  = match forEach a body s with
    | (Returned _, s') => forEach b body s'
    | (Thrown e, s') => (Thrown e, s')
    end.
Proof.
  induction a as [|x a IH]; intros s; simpl; [reflexivity|].
  unfold bind. destruct (body x s) as [[[]|e] s']; [apply IH|reflexivity].
Qed.

Section WithYaml.
Variable Y : YamlLib.

(** The write of [syncTemplateToNote]: one event, for that file, and the
    metadata cache is as it was. *)
Lemma syncTemplateToNote_effect (file : TFile) name added removed curr
    (s : Plugin * World) r :
  syncTemplateToNote Y file name added removed curr s = r ->
  metadataCache (snd (snd r)) = metadataCache (snd s) /\
  exists es,
    events (snd (snd r)) = events (snd s) ++ es /\
    forall ev, In ev es ->
      exists data, ev = Modify (path file) data \/ ev = ModifyRejected (path file) data.
Proof.
  intros <-. destruct s as [p w].
  unfold syncTemplateToNote, bind, getWorld, read, modify. simpl.
  destruct (vaultText w !! path file) as [content|]; simpl.
  - destruct (bool_decide (path file ∈ readOnly w)); simpl.
    + split; [reflexivity|]. eexists. split; [reflexivity|].
      intros ev [<-|[]]. eauto.
    + split; [reflexivity|]. eexists. split; [reflexivity|].
      intros ev [<-|[]]. eauto.
  - split; [reflexivity|]. exists []. rewrite List.app_nil_r. split; [reflexivity|].
    intros ev [].
Qed.

(** The loop of [handleTemplateMetadataChange] over some files: it writes
    only to files among them whose tags include the tag of the template. *)
Lemma propagation_loop (w0 : World) (tag name : string) (added removed : list string)
    (curr : obj) (l : list TFile) : forall (s : Plugin * World) r,
  metadataCache (snd s) = metadataCache w0 ->
  forEach l
    (fun file =>
       w' <- getWorld ;;
       tags <- lift (getAllTags w' file) ;;
       if List.existsb (String.eqb tag) tags
       then syncTemplateToNote Y file name added removed curr
       else ret tt) s = r ->
  metadataCache (snd (snd r)) = metadataCache w0 /\
  exists es,
    events (snd (snd r)) = events (snd s) ++ es /\
    forall ev, In ev es ->
      exists g tags data,
        In g l /\ getAllTags w0 g = Returned tags /\ In tag tags /\
        (ev = Modify (path g) data \/ ev = ModifyRejected (path g) data).
Proof.
  induction l as [|x l IH]; intros s r Hcache Hr; simpl in Hr.
  - subst r. split; [exact Hcache|]. exists []. rewrite List.app_nil_r.
    split; [reflexivity|]. intros ev [].
  - unfold bind at 1 in Hr. unfold bind at 1, getWorld in Hr. simpl in Hr.
    unfold bind at 1, lift in Hr.
    rewrite (getAllTags_cache (snd s) w0 x Hcache) in Hr.
    destruct (getAllTags w0 x) as [tags|e] eqn:Htags.
    2:{ subst r. simpl. split; [exact Hcache|]. exists []. rewrite List.app_nil_r.
        split; [reflexivity|]. intros ev []. }
    destruct (List.existsb (String.eqb tag) tags) eqn:Hbound.
    + destruct (syncTemplateToNote_effect x name added removed curr s _ eq_refl)
        as (Hc1 & es1 & He1 & Hw1).
      destruct (syncTemplateToNote Y x name added removed curr s) as [[[]|e] s1].
      * simpl in Hc1, He1.
        destruct (IH s1 r) as (Hc2 & es2 & He2 & Hw2); [congruence|exact Hr|].
        split; [exact Hc2|]. exists (es1 ++ es2). split.
        -- rewrite He2, He1, List.app_assoc. reflexivity.
        -- intros ev Hev. apply List.in_app_or in Hev. destruct Hev as [Hev|Hev].
           ++ destruct (Hw1 ev Hev) as [data Hd]. exists x, tags, data.
              split; [left; reflexivity|]. split; [exact Htags|].
              split; [apply existsb_eqb_In; exact Hbound|exact Hd].
           ++ destruct (Hw2 ev Hev) as (g & tg & data & Hg & Htg & Hin & Hd).
              exists g, tg, data. split; [right; exact Hg|auto].
      * subst r. simpl in *. split; [congruence|]. exists es1. split; [exact He1|].
        intros ev Hev. destruct (Hw1 ev Hev) as [data Hd]. exists x, tags, data.
        split; [left; reflexivity|]. split; [exact Htags|].
        split; [apply existsb_eqb_In; exact Hbound|exact Hd].
    + simpl in Hr. destruct (IH s r Hcache Hr) as (Hc2 & es2 & He2 & Hw2).
      split; [exact Hc2|]. exists es2. split; [exact He2|].
      intros ev Hev. destruct (Hw2 ev Hev) as (g & tg & data & Hg & Htg & Hin & Hd).
      exists g, tg, data. split; [right; exact Hg|auto].
Qed.

(** [handleTemplateMetadataChange] writes to no file but the notes whose tags
    include the tag of the template: every event it logs is a write, done or
    rejected, to such a note. *)
Theorem propagation_reaches_only_bound_notes (templateFile : TFile)
    (p : Plugin) (w : World) :
  exists es,
    events (snd (snd (handleTemplateMetadataChange Y templateFile (p, w))))
    = events w ++ es /\
    forall ev, In ev es ->
      exists note tags data,
        In note (markdownFiles w) /\
        getAllTags w note = Returned tags /\
        In (tagBase (settings p) +:+ "/" +:+ basename templateFile) tags /\
        (ev = Modify (path note) data \/ ev = ModifyRejected (path note) data).
Proof.
  unfold handleTemplateMetadataChange.
  unfold bind at 1, getPlugin. simpl. unfold bind at 1, getWorld. simpl.
  unfold bind at 1, setPlugin. simpl.
  match goal with |- context [forEach ?l ?b ?s] =>
    destruct (propagation_loop w (tagBase (settings p) +:+ "/" +:+ basename templateFile)
                (basename templateFile)
                (addedPropsOf (default [] (templateCache p !! path templateFile))
                   (default [] (cachedFrontmatter w templateFile)))
                (removedPropsOf (default [] (templateCache p !! path templateFile))
                   (default [] (cachedFrontmatter w templateFile)))
                (default [] (cachedFrontmatter w templateFile))
                l s _ eq_refl eq_refl) as (_ & es & Hes & Hw)
  end.
  exists es. split; [exact Hes|exact Hw].
Qed.

(** Propagation stops at the first note whose tags cannot be read: the call
    throws, and no note after that one in the vault's order is written. *)
Theorem propagation_stops_at_unreadable_tags (templateFile : TFile)
    (p : Plugin) (w : World) (before after : list TFile) (file : TFile) (e : string) :
  markdownFiles w = before ++ file :: after ->
  getAllTags w file = Thrown e ->
  exists e' es,
    fst (handleTemplateMetadataChange Y templateFile (p, w)) = Thrown e' /\
    events (snd (snd (handleTemplateMetadataChange Y templateFile (p, w))))
    = events w ++ es /\
    forall ev, In ev es ->
      exists note data,
        In note before /\
        (ev = Modify (path note) data \/ ev = ModifyRejected (path note) data).
Proof.
  intros Hfiles Hfile.
  remember (handleTemplateMetadataChange Y templateFile (p, w)) as run eqn:Hrun.
  unfold handleTemplateMetadataChange in Hrun.
  unfold bind at 1, getPlugin in Hrun. simpl in Hrun.
  unfold bind at 1, getWorld in Hrun. simpl in Hrun.
  unfold bind at 1, setPlugin in Hrun. simpl in Hrun.
  rewrite Hfiles, forEach_app in Hrun.
  match type of Hrun with context [forEach before ?b ?s] =>
    remember (forEach before b s) as r eqn:Hr;
    destruct (propagation_loop w _ _ _ _ _ before s r eq_refl (eq_sym Hr))
      as (Hc & es & Hes & Hw)
  end.
  assert (Hbefore : forall ev, In ev es ->
            exists note data,
              In note before /\
              (ev = Modify (path note) data \/ ev = ModifyRejected (path note) data)).
  { intros ev Hev. destruct (Hw ev Hev) as (g & tg & data & Hg & _ & _ & Hd).
    exists g, data. auto. }
  destruct r as [[[]|e1] s1].
  - simpl forEach in Hrun. unfold bind at 1 in Hrun.
    unfold bind at 1, getWorld in Hrun. simpl in Hrun. unfold bind at 1, lift in Hrun.
    simpl in Hc. rewrite (getAllTags_cache (snd s1) w file Hc), Hfile in Hrun.
    subst run. exists e, es. split; [reflexivity|]. split; [exact Hes|exact Hbefore].
  - subst run. exists e1, es. split; [reflexivity|]. split; [exact Hes|exact Hbefore].
Qed.

End WithYaml.

Lemma propagation_stops_at_unreadable_tags_witness :
  exists e' es,
    fst (handleTemplateMetadataChange Sample.yaml Sample.bookFile
           (Sample.plugin, Cases.yearFirstVault)) = Thrown e' /\
    events (snd (snd (handleTemplateMetadataChange Sample.yaml Sample.bookFile
                        (Sample.plugin, Cases.yearFirstVault))))
    = events Cases.yearFirstVault ++ es /\
    forall ev, In ev es ->
      exists note data,
        In note [Sample.bookFile] /\
        (ev = Modify (path note) data \/ ev = ModifyRejected (path note) data).
Proof.
  apply (propagation_stops_at_unreadable_tags Sample.yaml Sample.bookFile Sample.plugin
           Cases.yearFirstVault [Sample.bookFile] [Sample.noteFile] Cases.yearFile
           "TypeError"); reflexivity.
Defined.

End ReachFacts.

(** ** Reading back what was written *)

Module RoundTripFacts.
Import JsString Js JsAny Host Codec JsStringFacts PrefixFacts CodecFacts.

Lemma index_shift (pat : string) (a : string) : forall n s,
  String.index (String.length a + n) pat (a +:+ s)
  = match String.index n pat s with
    | Some i => Some (String.length a + i)
    | None => None
    end.
Proof.
  induction a as [|c a IH]; intros n s.
  - change (EmptyString +:+ s) with s. simpl. destruct (String.index n pat s); reflexivity.
  - change (String c a +:+ s) with (String c (a +:+ s)).
    change (String.length (String c a) + n) with (S (String.length a + n)).
    cbv beta iota delta [String.index]. fold String.index.
    rewrite IH. destruct (String.index n pat s); reflexivity.
Qed.

(** What [indexOf] finds in a text, it finds in any extension of it. *)
Lemma index_app_found (pat a rest : string) (n i : nat) :
  pat <> EmptyString ->
  String.index n pat a = Some i -> String.index n pat (a +:+ rest) = Some i.
Proof.
  intros Hne Hi.
  pose proof (String.index_correct1 _ _ _ _ Hi) as Hocc.
  pose proof (index_ge _ _ _ _ Hi) as Hge.
  assert (Hfit : i + String.length pat <= String.length a)
    by (apply (occursAt_bound pat a i); assumption).
  assert (Hocc' : occursAt pat (a +:+ rest) i).
  { unfold occursAt. rewrite String_substring_app_l by exact Hfit. exact Hocc. }
  destruct (indexOf_occurs (a +:+ rest) pat n i Hne Hocc' Hge) as (j & Hj & [Hlo Hhi] & Hoccj).
  unfold indexOf in Hj. rewrite Hj. f_equal.
  destruct (Nat.eq_dec j i) as [|Hji]; [assumption|exfalso].
  assert (Hlt : j < i) by lia.
  apply (String.index_correct2 _ _ _ _ Hi j Hlo Hlt).
  unfold occursAt in Hoccj. rewrite String_substring_app_l in Hoccj by lia. exact Hoccj.
Qed.

Lemma String_substring_whole (a : string) :
  String.substring 0 (String.length a) a = a.
Proof. induction a as [|c a IH]; simpl; [reflexivity|]. rewrite IH. reflexivity. Qed.

Lemma String_substring_head (a b : string) :
  String.substring 0 (String.length a) (a +:+ b) = a.
Proof.
  rewrite String_substring_app_l by (simpl; lia). apply String_substring_whole.
Qed.

(** The block pattern on a text that starts with a written block: the block
    ends at its closing marker when no line of it starts with a marker. *)
Lemma matchBlock_written (block rest : string) :
  String.index 0 (LF +:+ MARK) (block +:+ LF +:+ MARK) = Some (String.length block) ->
  matchBlock (MARK +:+ LF +:+ block +:+ LF +:+ MARK +:+ rest) = Some (block, rest).
Proof.
  intros Hclean.
  assert (Hshape : MARK +:+ LF +:+ block +:+ LF +:+ MARK +:+ rest
                   = (MARK +:+ LF) +:+ ((block +:+ LF +:+ MARK) +:+ rest)).
  { rewrite !append_assoc. reflexivity. }
  rewrite Hshape. unfold matchBlock, startsWith, indexOf.
  rewrite prefix_append.
  change 4 with (String.length (MARK +:+ LF) + 0) at 1.
  rewrite index_shift.
  rewrite (index_app_found (LF +:+ MARK) _ rest 0 _ ltac:(discriminate) Hclean).
  f_equal. f_equal.
  - unfold slice.
    replace (String.length (MARK +:+ LF) + String.length block - 4)
      with (String.length block) by (simpl; lia).
    change 4 with (String.length (MARK +:+ LF) + 0).
    rewrite String_substring_app_r, append_assoc. apply String_substring_head.
  - replace (String.length (MARK +:+ LF) + String.length block + 4)
      with (String.length ((MARK +:+ LF) +:+ (block +:+ LF +:+ MARK))).
    + rewrite <- append_assoc. apply substring_app.
    + rewrite !length_append. simpl. lia.
Qed.

(** A text with an occurrence of [pat] at [i] is what precedes it, [pat],
    and what follows. *)
Lemma split_at_occurrence (pat : string) : forall (i : nat) (s : string),
  pat <> EmptyString -> occursAt pat s i ->
  s = String.substring 0 i s +:+ pat +:+ substring s (i + String.length pat).
Proof.
  unfold occursAt. induction i as [|i IH]; intros s Hne Hocc.
  - rewrite String_substring_0_0. change (EmptyString +:+ ?x) with x.
    apply prefix_split. apply String.prefix_correct. exact Hocc.
  - destruct s as [|c s]; [simpl in Hocc; congruence|].
    simpl in Hocc. simpl.
    change (String c (String.substring 0 i s) +:+ ?x)
      with (String c (String.substring 0 i s +:+ x)).
    f_equal. apply IH; assumption.
Qed.

(** What the block pattern matches in a text, with the markers around it,
    and what follows the match make up the text. *)
Lemma matchBlock_shape (content block rest : string) :
  matchBlock content = Some (block, rest) ->
  content = MARK +:+ LF +:+ block +:+ LF +:+ MARK +:+ rest.
Proof.
  unfold matchBlock, startsWith, indexOf, slice. intros H.
  destruct (String.prefix (MARK +:+ LF) content) eqn:Hp; [|discriminate].
  apply prefix_split in Hp. set (tail := substring content (String.length (MARK +:+ LF))) in Hp.
  rewrite Hp in H. change 4 with (String.length (MARK +:+ LF) + 0) in H at 1.
  rewrite index_shift in H.
  destruct (String.index 0 (LF +:+ MARK) tail) as [i|] eqn:Hi; [|discriminate].
  injection H as Hb Hr.
  change (EmptyString +:+ tail) with tail in Hb, Hr. rewrite Nat.sub_0_r in Hb.
  rewrite Hp, <- Hb, <- Hr, append_assoc.
  do 2 f_equal.
  etransitivity;
    [apply (split_at_occurrence (LF +:+ MARK) i tail);
       [discriminate|exact (String.index_correct1 _ _ _ _ Hi)]|].
  rewrite !append_assoc. reflexivity.
Qed.

(** *** Trimming *)

Lemma list_ascii_app (a b : string) :
  list_ascii_of_string (a +:+ b) = list_ascii_of_string a ++ list_ascii_of_string b.
Proof.
  induction a as [|c a IH]; [reflexivity|].
  change (String c a +:+ b) with (String c (a +:+ b)). simpl. rewrite IH. reflexivity.
Qed.

Lemma string_of_list_app (l1 l2 : list ascii) :
  string_of_list_ascii (l1 ++ l2) = string_of_list_ascii l1 +:+ string_of_list_ascii l2.
Proof.
  induction l1 as [|c l1 IH]; [reflexivity|]. simpl. rewrite IH. reflexivity.
Qed.

Lemma reverse_cons (c : ascii) (s : string) :
  reverse (String c s) = reverse s +:+ String c EmptyString.
Proof. unfold reverse. simpl. apply string_of_list_app. Qed.

Lemma reverse_snoc (c : ascii) (s : string) :
  reverse (s +:+ String c EmptyString) = String c (reverse s).
Proof.
  unfold reverse. rewrite list_ascii_app. simpl. rewrite List.rev_app_distr. reflexivity.
Qed.

Lemma reverse_involutive (s : string) : reverse (reverse s) = s.
Proof.
  unfold reverse. rewrite list_ascii_of_string_of_list_ascii, List.rev_involutive.
  apply string_of_list_ascii_of_string.
Qed.

Lemma trimStart_snoc (c : ascii) (s : string) :
  isWhiteSpace c = false ->
  trimStart (s +:+ String c EmptyString) = trimStart s +:+ String c EmptyString.
Proof.
  intros Hc. induction s as [|d s IH].
  - change (EmptyString +:+ String c EmptyString) with (String c EmptyString).
    simpl. rewrite Hc. reflexivity.
  - change (String d s +:+ String c EmptyString) with (String d (s +:+ String c EmptyString)).
    simpl. destruct (isWhiteSpace d); [exact IH|reflexivity].
Qed.

Lemma trimEnd_cons (c : ascii) (s : string) :
  isWhiteSpace c = false -> trimEnd (String c s) = String c (trimEnd s).
Proof.
  intros Hc. unfold trimEnd. rewrite reverse_cons, (trimStart_snoc c _ Hc).
  apply reverse_snoc.
Qed.

Lemma trimEnd_idem (s : string) : trimEnd (trimEnd s) = trimEnd s.
Proof. unfold trimEnd. rewrite reverse_involutive, trimStart_idem. reflexivity. Qed.

Lemma trimStart_head (s : string) (c : ascii) (t : string) :
  trimStart s = String c t -> isWhiteSpace c = false.
Proof.
  induction s as [|d s IH]; simpl; [discriminate|].
  destruct (isWhiteSpace d) eqn:E; [exact IH|]. intros [= <- _]. exact E.
Qed.

(** A trimmed text has no white space at either end. *)
Lemma trimStart_trim (s : string) : trimStart (trim s) = trim s.
Proof.
  unfold trim. destruct (trimStart s) as [|c t] eqn:E; [reflexivity|].
  pose proof (trimStart_head s c t E) as Hc.
  rewrite (trimEnd_cons c t Hc). simpl. rewrite Hc. reflexivity.
Qed.

(** *** The replacement text of [addFrontmatterToFile] *)

Lemma index_dollar_cons (c : ascii) (r : string) :
  String.index 0 "$" (String c r) = None ->
  Ascii.eqb c "$"%char = false /\ String.index 0 "$" r = None.
Proof.
  intros H.
  change (String.index 0 "$" (String c r))
    with (if String.prefix "$" (String c r) then Some 0
          else match String.index 0 "$" r with
               | Some n => Some (S n)
               | None => None
               end) in H.
  change (String.prefix "$" (String c r))
    with (if Ascii.ascii_dec "$" c then String.prefix EmptyString r else false) in H.
  revert H. destruct (Ascii.ascii_dec "$" c) as [<-|Hne].
  - destruct r; discriminate.
  - destruct (String.index 0 "$" r); [discriminate|]. intros _. split; [|reflexivity].
    destruct (Ascii.eqb_spec c "$"%char) as [->|]; [contradiction|reflexivity].
Qed.

(** A replacement text without dollars stands for itself. *)
Lemma substitution_plain (matched before after : string) : forall r t : string,
  String.index 0 "$" r = None ->
  LegacyFlow.substitution (r +:+ t) matched before after
  = r +:+ LegacyFlow.substitution t matched before after.
Proof.
  induction r as [|c r IH]; intros t Hr; [reflexivity|].
  apply index_dollar_cons in Hr. destruct Hr as [Hc Hr].
  change (String c r +:+ t) with (String c (r +:+ t)). simpl. rewrite Hc.
  change (String c r +:+ ?x) with (String c (r +:+ x)). f_equal. apply IH. exact Hr.
Qed.

(** When the text has a block, [addFrontmatterToFile] puts the given text in
    its place and keeps what follows the block; but the given text is used as
    a replacement pattern: where it holds [$&], the old block with its
    markers is written instead. *)
Theorem addFrontmatter_replaces_block (content block rest a b : string) :
  matchBlock content = Some (block, rest) ->
  String.index 0 "$" a = None -> String.index 0 "$" b = None ->
  LegacyFlow.contentWithFrontmatter content a
  = MARK +:+ LF +:+ a +:+ LF +:+ MARK +:+ rest /\
  LegacyFlow.contentWithFrontmatter content (a +:+ "$&" +:+ b)
  = MARK +:+ LF +:+ a +:+ (MARK +:+ LF +:+ block +:+ LF +:+ MARK) +:+ b
      +:+ LF +:+ MARK +:+ rest.
Proof.
  intros Hm Ha Hb.
  pose proof (matchBlock_shape content block rest Hm) as Hshape.
  set (whole := MARK +:+ LF +:+ block +:+ LF +:+ MARK).
  assert (Hc : content = whole +:+ rest).
  { rewrite Hshape. unfold whole. rewrite !append_assoc. reflexivity. }
  assert (Hrun : forall fm,
    LegacyFlow.contentWithFrontmatter content fm
    = LegacyFlow.substitution (MARK +:+ LF +:+ fm +:+ LF +:+ MARK) whole EmptyString rest
        +:+ rest).
  { intros fm. unfold LegacyFlow.contentWithFrontmatter, LegacyFlow.matchedBlock.
    rewrite Hm. fold whole. unfold LegacyFlow.replaceWith. clear Hm Hshape.
    rewrite Hc. rewrite (index_prefix _ _ (prefix_append whole rest)).
    rewrite String_substring_0_0.
    change (0 + String.length whole) with (String.length whole).
    rewrite substring_app. reflexivity. }
  assert (Htail : LegacyFlow.substitution (LF +:+ MARK) whole EmptyString rest = LF +:+ MARK)
    by reflexivity.
  split.
  - rewrite Hrun.
    replace (MARK +:+ LF +:+ a +:+ LF +:+ MARK)
      with ((MARK +:+ LF) +:+ (a +:+ (LF +:+ MARK))) by (rewrite !append_assoc; reflexivity).
    rewrite substitution_plain by reflexivity.
    rewrite substitution_plain by exact Ha.
    rewrite Htail, !append_assoc. reflexivity.
  - rewrite Hrun.
    replace (MARK +:+ LF +:+ (a +:+ "$&" +:+ b) +:+ LF +:+ MARK)
      with ((MARK +:+ LF) +:+ (a +:+ ("$&" +:+ (b +:+ (LF +:+ MARK)))))
      by (rewrite !append_assoc; reflexivity).
    rewrite substitution_plain by reflexivity.
    rewrite substitution_plain by exact Ha.
    change (LegacyFlow.substitution ("$&" +:+ (b +:+ (LF +:+ MARK))) whole EmptyString rest)
      with (whole +:+ LegacyFlow.substitution (b +:+ (LF +:+ MARK)) whole EmptyString rest).
    rewrite substitution_plain by exact Hb.
    rewrite Htail, !append_assoc. reflexivity.
Qed.

Lemma addFrontmatter_replaces_block_witness :
  LegacyFlow.contentWithFrontmatter Sample.noteText "price: "
  = MARK +:+ LF +:+ "price: " +:+ LF +:+ MARK +:+ (LF +:+ LF +:+ "body") /\
  LegacyFlow.contentWithFrontmatter Sample.noteText ("price: " +:+ "$&" +:+ "5")
  = MARK +:+ LF +:+ "price: "
      +:+ (MARK +:+ LF +:+ Sample.captured Sample.Note +:+ LF +:+ MARK) +:+ "5"
      +:+ LF +:+ MARK +:+ (LF +:+ LF +:+ "body").
Proof.
  apply (addFrontmatter_replaces_block Sample.noteText (Sample.captured Sample.Note)
           (LF +:+ LF +:+ "body") "price: " "5"); reflexivity.
Defined.

Section WithYaml.
Variable Y : YamlLib.

(** The first program of the second source file reads back what it wrote:
    when the serialized map ends in a line feed and none of its lines starts
    with the marker, the block [extractFrontmatter] parses in a text written
    by [updateContentWithFrontmatter] is the serialized map, the body is
    the old body trimmed, and writing the same map again gives the same
    text. *)
Theorem written_block_is_read_back (content : string) (frontmatter : value)
    (block : string) :
  YAML_stringify Y frontmatter = block +:+ LF ->
  String.index 0 (LF +:+ MARK) (block +:+ LF +:+ MARK) = Some (String.length block) ->
  let written := updateContentWithFrontmatter Y content frontmatter in
  extractFrontmatter Y written
  = match YAML_parse Y block with
    | Returned v => Returned v
    | Thrown _ => Returned (VObj [])
    end /\
  trim (afterBlock written) = trim (afterBlock content) /\
  updateContentWithFrontmatter Y written frontmatter = written.
Proof.
  intros Hs Hclean written.
  assert (Hw : written = MARK +:+ LF +:+ block +:+ LF +:+ MARK
                           +:+ (LF +:+ LF +:+ trim (afterBlock content))).
  { unfold written, updateContentWithFrontmatter. rewrite Hs, !append_assoc. reflexivity. }
  pose proof (matchBlock_written block (LF +:+ LF +:+ trim (afterBlock content)) Hclean)
    as Hm.
  rewrite <- Hw in Hm.
  assert (Hb : trim (afterBlock written) = trim (afterBlock content)).
  { unfold afterBlock at 1. rewrite Hm.
    change (trim (LF +:+ LF +:+ trim (afterBlock content)))
      with (trimEnd (trimStart (trim (afterBlock content)))).
    rewrite trimStart_trim. unfold trim. apply trimEnd_idem. }
  split; [|split].
  - unfold extractFrontmatter. rewrite Hm. reflexivity.
  - exact Hb.
  - unfold updateContentWithFrontmatter at 1. rewrite Hb. reflexivity.
Qed.

(** The second program of the second source file reads back what it wrote:
    under the same conditions on the dumped map, the block
    [extractFrontmatter] parses in a text written by [replaceFrontMatter] is
    the dumped map. *)
Theorem dumped_block_is_read_back (content : string) (newData : value) (block : string) :
  JSYAML_dump Y newData = block +:+ LF ->
  String.index 0 (LF +:+ MARK) (block +:+ LF +:+ MARK) = Some (String.length block) ->
  extractFrontmatter Y (replaceFrontMatter Y content newData)
  = match YAML_parse Y block with
    | Returned v => Returned v
    | Thrown _ => Returned (VObj [])
    end.
Proof.
  intros Hs Hclean.
  assert (Hw : replaceFrontMatter Y content newData
               = MARK +:+ LF +:+ block +:+ LF +:+ MARK
                   +:+ (LF +:+ LF +:+ restOfContent content)).
  { unfold replaceFrontMatter. rewrite Hs, !append_assoc. reflexivity. }
  unfold extractFrontmatter. rewrite Hw, (matchBlock_written _ _ Hclean). reflexivity.
Qed.

(** [replaceFrontMatter] is idempotent when the dumped map holds no marker:
    replacing the block of a text it wrote by the same map gives the same
    text. *)
Theorem replaceFrontMatter_twice (content : string) (newData : value) :
  String.index 0 MARK (LF +:+ JSYAML_dump Y newData +:+ "--") = None ->
  replaceFrontMatter Y (replaceFrontMatter Y content newData) newData
  = replaceFrontMatter Y content newData.
Proof.
  intros Hclean. unfold replaceFrontMatter at 1.
  rewrite restOfContent_replaceFrontMatter; [reflexivity|].
  intros p Hocc.
  exact (String.index_correct3 _ _ _ _ Hclean MARK_nonempty (Nat.le_0_l p) Hocc).
Qed.

End WithYaml.

Lemma written_block_is_read_back_witness :
  let written := updateContentWithFrontmatter Sample.yaml Sample.noteText
                   (VObj Sample.Book) in
  extractFrontmatter Sample.yaml written
  = match YAML_parse Sample.yaml (Sample.captured Sample.Book) with
    | Returned v => Returned v
    | Thrown _ => Returned (VObj [])
    end /\
  trim (afterBlock written) = trim (afterBlock Sample.noteText) /\
  updateContentWithFrontmatter Sample.yaml written (VObj Sample.Book) = written.
Proof.
  apply (written_block_is_read_back Sample.yaml Sample.noteText (VObj Sample.Book)
           (Sample.captured Sample.Book)); reflexivity.
Defined.

Lemma dumped_block_is_read_back_witness :
  extractFrontmatter Sample.yaml
    (replaceFrontMatter Sample.yaml Sample.noteText (VObj Sample.Book))
  = match YAML_parse Sample.yaml (Sample.captured Sample.Book) with
    | Returned v => Returned v
    | Thrown _ => Returned (VObj [])
    end.
Proof.
  apply (dumped_block_is_read_back Sample.yaml Sample.noteText (VObj Sample.Book)
           (Sample.captured Sample.Book)); reflexivity.
Defined.

Lemma replaceFrontMatter_twice_witness :
  replaceFrontMatter Sample.yaml
    (replaceFrontMatter Sample.yaml Sample.noteText (VObj Sample.Book)) (VObj Sample.Book)
  = replaceFrontMatter Sample.yaml Sample.noteText (VObj Sample.Book).
Proof.
  apply (replaceFrontMatter_twice Sample.yaml Sample.noteText (VObj Sample.Book)).
  reflexivity.
Defined.

End RoundTripFacts.

(** ** The first program of the second source file *)

Module LegacyFacts.
Import JsString Js JsAny Host Codec Legacy LegacyFlow JsFacts HostFacts ConfirmFacts.
Import PropagationFacts.
Local Open Scope async_scope.

(** [getDeletedProperties] on two mappings: the properties of the old one
    that the new one does not have, in the order of the old one. *)
Theorem deleted_properties_spec (oldTemplate newTemplate : obj) :
  exists deleted,
    getDeletedProperties (VObj oldTemplate) (VObj newTemplate) = Returned deleted /\
    (forall k, In k deleted
               <-> hasOwn k oldTemplate = true /\ hasOwn k newTemplate = false) /\
    ((forall k, hasOwn k oldTemplate = true -> hasOwn k newTemplate = true) ->
     deleted = []).
Proof.
  exists (List.filter (fun key => negb (hasOwn key newTemplate)) (keys oldTemplate)).
  split; [|split].
  - unfold getDeletedProperties. simpl. destruct oldTemplate; reflexivity.
  - intros k. rewrite List.filter_In, In_keys_hasOwn, Bool.negb_true_iff. reflexivity.
  - intros Hall. apply FlowFacts.filter_none. intros k Hk.
    apply In_keys_hasOwn, Hall in Hk. rewrite Hk. reflexivity.
Qed.

Section WithYaml.
Variable Y : YamlLib.

Lemma syncNote_only_writes name dels newFm file :
  emits (Forall isWrite) (syncNote Y name dels newFm file).
Proof.
  pose proof Forall_isWrite_nil as Hn. pose proof Forall_isWrite_app as Ha.
  unfold syncNote.
  apply emits_bind; try assumption; [apply emits_silent; auto|intros p].
  apply emits_bind; try assumption; [apply emits_silent; auto|intros w].
  apply emits_bind; try assumption; [apply emits_silent; auto|intros [|]];
    [|apply emits_silent; auto].
  apply emits_bind; try assumption; [apply emits_read; auto|intros content].
  apply emits_bind; try assumption; [apply emits_silent; auto|intros parsed].
  apply emits_bind; try assumption; [apply emits_silent; auto|intros existing].
  destruct (negb _); [|apply emits_silent; auto].
  apply emits_bind; try assumption; [apply emits_silent; auto|intros _].
  apply emits_bind; try assumption; [apply emits_modify; repeat constructor|intros _].
  apply emits_silent; auto.
Qed.

Lemma propagation_only_writes name dels newFm (files : list TFile) :
  emits (Forall isWrite)
    (setPlugin (fun p => withPreviousTemplateState
                           (<[name := newFm]> (previousTemplateState p)) p) ;;;
     forEach files (syncNote Y name dels newFm)).
Proof.
  pose proof Forall_isWrite_nil as Hn. pose proof Forall_isWrite_app as Ha.
  apply emits_bind; try assumption; [apply emits_silent; auto|intros _].
  apply emits_forEach; try assumption. intros file. apply syncNote_only_writes.
Qed.

Lemma revert_only_writes (templateFile : TFile) (reverted : string) :
  emits (P:=Plugin) (Forall isWrite)
    (setPlugin (withSuppressTemplateChange true) ;;;
     modify templateFile reverted ;;;
     setPlugin (withSuppressTemplateChange false)).
Proof.
  pose proof Forall_isWrite_nil as Hn. pose proof Forall_isWrite_app as Ha.
  apply emits_bind; try assumption; [apply emits_silent; auto|intros _].
  apply emits_bind; try assumption; [apply emits_modify; repeat constructor|intros _].
  apply emits_silent; auto.
Qed.

(** Whatever the state, [syncNotesWithTemplate] asks the user at most once,
    and before it writes anything: what it adds to the log is a list of
    writes, possibly preceded by one confirmation. *)
Theorem at_most_one_confirmation_first (templateName : string) (s : Plugin * World) :
  exists es,
    events (snd (snd (syncNotesWithTemplate Y templateName s))) = events (snd s) ++ es /\
    (Forall isWrite es \/
     exists message answer rest, es = Confirm message answer :: rest /\ Forall isWrite rest).
Proof.
  destruct s as [p w]. simpl snd.
  assert (Hquiet :
    exists es, events w = events w ++ es /\
      (Forall isWrite es \/
       exists message answer rest,
         es = Confirm message answer :: rest /\ Forall isWrite rest)).
  { exists []. rewrite List.app_nil_r. split; [reflexivity|]. left. constructor. }
  unfold syncNotesWithTemplate.
  unfold bind at 1. simpl.
  destruct (getAbstractFileByPath w (templateName +:+ ".md")) as [templateFile|];
    [|exact Hquiet].
  unfold bind at 1. simpl.
  unfold bind at 1. unfold read. simpl.
  destruct (vaultText w !! path templateFile) as [content|]; [|exact Hquiet].
  unfold bind at 1. unfold lift.
  destruct (extractFrontmatter Y content) as [newFm|e]; [|exact Hquiet].
  destruct (truthy newFm); simpl; [|exact Hquiet].
  unfold bind at 1.
  destruct (getDeletedProperties (previousFrontmatterOf p templateName) newFm)
    as [deleted|e]; [|exact Hquiet].
  unfold bind at 1.
  destruct deleted as [|d ds].
  - simpl.
    destruct (propagation_only_writes templateName [] newFm (markdownFiles w) (p, w))
      as (es & Hes & Hw).
    exists es. split; [exact Hes|left; exact Hw].
  - unfold confirm at 1. simpl fst. simpl snd.
    set (message := confirmMessage templateName (d :: ds)).
    set (w1 := withEvent (Confirm message (confirmAnswer w message)) w).
    destruct (confirmAnswer w message); simpl negb; cbv iota.
    + destruct (propagation_only_writes templateName (d :: ds) newFm (markdownFiles w)
                  (p, w1)) as (es & Hes & Hw).
      exists (Confirm message true :: es). split.
      * transitivity (events w1 ++ es); [exact Hes|].
        unfold w1. simpl. rewrite <- List.app_assoc. reflexivity.
      * right. exists message, true, es. split; [reflexivity|exact Hw].
    + destruct (revert_only_writes templateFile
                  (revertedContentOf Y (previousFrontmatterOf p templateName) content)
                  (p, w1)) as (es & Hes & Hw).
      exists (Confirm message false :: es). split.
      * transitivity (events w1 ++ es); [exact Hes|].
        unfold w1. simpl. rewrite <- List.app_assoc. reflexivity.
      * right. exists message, false, es. split; [reflexivity|exact Hw].
Qed.

(** A file whose [tags] is a single string is never a template for the
    [modify] handler, which wants a list; yet the start-up scan takes it for
    one as soon as that string contains the base tag, anywhere in it. *)
Theorem scalar_tags_template (file : TFile) (p : Plugin) (w : World)
    (frontmatter : obj) (tags : string) :
  cachedFrontmatter w file = Some frontmatter ->
  getProp "tags" frontmatter = Some (VStr tags) ->
  onModify Y file (p, w) = (Returned tt, (p, w)) /\
  tagsInclude w file (tagBase p) = Returned (includes tags (tagBase p)).
Proof.
  intros Hfm Htags. split.
  - unfold onModify, bind at 1, getPlugin. simpl. unfold bind at 1, getWorld. simpl.
    rewrite Hfm. unfold member.
    change (ownEntries (VObj frontmatter)) with frontmatter. rewrite Htags.
    unfold hasTagBase. destruct (negb (truthy (VStr tags))); reflexivity.
  - unfold tagsInclude. rewrite Hfm, Htags. reflexivity.
Qed.




End WithYaml.

Lemma scalar_tags_template_witness :
  onModify Sample.yaml Cases.warmthFile (Sample.legacyPlugin, Cases.warmthVault)
  = (Returned tt, (Sample.legacyPlugin, Cases.warmthVault)) /\
  tagsInclude Cases.warmthVault Cases.warmthFile (tagBase Sample.legacyPlugin)
  = Returned (includes "warmth" (tagBase Sample.legacyPlugin)).
Proof.
  apply (scalar_tags_template Sample.yaml Cases.warmthFile Sample.legacyPlugin
           Cases.warmthVault [("tags", VStr "warmth")] "warmth"); reflexivity.
Defined.


End LegacyFacts.

(** ** The second program of the second source file *)

Module FolderFacts.
Import JsString Js JsAny Host Codec Main MainFlow Folder FolderFlow PrefixFacts.

(** The names [getMetaTagNamesFromFrontmatter] reads from a frontmatter are
    the names [handleMetaTagAdded] would derive from the tags
    [getAllTagsFromFrontmatter] reads from it; both fail on a tag that is
    not a string. *)
Theorem names_from_frontmatter (p : Plugin) (frontmatter : obj) :
  getMetaTagNamesFromFrontmatter p frontmatter
  = match getAllTagsFromFrontmatter frontmatter with
    | Returned tags => Returned (metaTagNamesOf (tagBase (settings p)) tags)
    | Thrown e => Thrown e
    end.
Proof.
  unfold getMetaTagNamesFromFrontmatter, getAllTagsFromFrontmatter, metaTagNamesOf.
  destruct (member (VObj frontmatter) "tags") as [| |b|n|s|l|o]; try reflexivity.
  - destruct (negb (truthy (VBool b))); reflexivity.
  - destruct (negb (truthy (VNum n))); reflexivity.
  - destruct (negb (truthy (VStr s))); reflexivity.
Qed.

Section WithFolders.
Variable folderAt : string -> bool.

(** With a template folder set, every file whose path starts with the
    folder's path counts as a template, whatever follows: also a file of a
    sibling folder whose name only starts the same way. *)
Theorem template_folder_is_a_path_prefix (p : Plugin) (w : World)
    (folder suffix : string) (file : TFile) :
  trim (templateFolderPath (settings p)) = folder ->
  folder <> EmptyString ->
  folderAt folder = true ->
  path file = folder +:+ suffix ->
  isTemplateFile folderAt p w file = Returned true.
Proof.
  intros Htrim Hne Hfolder Hpath. unfold isTemplateFile. rewrite Htrim.
  destruct (String.eqb_spec folder EmptyString) as [|_]; [contradiction|]. simpl.
  rewrite Hfolder, Hpath. unfold startsWith. rewrite prefix_append. reflexivity.
Qed.

End WithFolders.

Lemma template_folder_is_a_path_prefix_witness :
  isTemplateFile Cases.onlyTemplates Cases.folderPlugin Sample.vault Cases.siblingFile
  = Returned true.
Proof.
  apply (template_folder_is_a_path_prefix Cases.onlyTemplates Cases.folderPlugin
           Sample.vault "templates" "-old/Book.md" Cases.siblingFile).
  - reflexivity.
  - discriminate.
  - reflexivity.
  - reflexivity.
Defined.

Lemma findTemplate_first (p : Plugin) (w : World) (templateName : string)
    (file : TFile) (after : list TFile) : forall before : list TFile,
  (forall g, In g before -> basename g = templateName ->
             carriesBaseTag p w g = Returned false) ->
  basename file = templateName ->
  carriesBaseTag p w file = Returned true ->
  findTemplate p w templateName (before ++ file :: after) = Returned (Some file).
Proof.
  intros before Hbefore Hname Htag.
  induction before as [|g before IH]; simpl.
  - rewrite Hname, String.eqb_refl, Htag. reflexivity.
  - destruct (String.eqb_spec (basename g) templateName) as [Hg|_].
    + rewrite (Hbefore g (or_introl eq_refl) Hg). apply IH.
      intros h Hh. apply Hbefore. right. exact Hh.
    + apply IH. intros h Hh. apply Hbefore. right. exact Hh.
Qed.

(** Without a template folder (the setting is empty or blank), the template
    of a name is the first markdown file of the vault with that base name
    that carries the base tag. *)
Theorem template_lookup_by_tag (p : Plugin) (w : World) (templateName : string)
    (before after : list TFile) (file : TFile) :
  trim (templateFolderPath (settings p)) = EmptyString ->
  markdownFiles w = before ++ file :: after ->
  (forall g, In g before -> basename g = templateName ->
             carriesBaseTag p w g = Returned false) ->
  basename file = templateName ->
  carriesBaseTag p w file = Returned true ->
  getTemplateFileByName p w templateName = Returned (Some file).
Proof.
  intros Hblank Hfiles Hbefore Hname Htag.
  unfold getTemplateFileByName. rewrite Hblank, Hfiles. simpl.
  apply findTemplate_first; assumption.
Qed.

Lemma template_lookup_by_tag_witness :
  getTemplateFileByName Cases.blankFolderPlugin Cases.twoBooksVault "Book"
  = Returned (Some Sample.bookFile).
Proof.
  apply (template_lookup_by_tag Cases.blankFolderPlugin Cases.twoBooksVault "Book"
           [Cases.draftBookFile] [Sample.noteFile] Sample.bookFile).
  - reflexivity.
  - reflexivity.
  - intros g [<-|[]] _. reflexivity.
  - reflexivity.
  - reflexivity.
Defined.

End FolderFacts.
